(** * Facebook_backend: missions, scheduler, persistence gateway and
      record-container discovery.

    A shallow embedding of the parts of the repository that the
    specification speaks about:

    - [Js], [JsDate] : the string and [Date] primitives the code calls;
    - [Db]        : [src/db.ts], the schemas, [saveAd], [getStats],
                    [updateMission];
    - [Protocol]  : the line tags and the summary line of the worker, as
                    the regular expressions of the supervisors read them;
    - [SchedulerService] : [src/scheduler.ts];
    - [Server]    : the mission supervisor of [server.js];
    - [Scraper]   : the worker of [src/scraper.ts];
    - [Dom]       : the injected [__findAdCards] helper;
    - [Scenarios] : concrete missions, pages and outputs.

    The Ad collection is a list (insertion order is the natural order
    [findOne] scans); the Mission and Scheduler collections, and the
    registry of running workers, are finite maps keyed by id. Readings of
    the clock, failures of the store, [JSON.parse] and the browser page
    are explicit inputs. Numbers are integers, texts are kept in UTF-8. *)

From stdpp Require Import gmap strings list.
From Stdlib Require Import ZArith String Ascii Bool Lia DecimalString.

Open Scope string_scope.
Open Scope Z_scope.

(** ** JavaScript string primitives used by the code *)

Module Js.

(** [hay.includes(needle)] *)
Fixpoint includes (hay needle : string) : bool :=
  String.prefix needle hay ||
  match hay with
  | EmptyString => false
  | String _ rest => includes rest needle
  end.

(** [x || 0] on a numeric field that may be absent. *)
Definition or0 (x : option Z) : Z :=
  match x with
  | Some v => v
  | None => 0
  end.

(** Texts are kept in UTF-8, one [ascii] per byte. *)

Definition byte (c : ascii) : nat := nat_of_ascii c.

(** [s.length]: the number of UTF-16 code units of the text. A
    continuation byte adds none, the first byte of a four-byte sequence
    adds two, every other byte one. *)
Definition codeUnits (c : ascii) : nat :=
  if (Nat.leb 128 (byte c) && Nat.ltb (byte c) 192)%bool then 0%nat
  else if Nat.leb 240 (byte c) then 2%nat else 1%nat.

Fixpoint length (s : string) : nat :=
  match s with
  | EmptyString => 0%nat
  | String c rest => (codeUnits c + length rest)%nat
  end.

(** The white space and line terminators that [trim] removes, by their
    encodings: TAB, LF, VT, FF, CR and SP; U+00A0; U+1680, U+2000 to
    U+200A, U+2028, U+2029, U+202F, U+205F, U+3000 and U+FEFF. *)
Definition is_space1 (x : nat) : bool :=
  (Nat.eqb x 32 || (Nat.leb 9 x && Nat.leb x 13))%bool.

Definition is_space2 (x y : nat) : bool :=
  (Nat.eqb x 194 && Nat.eqb y 160)%bool.

Definition is_space3 (x y z : nat) : bool :=
  ((Nat.eqb x 225 && Nat.eqb y 154 && Nat.eqb z 128)
   || (Nat.eqb x 226 && Nat.eqb y 128
       && ((Nat.leb 128 z && Nat.leb z 138) || Nat.eqb z 168 || Nat.eqb z 169
           || Nat.eqb z 175))
   || (Nat.eqb x 226 && Nat.eqb y 129 && Nat.eqb z 159)
   || (Nat.eqb x 227 && Nat.eqb y 128 && Nat.eqb z 128)
   || (Nat.eqb x 239 && Nat.eqb y 187 && Nat.eqb z 191))%bool.

Fixpoint trimStart (s : string) : string :=
  match s with
  | EmptyString => EmptyString
  | String a r1 =>
      if is_space1 (byte a) then trimStart r1
      else
        match r1 with
        | EmptyString => s
        | String b r2 =>
            if is_space2 (byte a) (byte b) then trimStart r2
            else
              match r2 with
              | EmptyString => s
              | String c r3 =>
                  if is_space3 (byte a) (byte b) (byte c) then trimStart r3
                  else s
              end
        end
  end.

(** The bytes of a text from its last to its first, without the white
    space the text ends with. *)
Fixpoint dropSpacesRev (r : list ascii) : list ascii :=
  match r with
  | [] => []
  | c :: r1 =>
      if is_space1 (byte c) then dropSpacesRev r1
      else
        match r1 with
        | [] => r
        | b :: r2 =>
            if is_space2 (byte b) (byte c) then dropSpacesRev r2
            else
              match r2 with
              | [] => r
              | a :: r3 =>
                  if is_space3 (byte a) (byte b) (byte c) then dropSpacesRev r3
                  else r
              end
        end
  end.

Definition trimEnd (s : string) : string :=
  string_of_list_ascii
    (List.rev (dropSpacesRev (List.rev (list_ascii_of_string s)))).

(** [s.trim()] *)
Definition trim (s : string) : string := trimEnd (trimStart s).

(** [s.length === 0]: a text without a code unit is the empty text. *)
Definition isEmpty (s : string) : bool :=
  match s with
  | EmptyString => true
  | String _ _ => false
  end.

(** [s.replace(/\*+/g, '* ')]: every maximal run of stars becomes a star
    and a space. [in_run] tells that the previous character was a star. *)
Fixpoint replaceStarRuns (in_run : bool) (s : string) : string :=
  match s with
  | EmptyString => EmptyString
  | String c rest =>
      if Ascii.eqb c "*"%char
      then if in_run then replaceStarRuns true rest
           else String "*"%char (String " "%char (replaceStarRuns true rest))
      else String c (replaceStarRuns false rest)
  end.

Definition lowerChar (c : ascii) : ascii :=
  let n := nat_of_ascii c in
  if (Nat.leb 65 n && Nat.leb n 90)%bool then ascii_of_nat (n + 32) else c.

(** What [s.toLowerCase()] gives on ASCII text: the capital letters
    become small ones. On other text [toLowerCase] follows the Unicode
    case mappings and is a parameter of the definitions that call it. *)
Fixpoint toLowerCaseASCII (s : string) : string :=
  match s with
  | EmptyString => EmptyString
  | String c rest => String (lowerChar c) (toLowerCaseASCII rest)
  end.

(** [buffer.toString()]: the UTF-8 decoder, which puts U+FFFD in the
    place of every byte or truncated sequence that encodes no
    character. The decoder keeps how many bytes the character it is
    reading still needs, the range the next byte must lie in, and the
    bytes of that character read so far. *)
Record Decoder := mkDecoder {
  needed : nat;
  lower : nat;
  upper : nat;
  pending : string
}.

Definition idle : Decoder := mkDecoder 0 128 191 EmptyString.

(** U+FFFD *)
Definition replacement : string :=
  String (ascii_of_nat 239) (String (ascii_of_nat 191)
    (String (ascii_of_nat 189) EmptyString)).

(** A byte met between two characters. *)
Definition start (b : ascii) : string * Decoder :=
  let x := byte b in
  if Nat.leb x 127 then (String b EmptyString, idle)
  else if (Nat.leb 194 x && Nat.leb x 223)%bool
  then (EmptyString, mkDecoder 1 128 191 (String b EmptyString))
  else if (Nat.leb 224 x && Nat.leb x 239)%bool
  then (EmptyString,
        mkDecoder 2 (if Nat.eqb x 224 then 160 else 128)
          (if Nat.eqb x 237 then 159 else 191) (String b EmptyString))
  else if (Nat.leb 240 x && Nat.leb x 244)%bool
  then (EmptyString,
        mkDecoder 3 (if Nat.eqb x 240 then 144 else 128)
          (if Nat.eqb x 244 then 143 else 191) (String b EmptyString))
  else (replacement, idle).

Definition step (d : Decoder) (b : ascii) : string * Decoder :=
  match needed d with
  | O => start b
  | S k =>
      if (Nat.leb (lower d) (byte b) && Nat.leb (byte b) (upper d))%bool
      then
        match k with
        | O => (pending d ++ String b EmptyString, idle)
        | _ => (EmptyString,
                mkDecoder k 128 191 (pending d ++ String b EmptyString))
        end
      else (replacement ++ fst (start b), snd (start b))
  end.

Fixpoint decodeFrom (d : Decoder) (bytes : string) : string * Decoder :=
  match bytes with
  | EmptyString => (EmptyString, d)
  | String b rest =>
      let (out, d1) := step d b in
      let (more, d2) := decodeFrom d1 rest in
      (out ++ more, d2)
  end.

Definition decodeUtf8 (bytes : string) : string :=
  let (out, d) := decodeFrom idle bytes in
  match needed d with
  | O => out
  | S _ => out ++ replacement
  end.

(** The bytes end between two characters. *)
Definition endsOnCharacter (bytes : string) : bool :=
  Nat.eqb (needed (snd (decodeFrom idle bytes))) 0.

Definition LF : ascii := "010"%char.

(** [s.split('\n')]: the pieces between line feeds, never an empty list. *)
Fixpoint splitLines (s : string) : list string :=
  match s with
  | EmptyString => [EmptyString]
  | String c rest =>
      if Ascii.eqb c LF then EmptyString :: splitLines rest
      else match splitLines rest with
           | [] => [String c EmptyString]
           | piece :: pieces => String c piece :: pieces
           end
  end.

(** The text holds no line feed. *)
Fixpoint singleLine (s : string) : bool :=
  match s with
  | EmptyString => true
  | String c rest => negb (Ascii.eqb c LF) && singleLine rest
  end.

(** What [console.log] writes for a list of lines: each line and a line
    feed. *)
Fixpoint printed (lines : list string) : string :=
  match lines with
  | [] => EmptyString
  | line :: rest => line ++ String LF (printed rest)
  end.

(** Decimal rendering of an integer in a template literal. *)
Definition showZ (z : Z) : string := NilZero.string_of_int (Z.to_int z).

End Js.

(** ** The [Date] arithmetic behind [setMinutes], [setHours], [setDate]

    A [Date] is its time value, milliseconds since the epoch. The
    setters and getters work on local time, in the time zone of the
    process: the zone is its [LocalTZA], the offset in force at a time
    value ([LocalTZA t true]) or at a local time ([LocalTZA t false],
    where a local time that the clocks show twice is taken with the
    offset before the change). The civil calendar enters only through
    [month_start], the day number on which the month of a given day
    begins. *)

Module JsDate.

Definition msPerDay : Z := 86400000.
Definition msPerHour : Z := 3600000.
Definition msPerMinute : Z := 60000.
Definition msPerSecond : Z := 1000.

Definition Day (t : Z) : Z := t / msPerDay.
Definition TimeWithinDay (t : Z) : Z := t mod msPerDay.
Definition HourFromTime (t : Z) : Z := (t / msPerHour) mod 24.
Definition MinFromTime (t : Z) : Z := (t / msPerMinute) mod 60.
Definition SecFromTime (t : Z) : Z := (t / msPerSecond) mod 60.
Definition msFromTime (t : Z) : Z := t mod msPerSecond.
Definition WeekDay (t : Z) : Z := (Day t + 4) mod 7.

Definition MakeTime (hour min sec ms : Z) : Z :=
  hour * msPerHour + min * msPerMinute + sec * msPerSecond + ms.
Definition MakeDate (day time : Z) : Z := day * msPerDay + time.

(** [LocalTZA(t, isUTC)]: the offset of local time from UTC, in
    milliseconds, at the instant [t] when [isUTC] is true, and at the
    local time [t] otherwise. A local time that the clocks show twice
    gets the offset of its first occurrence. *)
Definition Zone : Type := Z -> bool -> Z.

(** A zone whose clocks are never changed, such as Asia/Kolkata. *)
Definition fixedZone (tza : Z) : Zone := fun _ _ => tza.

(** A zone that has the offset [before] up to the instant [change] and
    puts its clocks back by one hour then, as at the end of a
    daylight-saving period. *)
Definition fallBackZone (change before : Z) : Zone :=
  fun t isUTC =>
    if isUTC then if t <? change then before else before - msPerHour
    else if t - before <? change then before else before - msPerHour.

(** America/New_York between 10 March 2024 and 9 March 2025: four hours
    behind UTC until 3 November 2024, 06:00 UTC, five hours from then. *)
Definition newYork : Zone := fallBackZone 1730613600000 (-14400000).

Section LocalTime.

Variable LocalTZA : Zone.
Variable month_start : Z -> Z.

Definition LocalTime (t : Z) : Z := t + LocalTZA t true.
Definition UTC (t : Z) : Z := t - LocalTZA t false.

Definition getHours (t : Z) : Z := HourFromTime (LocalTime t).
Definition getMinutes (t : Z) : Z := MinFromTime (LocalTime t).
Definition getDay (t : Z) : Z := WeekDay (LocalTime t).

(** Day of the month, 1-based. *)
Definition DateFromTime (t : Z) : Z := Day t - month_start (Day t) + 1.
Definition getDate (t : Z) : Z := DateFromTime (LocalTime t).

(** [MakeDay(YearFromTime(t), MonthFromTime(t), dt)] *)
Definition MakeDayInMonthOf (t dt : Z) : Z := month_start (Day t) + dt - 1.

(** [d.setMinutes(min)] *)
Definition setMinutes (t min : Z) : Z :=
  let l := LocalTime t in
  UTC (MakeDate (Day l) (MakeTime (HourFromTime l) min (SecFromTime l) (msFromTime l))).

(** [d.setHours(hour)] *)
Definition setHours (t hour : Z) : Z :=
  let l := LocalTime t in
  UTC (MakeDate (Day l) (MakeTime hour (MinFromTime l) (SecFromTime l) (msFromTime l))).

(** [d.setHours(hour, min, sec, ms)] *)
Definition setHours4 (t hour min sec ms : Z) : Z :=
  let l := LocalTime t in
  UTC (MakeDate (Day l) (MakeTime hour min sec ms)).

(** [d.setDate(dt)] *)
Definition setDate (t dt : Z) : Z :=
  let l := LocalTime t in
  UTC (MakeDate (MakeDayInMonthOf l dt) (TimeWithinDay l)).

End LocalTime.

End JsDate.

(** ** src/db.ts *)

Module Db.

(** [adSchema]: the fields [saveAd] writes, and [scrape_date] with its
    default [Date.now]. [userId] is absent ([None]) when the caller gave
    no owner. *)
Record Ad := mkAd {
  userId : option string;
  advertiser_name : string;
  ad_description : string;
  scrape_date : Z;
  keyword : string;
  phone : option string;
  address : option string;
  ad_start_date : option Z
}.

(** The query document built by [saveAd]: [userId] is only set when the
    argument is neither [null] nor [undefined]. *)
Record AdFilter := mkFilter {
  f_advertiser_name : string;
  f_ad_description : string;
  f_userId : option string
}.

(** A document matches a query when every field present in the query is
    present in the document with an equal value. *)
Definition matches (f : AdFilter) (a : Ad) : bool :=
  String.eqb (advertiser_name a) (f_advertiser_name f)
  && String.eqb (ad_description a) (f_ad_description f)
  && match f_userId f with
     | None => true
     | Some u =>
         match userId a with
         | Some v => String.eqb v u
         | None => false
         end
     end.

(** [Ad.findOne(filter)] *)
Definition findOne (f : AdFilter) (ads : list Ad) : option Ad :=
  List.find (matches f) ads.

(** Where the store may throw inside [saveAd]'s [try] block. *)
Inductive Fault := NoFault | ConnectFails | FindOneFails | SaveFails.

(** Result of a call: the boolean returned, the collection afterwards and
    the lines written with [console.log]. *)
Record SaveResult := mkSaveResult {
  returned : bool;
  ads_after : list Ad;
  logged : list string
}.

(** [saveAd(advertiser, description, keyword, phone, address, startDate, userId)];
    [now] is the clock reading behind the default of [scrape_date]. *)
Definition saveAd (fault : Fault) (now : Z)
    (advertiser description kw : string) (ph addr : option string)
    (startDate : option Z) (owner : option string) (ads : list Ad) : SaveResult :=
  match fault with
  | ConnectFails => mkSaveResult false ads []
  | _ =>
    let filter := mkFilter advertiser description owner in
    match fault with
    | FindOneFails => mkSaveResult false ads []
    | _ =>
      match findOne filter ads with
      | Some _ =>
          mkSaveResult false ads ["[Skip] Ad already exists: " ++ advertiser]
      | None =>
          let adData :=
            mkAd owner advertiser description now kw ph addr startDate in
          match fault with
          | SaveFails => mkSaveResult false ads []
          | _ =>
              mkSaveResult true (ads ++ [adData])
                           ["[Save] New ad stored: " ++ advertiser]
          end
      end
    end
  end.

(** [getStats(userId)]: the records scraped since local midnight. *)
Definition getStats (zone : JsDate.Zone) (now : Z) (owner : option string)
    (ads : list Ad) : Z :=
  let startOfDay := JsDate.setHours4 zone now 0 0 0 0 in
  Z.of_nat (List.length (List.filter
    (fun a => (startOfDay <=? scrape_date a)
              && match owner with
                 | None => true
                 | Some u =>
                     match userId a with
                     | Some v => String.eqb v u
                     | None => false
                     end
                 end) ads)).

(** The dedup key of a persisted record, owner included. *)
Definition dedup_key (a : Ad) : option string * (string * string) :=
  (userId a, (advertiser_name a, ad_description a)).

(** *** Writers that run beside each other

    [saveAd] above is a call that nothing interrupts. The collection has
    no unique index, [POST /api/scrape] starts the workers of several
    missions side by side, and the Google route of [server.js] stores
    records with [new Ad(doc).save()] and no lookup. Between the
    [findOne] of a call and its [save] the collection may therefore
    change. The store below keeps, beside the collection, the documents
    of the calls that are past their [findOne] (which found nothing) and
    have not saved yet. *)
Record Store := mkStore {
  stored : list Ad;
  inFlight : list Ad
}.

Inductive Event :=
| Lookup (now : Z) (advertiser description kw : string)
    (ph addr : option string) (startDate : option Z) (owner : option string)
| Save (call : nat)
| GoogleSave (doc : Ad).

(** [saveAd] up to the answer of its [findOne]: [true] when the call
    goes on to save. *)
Definition lookup (now : Z) (advertiser description kw : string)
    (ph addr : option string) (startDate : option Z) (owner : option string)
    (s : Store) : bool * Store :=
  match findOne (mkFilter advertiser description owner) (stored s) with
  | Some _ => (false, s)
  | None =>
      (true,
       mkStore (stored s)
         (inFlight s ++ [mkAd owner advertiser description now kw ph addr startDate]))
  end.

(** The [save] of the call in flight at position [call]. *)
Definition save (call : nat) (s : Store) : Store :=
  match inFlight s !! call with
  | Some document => mkStore (stored s ++ [document]) (delete call (inFlight s))
  | None => s
  end.

Definition apply (s : Store) (e : Event) : Store :=
  match e with
  | Lookup now advertiser description kw ph addr startDate owner =>
      snd (lookup now advertiser description kw ph addr startDate owner s)
  | Save call => save call s
  | GoogleSave doc => mkStore (stored s ++ [doc]) (inFlight s)
  end.

Definition run (events : list Event) : Store :=
  fold_left apply events (mkStore [] []).

(** The collections that the writers can leave behind. *)
Definition reachable (ads : list Ad) : Prop :=
  exists events, stored (run events) = ads.

(** [missionSchema], without [country], [source] and [createdAt], which
    nothing below reads. *)
Inductive Status := running | completed | failed | stopped.

Record Mission := mkMission {
  m_userId : option string;
  m_keyword : string;
  status : Status;
  startTime : Z;
  endTime : option Z;
  adsFound : Z;
  newAds : Z;
  duplicatesSkipped : Z;
  adsProcessed : Z;
  maxAdsPerRequest : Z;
  dailyLimit : Z;
  error : option string;
  executionId : option string;
  updatedAt : Z
}.

Definition is_terminal (s : Status) : bool :=
  match s with
  | running => false
  | _ => true
  end.

(** The fields an update document may [$set]; [None] leaves a field as
    it is. *)
Record MissionSet := mkMissionSet {
  set_status : option Status;
  set_endTime : option Z;
  set_adsFound : option Z;
  set_newAds : option Z;
  set_duplicatesSkipped : option Z;
  set_adsProcessed : option Z;
  set_error : option string;
  set_updatedAt : option Z
}.

Definition noSet : MissionSet :=
  mkMissionSet None None None None None None None None.

(** The amounts of an [$inc] document; an absent field adds [0]. *)
Record MissionInc := mkMissionInc {
  inc_adsFound : option Z;
  inc_newAds : option Z;
  inc_duplicatesSkipped : option Z
}.

Definition noInc : MissionInc := mkMissionInc None None None.

Definition pick {A} (new : option A) (old : A) : A :=
  match new with
  | Some v => v
  | None => old
  end.

Definition pickOpt {A} (new : option A) (old : option A) : option A :=
  match new with
  | Some v => Some v
  | None => old
  end.

(** Effect of [{ $set, $inc }] on one document. *)
Definition applyUpdate (u : MissionSet) (i : MissionInc) (m : Mission) : Mission :=
  mkMission (m_userId m) (m_keyword m)
    (pick (set_status u) (status m))
    (startTime m)
    (pickOpt (set_endTime u) (endTime m))
    (pick (set_adsFound u) (adsFound m) + Js.or0 (inc_adsFound i))
    (pick (set_newAds u) (newAds m) + Js.or0 (inc_newAds i))
    (pick (set_duplicatesSkipped u) (duplicatesSkipped m)
       + Js.or0 (inc_duplicatesSkipped i))
    (pick (set_adsProcessed u) (adsProcessed m))
    (maxAdsPerRequest m) (dailyLimit m)
    (pickOpt (set_error u) (error m))
    (executionId m)
    (pick (set_updatedAt u) (updatedAt m)).

(** [Mission.findByIdAndUpdate(id, update)]: nothing happens when no
    document has that id. *)
Definition findByIdAndUpdate (id : string) (u : MissionSet) (i : MissionInc)
    (missions : gmap string Mission) : gmap string Mission :=
  alter (applyUpdate u i) id missions.

(** [updateMission(missionId, updates)]: the update with [updatedAt]
    added; a failing store is logged and the collection stays. *)
Definition updateMission (store_ok : bool) (now : Z) (missionId : string)
    (updates : MissionSet) (missions : gmap string Mission)
  : gmap string Mission :=
  if store_ok
  then findByIdAndUpdate missionId
         (mkMissionSet (set_status updates) (set_endTime updates)
            (set_adsFound updates) (set_newAds updates)
            (set_duplicatesSkipped updates) (set_adsProcessed updates)
            (set_error updates) (Some now))
         noInc missions
  else missions.

(** [schedulerSchema], without [createdAt] and [updatedAt]. *)
Record Scheduler := mkScheduler {
  s_userId : option string;
  s_keyword : string;
  cronExpression : string;
  isActive : bool;
  s_maxAdsPerRequest : Z;
  s_dailyLimit : Z;
  lastRun : option Z;
  nextRun : option Z;
  totalRuns : Z;
  successfulRuns : Z;
  failedRuns : Z
}.

End Db.

(** ** The worker's line protocol, as the supervisors read it *)

Module Protocol.

(** The object a summary line parses to. A field is [None] when it is
    absent from the object. *)
Record MissionResult := mkResult {
  found : option Z;
  saved : option Z;
  duplicates : option Z;
  processed : option Z;
  target : option Z;
  achieved : option bool
}.

(** What [.] does not match: the line terminators LF and CR, and
    U+2028 and U+2029, which begin with the bytes 226 and 128. *)
Definition is_line_terminator (c : ascii) : bool :=
  let n := nat_of_ascii c in (Nat.eqb n 10 || Nat.eqb n 13)%bool.

Definition is_separator (a b c : ascii) : bool :=
  (Nat.eqb (nat_of_ascii a) 226 && Nat.eqb (nat_of_ascii b) 128
   && (Nat.eqb (nat_of_ascii c) 168 || Nat.eqb (nat_of_ascii c) 169))%bool.

Definition is_digit (c : ascii) : bool :=
  let n := nat_of_ascii c in (Nat.leb 48 n && Nat.leb n 57)%bool.

Fixpoint dropChars (n : nat) (s : string) : string :=
  match n, s with
  | S k, String _ rest => dropChars k rest
  | _, _ => s
  end.

(** The longest prefix matched by [.+] or [.*]: up to a line terminator. *)
Fixpoint takeDots (s : string) : string :=
  match s with
  | EmptyString => EmptyString
  | String c rest =>
      if is_line_terminator c then EmptyString
      else
        match rest with
        | String b (String a _) =>
            if is_separator c b a then EmptyString else String c (takeDots rest)
        | _ => String c (takeDots rest)
        end
  end.

Fixpoint takeDigits (s : string) : string :=
  match s with
  | EmptyString => EmptyString
  | String c rest =>
      if is_digit c then String c (takeDigits rest) else EmptyString
  end.

Definition summaryTag : string := "[MISSION_RESULT_JSON] ".

(** [s.match(/\[MISSION_RESULT_JSON\] (.+)/)]: the first capture group of
    the leftmost match. *)
Fixpoint matchMissionResult (s : string) : option string :=
  let here :=
    if String.prefix summaryTag s
    then match takeDots (dropChars (String.length summaryTag) s) with
         | EmptyString => None
         | cap => Some cap
         end
    else None in
  match here with
  | Some cap => Some cap
  | None =>
      match s with
      | EmptyString => None
      | String _ rest => matchMissionResult rest
      end
  end.

(** [s.match(/NEW AD \[(\d+)\/(\+)\]/)]: both capture groups of the
    leftmost match. *)
Fixpoint matchNewAdProgress (s : string) : option (string * string) :=
  let here :=
    if String.prefix "NEW AD [" s
    then let rest := dropChars 8 s in
         match takeDigits rest with
         | EmptyString => None
         | ds =>
             if String.prefix "/+]" (dropChars (String.length ds) rest)
             then Some (ds, "+")
             else None
         end
    else None in
  match here with
  | Some caps => Some caps
  | None =>
      match s with
      | EmptyString => None
      | String _ rest => matchNewAdProgress rest
      end
  end.

Fixpoint digitsValue (acc : Z) (s : string) : Z :=
  match s with
  | EmptyString => acc
  | String c rest => digitsValue (10 * acc + Z.of_nat (nat_of_ascii c - 48)) rest
  end.

(** The Numbers that [parseInt] can give on the captures: [NaN], a
    whole number, or [Infinity]. *)
Inductive Number := NaN | Whole (value : Z) | Infinity.

(** [parseInt(s)] on the two shapes the captures have: a run of digits,
    or a text that starts with no digit. [numberOf] gives the Number for
    a run of decimal digits: the double the engine computes for them
    (up to 2^53 the integer they spell, beyond it a rounded one), or
    [None] when the run is too long for a finite Number. *)
Definition parseInt (numberOf : string -> option Z) (s : string) : Number :=
  match takeDigits s with
  | EmptyString => NaN
  | ds =>
      match numberOf ds with
      | Some v => Whole v
      | None => Infinity
      end
  end.

(** [n || fallback]: [None] stands for [Infinity]. *)
Definition orElse (n : Number) (fallback : Z) : option Z :=
  match n with
  | NaN => Some fallback
  | Whole v => Some (if v =? 0 then fallback else v)
  | Infinity => None
  end.

(** How many of the lines contain [tag]. *)
Definition tagCount (tag : string) (lines : list string) : Z :=
  Z.of_nat (List.length (List.filter (fun l => Js.includes l tag) lines)).

End Protocol.

(** ** src/scheduler.ts *)

Module SchedulerService.

Import Db Protocol.

Section Service.

Variable zone : JsDate.Zone.
Variable month_start : Z -> Z.
(** [JSON.parse] followed by the reads of the summary's fields; [None]
    when either throws. *)
Variable JSON_parse : string -> option MissionResult.

Definition maxRetries : nat := 3.

(** [getNextRunTime(cronExpression)]; [now] is the reading of
    [new Date()] at its first line. *)
Definition getNextRunTime (now : Z) (cronExpression : string) : Z :=
  let nextRun := now in
  let normalizedCron := Js.trim (Js.replaceStarRuns false cronExpression) in
  let every (spaced packed : string) : bool :=
    String.eqb cronExpression spaced || String.eqb cronExpression packed
    || String.eqb normalizedCron spaced in
  if every "*/2 * * * *" "*/2*****" then
    JsDate.setMinutes zone nextRun (JsDate.getMinutes zone now + 2)
  else if every "*/3 * * * *" "*/3*****" then
    JsDate.setMinutes zone nextRun (JsDate.getMinutes zone now + 3)
  else if every "*/5 * * * *" "*/5*****" then
    JsDate.setMinutes zone nextRun (JsDate.getMinutes zone now + 5)
  else if every "*/10 * * * *" "*/10*****" then
    JsDate.setMinutes zone nextRun (JsDate.getMinutes zone now + 10)
  else if every "*/15 * * * *" "*/15*****" then
    JsDate.setMinutes zone nextRun (JsDate.getMinutes zone now + 15)
  else if every "*/30 * * * *" "*/30*****" then
    JsDate.setMinutes zone nextRun (JsDate.getMinutes zone now + 30)
  else if String.eqb cronExpression "0 */1 * * *" then
    JsDate.setHours zone nextRun (JsDate.getHours zone now + 1)
  else if String.eqb cronExpression "0 */6 * * *" then
    JsDate.setHours zone nextRun (JsDate.getHours zone now + 6)
  else if String.eqb cronExpression "0 */12 * * *" then
    JsDate.setHours zone nextRun (JsDate.getHours zone now + 12)
  else if String.eqb cronExpression "0 0 * * *" then
    let d := JsDate.setDate zone month_start nextRun
               (JsDate.getDate zone month_start now + 1) in
    JsDate.setHours4 zone d 0 0 0 0
  else if String.eqb cronExpression "0 0 * * 0" then
    let d := JsDate.setDate zone month_start nextRun
               (JsDate.getDate zone month_start now + (7 - JsDate.getDay zone now)) in
    JsDate.setHours4 zone d 0 0 0 0
  else
    JsDate.setHours zone nextRun (JsDate.getHours zone now + 1).

(** The cron strings that reach a branch of their own. *)
Definition recognized (cronExpression : string) : bool :=
  let normalizedCron := Js.trim (Js.replaceStarRuns false cronExpression) in
  existsb (fun p => String.eqb cronExpression p)
    ["*/2 * * * *"; "*/2*****"; "*/3 * * * *"; "*/3*****";
     "*/5 * * * *"; "*/5*****"; "*/10 * * * *"; "*/10*****";
     "*/15 * * * *"; "*/15*****"; "*/30 * * * *"; "*/30*****";
     "0 */1 * * *"; "0 */6 * * *"; "0 */12 * * *"; "0 0 * * *"; "0 0 * * 0"]
  || existsb (fun p => String.eqb normalizedCron p)
    ["*/2 * * * *"; "*/3 * * * *"; "*/5 * * * *"; "*/10 * * * *";
     "*/15 * * * *"; "*/30 * * * *"].

(** The Number of a run of digits, see [Protocol.parseInt]. *)
Variable numberOf : string -> option Z.

(** The [stdout] listener of a scheduled job, on one chunk of bytes: the
    in-memory mission document follows the progress tag. The result is
    [None] when a counter would become [Infinity], which the Mission
    record here cannot hold. *)
Definition onStdoutData (data : string) (mission : Mission) : option Mission :=
  let output := Js.decodeUtf8 data in
  match matchNewAdProgress output with
  | Some (count, total) =>
      match orElse (parseInt numberOf total) (adsFound mission),
            orElse (parseInt numberOf count) (newAds mission) with
      | Some found, Some new =>
          Some (applyUpdate
                  (mkMissionSet None None (Some found) (Some new)
                     None None None None)
                  noInc mission)
      | _, _ => None
      end
  | None => Some mission
  end.

(** What the [close] listener sees: exit code ([None] for [null]), the
    timeout flag, everything the worker wrote, and the four readings of
    the clock it takes, in program order. *)
Record CloseEvent := mkCloseEvent {
  code : option Z;
  isTimeout : bool;
  scriptOutput : string;
  t_timeoutEnd : Z;
  t_endTime : Z;
  t_lastRun : Z;
  t_now : Z
}.

Definition exitedZero (c : option Z) : bool :=
  match c with
  | Some 0 => true
  | _ => false
  end.

(** The [$inc]-and-set document both bookkeeping updates send. *)
Definition recordRun (lastRunAt nextRunAt : Z) (ok bad : Z) (s : Scheduler)
  : Scheduler :=
  mkScheduler (s_userId s) (s_keyword s) (cronExpression s) (isActive s)
    (s_maxAdsPerRequest s) (s_dailyLimit s)
    (Some lastRunAt) (Some nextRunAt)
    (totalRuns s + 1) (successfulRuns s + ok) (failedRuns s + bad).

(** The mission part of [scraper.on('close', ...)]. *)
Definition closeMission (ev : CloseEvent) (mission : Mission) : Mission :=
  let m1 :=
    if isTimeout ev
    then applyUpdate
           (mkMissionSet (Some failed) (Some (t_timeoutEnd ev))
              None None None None None None) noInc mission
    else mission in
  let m2 :=
    match matchMissionResult (scriptOutput ev) with
    | Some text =>
        match JSON_parse text with
        | Some result =>
            applyUpdate
              (mkMissionSet None None
                 (Some (Js.or0 (found result)))
                 (Some (Js.or0 (saved result)))
                 (Some (Js.or0 (duplicates result)))
                 (Some (Js.or0 (processed result)))
                 None None) noInc m1
        | None => m1
        end
    | None => m1
    end in
  applyUpdate
    (mkMissionSet
       (if isTimeout ev then None
        else Some (if exitedZero (code ev) then completed else failed))
       (Some (t_endTime ev)) None None None None None None)
    noInc m2.

(** The scheduler part of [scraper.on('close', ...)]; [scheduler] is the
    document read when the job started. *)
Definition closeScheduler (_id : string) (scheduler : Scheduler)
    (ev : CloseEvent) (schedulers : gmap string Scheduler)
  : gmap string Scheduler :=
  alter
    (recordRun (t_lastRun ev)
       (getNextRunTime (t_now ev) (cronExpression scheduler))
       (if exitedZero (code ev) && negb (isTimeout ev) then 1 else 0)
       (if negb (exitedZero (code ev)) || isTimeout ev then 1 else 0))
    _id schedulers.

(** How a call of [executeScrapingJob] ends: it rejects (a store call or
    [spawn] threw), returns at once (scheduler missing or inactive), or
    returns after the mission was created and the worker launched; the
    [close] listener then runs when the worker is gone. *)
Inductive JobStart :=
| Rejected
| NotRun
| Started (scheduler : Scheduler) (mission : Mission).

(** [executeScrapingJob], up to the launch of the worker. *)
Definition executeScrapingJob (store_ok : bool) (_id keyword : string)
    (maxAds dailyQuota : Z) (execId : string) (startedAt : Z)
    (schedulers : gmap string Scheduler) : JobStart :=
  if store_ok then
    match schedulers !! _id with
    | None => NotRun
    | Some scheduler =>
        if isActive scheduler
        then Started scheduler
               (mkMission (s_userId scheduler) (s_keyword scheduler) running
                  startedAt None 0 0 0 0 maxAds dailyQuota None (Some execId)
                  startedAt)
        else NotRun
    end
  else Rejected.

(** What one cron tick leaves behind: the scheduler collection, the job
    that was launched (if any) and the back-off delays waited. *)
Record RetryRun := mkRetryRun {
  schedulers_after : gmap string Scheduler;
  launched : option (Scheduler * Mission);
  delays : list Z
}.

(** [executeScrapingJobWithRetry]. [store_ok_at n] tells whether the
    attempt with [retryCount = n] gets through its store calls, and
    [store_ok_at (S maxRetries)] whether the bookkeeping update after
    the last rejected attempt does: when that update throws, nothing
    catches it and nothing is written. [clock n] is the attempt's
    reading of [Date.now()], and [t_lastRun], [t_now] are the two
    readings of the bookkeeping update. [fuel] bounds the recursion. *)
Fixpoint retryLoop (fuel : nat) (store_ok_at : nat -> bool) (clock : nat -> Z)
    (t_lastRun t_now : Z) (_id keyword : string) (maxAds dailyQuota : Z)
    (retryCount : nat) (waited : list Z) (schedulers : gmap string Scheduler)
  : option RetryRun :=
  match fuel with
  | O => None
  | S fuel' =>
      let execId := "job_" ++ _id ++ "_" ++ Js.showZ (clock retryCount) in
      match executeScrapingJob (store_ok_at retryCount) _id keyword maxAds
              dailyQuota execId (clock retryCount) schedulers with
      | Started scheduler mission =>
          Some (mkRetryRun schedulers (Some (scheduler, mission)) waited)
      | NotRun => Some (mkRetryRun schedulers None waited)
      | Rejected =>
          if (retryCount <? maxRetries)%nat then
            let retryDelay := 2 ^ Z.of_nat retryCount * 5000 in
            retryLoop fuel' store_ok_at clock t_lastRun t_now _id keyword
              maxAds dailyQuota (S retryCount) (waited ++ [retryDelay])
              schedulers
          else if store_ok_at (S maxRetries) then
            Some (mkRetryRun
                    (alter (recordRun t_lastRun
                              (getNextRunTime t_now "*/3 * * *") 0 1)
                       _id schedulers)
                    None waited)
          else Some (mkRetryRun schedulers None waited)
      end
  end.

Definition executeScrapingJobWithRetry (store_ok_at : nat -> bool)
    (clock : nat -> Z) (t_lastRun t_now : Z) (_id keyword : string)
    (maxAds dailyQuota : Z) (schedulers : gmap string Scheduler)
  : option RetryRun :=
  retryLoop (S maxRetries) store_ok_at clock t_lastRun t_now _id keyword
    maxAds dailyQuota 0 [] schedulers.

End Service.

End SchedulerService.

(** ** server.js: the mission supervisor *)

Module Server.

Import Db Protocol.

(** An entry of [activeFacebookScrapers]: the child process (by pid), the
    keyword and the in-memory mission document created by the request. *)
Record MissionInfo := mkMissionInfo {
  process : Z;
  info_keyword : string;
  mission : Mission
}.

(** The store's Mission collection, the registry of running workers, and
    the processes that were sent a termination signal. *)
Record State := mkState {
  missions : gmap string Mission;
  activeFacebookScrapers : gmap string MissionInfo;
  signalled : gset Z
}.

(** The variables one [POST /api/scrape] request closes over. *)
Record Closure := mkClosure {
  missionId : string;
  stdoutBuffer : string;
  scriptOutput : string
}.

Inductive Response := Json (statusCode : Z) (message : string).

Definition is_error (r : Response) : bool :=
  match r with
  | Json c _ => 400 <=? c
  end.

(** [x || fallback] on a number of the request body. *)
Definition orDefault (x : option Z) (fallback : Z) : Z :=
  match x with
  | Some v => if v =? 0 then fallback else v
  | None => fallback
  end.

(** [POST /api/scrape], without the translation of the filters into
    worker arguments: the limits are checked, the mission is stored with
    status [running] under the id [newId] the store gives it, and the
    worker [pid] is registered. *)
Definition startScrape (now : Z) (newId : string) (pid : Z) (kw : string)
    (maxAdsPerRequest dailyLimit : option Z) (user : string) (st : State)
  : Response * State * option Closure :=
  if String.eqb kw "" then (Json 400 "Keyword is required", st, None)
  else
    let maxAds := orDefault maxAdsPerRequest 1000 in
    let dailyQuota := orDefault dailyLimit 5000 in
    if 10000000 <? maxAds
    then (Json 400 "maxAdsPerRequest cannot exceed 10,000,000", st, None)
    else if 10000000 <? dailyQuota
    then (Json 400 "dailyLimit cannot exceed 10,000,000", st, None)
    else
      let doc := mkMission (Some user) kw running now None 0 0 0 0
                   maxAds dailyQuota None None now in
      (Json 200 "Scrape started successfully",
       mkState (<[newId := doc]> (missions st))
         (<[newId := mkMissionInfo pid kw doc]> (activeFacebookScrapers st))
         (signalled st),
       Some (mkClosure newId "" "")).

Section Supervisor.

Variable JSON_parse : string -> option MissionResult.

(** The [$inc] document built for one output line. *)
Definition lineInc (line : string) : MissionInc :=
  let newAd := Js.includes line "NEW AD" in
  mkMissionInc (if newAd then Some 1 else None)
               (if newAd then Some 1 else None)
               (if Js.includes line "DUPLICATE" then Some 1 else None).

Definition incIsEmpty (i : MissionInc) : bool :=
  match inc_adsFound i, inc_newAds i, inc_duplicatesSkipped i with
  | None, None, None => true
  | _, _, _ => false
  end.

(** The body of [lines.forEach]: one update of the store per line that
    carries a tag, none once the mission left the registry. *)
Definition onLine (now : Z) (id : string) (st : State) (line : string) : State :=
  match activeFacebookScrapers st !! id with
  | None => st
  | Some _ =>
      let inc := lineInc line in
      if incIsEmpty inc then st
      else mkState
             (findByIdAndUpdate id
                (mkMissionSet None None None None None None None (Some now))
                inc (missions st))
             (activeFacebookScrapers st) (signalled st)
  end.

(** [checkFinalResult]: raises the counters of the in-memory document
    held by the registry. *)
Definition checkFinalResult (cl : Closure) (st : State) : State :=
  match activeFacebookScrapers st !! missionId cl with
  | None => st
  | Some missionInfo =>
      let currentMissionRecord := mission missionInfo in
      match matchMissionResult (scriptOutput cl) with
      | Some text =>
          match JSON_parse text with
          | Some result =>
              let updated :=
                applyUpdate
                  (mkMissionSet None None
                     (Some (Z.max (adsFound currentMissionRecord)
                                  (Js.or0 (saved result))))
                     (Some (Z.max (newAds currentMissionRecord)
                                  (Js.or0 (saved result))))
                     None None None None)
                  noInc currentMissionRecord in
              mkState (missions st)
                (<[missionId cl :=
                     mkMissionInfo (process missionInfo)
                       (info_keyword missionInfo) updated]>
                   (activeFacebookScrapers st))
                (signalled st)
          | None => st
          end
      | None => st
      end
  end.

(** [scraper.stdout.on('data', ...)]; [data] holds the bytes of the
    chunk, which are decoded on their own. *)
Definition onStdoutData (now : Z) (data : string) (cl : Closure) (st : State)
  : Closure * State :=
  let chunk := Js.decodeUtf8 data in
  let pieces := Js.splitLines (stdoutBuffer cl ++ chunk) in
  let lines := removelast pieces in
  let cl' := mkClosure (missionId cl) (List.last pieces "")
               (scriptOutput cl ++ chunk) in
  (cl', checkFinalResult cl' (fold_left (onLine now (missionId cl)) lines st)).

(** [scraper.stderr.on('data', ...)] *)
Definition onStderrData (data : string) (cl : Closure) : Closure :=
  let output := Js.decodeUtf8 data in
  mkClosure (missionId cl) (stdoutBuffer cl) (scriptOutput cl ++ output).

Definition finalStatus (code : option Z) : Status :=
  match code with
  | Some 0 => completed
  | None => stopped
  | Some _ => failed
  end.

(** [scraper.on('close', ...)] *)
Definition onClose (code : option Z) (now : Z) (cl : Closure) (st : State)
  : State :=
  let st1 := checkFinalResult cl st in
  let st2 :=
    match activeFacebookScrapers st1 !! missionId cl with
    | Some _ =>
        mkState
          (findByIdAndUpdate (missionId cl)
             (mkMissionSet (Some (finalStatus code)) (Some now)
                None None None None None (Some now))
             noInc (missions st1))
          (activeFacebookScrapers st1) (signalled st1)
    | None => st1
    end in
  mkState (missions st2) (delete (missionId cl) (activeFacebookScrapers st2))
    (signalled st2).

(** [stopFacebookScraper(id, info)] *)
Definition stopFacebookScraper (now : Z) (id : string) (info : MissionInfo)
    (st : State) : State :=
  mkState
    (findByIdAndUpdate id
       (mkMissionSet (Some stopped) (Some now) None None None None None
          (Some now))
       noInc (missions st))
    (delete id (activeFacebookScrapers st))
    ({[process info]} ∪ signalled st).

(** [mission && mission.userId !== userId] *)
Definition ownedByOther (m : option Mission) (user : string) : bool :=
  match m with
  | Some doc =>
      match m_userId doc with
      | Some owner => negb (String.eqb owner user)
      | None => true
      end
  | None => false
  end.

(** The branch of [POST /api/scrape/stop] without a mission id: every
    registered scraper that is not another user's is stopped. *)
Definition stopAll (now : Z) (user : string) (st : State) : Response * State :=
  if (size (activeFacebookScrapers st) =? 0)%nat
  then (Json 400 "No active Facebook scrapers to stop", st)
  else
    let mine :=
      List.filter (fun entry => negb (ownedByOther (missions st !! fst entry) user))
        (map_to_list (activeFacebookScrapers st)) in
    (Json 200 ("Stopped " ++ Js.showZ (Z.of_nat (List.length mine))
               ++ " active scrapers"),
     fold_left (fun acc entry => stopFacebookScraper now (fst entry) (snd entry) acc)
       mine st).

(** [POST /api/scrape/stop]; [requested] is the [missionId] of the body,
    falsy when absent or empty. *)
Definition stop (now : Z) (requested : option string) (user : string)
    (st : State) : Response * State :=
  match requested with
  | Some id =>
      if String.eqb id "" then stopAll now user st
      else
        match activeFacebookScrapers st !! id with
        | None => (Json 404 "Mission not found or not running", st)
        | Some missionInfo =>
            if ownedByOther (missions st !! id) user
            then (Json 403 "Forbidden: cannot stop another user's scrape", st)
            else (Json 200 "Scraper stopped successfully",
                  stopFacebookScraper now id missionInfo st)
        end
  | None => stopAll now user st
  end.

End Supervisor.

End Server.

(** ** src/scraper.ts: the worker *)

Module Scraper.

Import Db.

(** The fields of [scraperConfig] the scraping loop reads. *)
Record ScraperConfig := mkConfig {
  maxScrollAttempts : Z;
  batchProcessingSize : Z;
  memoryCleanupInterval : Z;
  refreshInterval : Z;
  dailyLimitCheckInterval : Z
}.

(** [createScraperConfig()] when no [SCRAPER_*] variable is set. *)
Definition defaultScraperConfig : ScraperConfig := mkConfig 50000 50 20 3000 10.

Record Stats := mkStats {
  savedCount : Z;
  duplicateCount : Z;
  processedCount : Z;
  scrollAttempts : Z;
  errorCount : Z;
  memoryCleanups : Z;
  batchesProcessed : Z
}.

Definition initialStats : Stats := mkStats 0 0 0 0 0 0 0.

(** What [extractAllCardsInBrowser] returns for one card. *)
Record AdData := mkAdData {
  advertiser : string;
  description : string;
  ad_phone : option string
}.

(** The browser page as the loop uses it. [getCardCount] is [inl] with
    the message of the error when the evaluation in the page throws;
    [scrollForMoreContent] tells whether new content appeared;
    [reloadAndWait] is [page.reload], the three-second pause and
    [waitForResultsWithRetry]. *)
Record Browser (Page : Type) := mkBrowser {
  getCardCount : Page -> string + Z;
  extractAllCardsInBrowser : Page -> Z -> Z -> list AdData;
  scrollForMoreContent : Page -> bool * Page;
  reloadAndWait : Page -> Page
}.
Arguments mkBrowser {Page}.
Arguments getCardCount {Page}.
Arguments extractAllCardsInBrowser {Page}.
Arguments scrollForMoreContent {Page}.
Arguments reloadAndWait {Page}.

Section Worker.

Context {Page : Type}.
Variable browser : Browser Page.
Variable scraperConfig : ScraperConfig.
Variable zone : JsDate.Zone.
(** The fault met by the n-th call of [saveAd], and the n-th reading of
    the clock. *)
Variable fault_at : nat -> Fault.
Variable clock : nat -> Z.

(** Everything outside the loop's local variables: the page, the Ad
    collection, the lines written to standard output so far, and how
    many store calls and clock readings were made. *)
Record World := mkWorld {
  page : Page;
  ads : list Ad;
  out : list string;
  saveCalls : nat;
  clockReads : nat
}.

Definition say (line : string) (w : World) : World :=
  mkWorld (page w) (ads w) (out w ++ [line]) (saveCalls w) (clockReads w).

Definition withPage (p : Page) (w : World) : World :=
  mkWorld p (ads w) (out w) (saveCalls w) (clockReads w).

Definition tagged (executionId : string) : string := "[" ++ executionId ++ "] ".

(** The loop over [extractedAds]: returns the statistics, [batchNew] and
    the world after the batch. *)
Fixpoint saveBatch (kw executionId : string) (maxAds : Z)
    (owner : option string) (extractedAds : list AdData)
    (stats : Stats) (batchNew : Z) (w : World) : Stats * Z * World :=
  match extractedAds with
  | [] => (stats, batchNew, w)
  | adData :: rest =>
      if savedCount stats >=? maxAds then (stats, batchNew, w)
      else
        let r := saveAd (fault_at (saveCalls w)) (clock (clockReads w))
                   (advertiser adData) (description adData) kw
                   (ad_phone adData) None None owner (ads w) in
        let w1 := mkWorld (page w) (ads_after r) (out w ++ logged r)
                    (S (saveCalls w)) (S (clockReads w)) in
        if returned r then
          let n := savedCount stats + 1 in
          saveBatch kw executionId maxAds owner rest
            (mkStats n (duplicateCount stats) (processedCount stats + 1)
               (scrollAttempts stats) (errorCount stats)
               (memoryCleanups stats) (batchesProcessed stats))
            (batchNew + 1)
            (say ("✅ " ++ tagged executionId ++ "NEW AD [" ++ Js.showZ n
                  ++ "/" ++ Js.showZ maxAds ++ "]: ["
                  ++ advertiser adData ++ "]") w1)
        else
          saveBatch kw executionId maxAds owner rest
            (mkStats (savedCount stats) (duplicateCount stats + 1)
               (processedCount stats + 1)
               (scrollAttempts stats) (errorCount stats)
               (memoryCleanups stats) (batchesProcessed stats))
            batchNew w1
  end.

(** The local variables of [performEnhancedScraping]. *)
Record Loop := mkLoop {
  stats : Stats;
  emptyBatchPatience : Z;
  scrollFailCount : Z;
  pageRefreshCount : Z;
  world : World
}.

Definition maxEmptyBatchPatience : Z := 5.
Definition maxScrollFails : Z := 8.
Definition maxPageRefreshes : Z := 3.

Definition resetProcessed (st : Stats) : Stats :=
  mkStats (savedCount st) (duplicateCount st) 0 (scrollAttempts st)
    (errorCount st) (memoryCleanups st) (batchesProcessed st).

Definition countScroll (st : Stats) : Stats :=
  mkStats (savedCount st) (duplicateCount st) (processedCount st)
    (scrollAttempts st + 1) (errorCount st) (memoryCleanups st)
    (batchesProcessed st).

Definition countBatch (st : Stats) : Stats :=
  mkStats (savedCount st) (duplicateCount st) (processedCount st)
    (scrollAttempts st) (errorCount st) (memoryCleanups st)
    (batchesProcessed st + 1).

(** [performMemoryCleanup] *)
Definition performMemoryCleanup (st : Stats) : Stats :=
  mkStats (savedCount st) (duplicateCount st) (processedCount st)
    (scrollAttempts st) (errorCount st) (memoryCleanups st + 1)
    (batchesProcessed st).

(** How one pass through the body of the [while] loop ends: the loop
    goes on ([continue], or the end of the body), is left with [break],
    or the browser threw. *)
Inductive Step :=
| GoOn (l : Loop)
| Leave (l : Loop)
| Raise (l : Loop) (message : string).

(** One pass through the body of the [while] loop. Of the lines the body
    prints, those of the save loop and of its own progress reports are
    kept; the page diagnostic and the reports of the scroll helper are
    not. *)
Definition iteration (kw executionId : string) (maxAds dailyQuota : Z)
    (owner : option string) (l : Loop) : Step :=
  let st0 :=
    if (0 <? batchesProcessed (stats l))
       && (batchesProcessed (stats l) mod memoryCleanupInterval scraperConfig =? 0)
    then performMemoryCleanup (stats l) else stats l in
  match getCardCount browser (page (world l)) with
  | inl message =>
      Raise (mkLoop st0 (emptyBatchPatience l) (scrollFailCount l)
               (pageRefreshCount l) (world l)) message
  | inr count =>
  let w0 :=
    say ("🔄 " ++ tagged executionId ++ "Batch "
         ++ Js.showZ (batchesProcessed st0 + 1) ++ ": Found " ++ Js.showZ count
         ++ " cards (processed " ++ Js.showZ (processedCount st0)
         ++ "), Saved: " ++ Js.showZ (savedCount st0) ++ "/" ++ Js.showZ maxAds)
        (world l) in
  if count =? 0 then
    let patience := emptyBatchPatience l + 1 in
    if patience >=? maxEmptyBatchPatience then
      if pageRefreshCount l <? maxPageRefreshes then
        let refreshes := pageRefreshCount l + 1 in
        let w1 := say ("📡 " ++ tagged executionId ++ "Stuck. Refresh "
                       ++ Js.showZ refreshes ++ "/" ++ Js.showZ maxPageRefreshes
                       ++ "...") w0 in
        GoOn (mkLoop (resetProcessed st0) 0 (scrollFailCount l) refreshes
                 (withPage (reloadAndWait browser (page w1)) w1))
      else
        Leave (mkLoop st0 patience (scrollFailCount l) (pageRefreshCount l)
                  (say ("📡 " ++ tagged executionId
                        ++ "Max refreshes reached with 0 cards. Stopping.") w0))
    else
      GoOn (mkLoop (countScroll st0) patience (scrollFailCount l)
               (pageRefreshCount l)
               (withPage (snd (scrollForMoreContent browser (page w0))) w0))
  else
    let batchSize := Z.min (batchProcessingSize scraperConfig)
                           (count - processedCount st0) in
    if batchSize <=? 0 then
      let st1 := countScroll st0 in
      let (scrollWorked, p1) := scrollForMoreContent browser (page w0) in
      let w1 := withPage p1 w0 in
      if negb scrollWorked then
        let fails := scrollFailCount l + 1 in
        let w2 := say ("⏳ " ++ tagged executionId ++ "Scroll attempt "
                       ++ Js.showZ fails ++ "/" ++ Js.showZ maxScrollFails
                       ++ " found no new content") w1 in
        if fails >=? maxScrollFails then
          if pageRefreshCount l <? maxPageRefreshes then
            let refreshes := pageRefreshCount l + 1 in
            let w3 := say ("📡 " ++ tagged executionId
                           ++ "Scroll stuck. Full reload " ++ Js.showZ refreshes
                           ++ "/" ++ Js.showZ maxPageRefreshes ++ "...") w2 in
            GoOn (mkLoop (resetProcessed st1) 0 0 refreshes
                     (withPage (reloadAndWait browser (page w3)) w3))
          else
            Leave (mkLoop st1 0 fails (pageRefreshCount l)
                      (say ("📡 " ++ tagged executionId
                            ++ "Exhausted all scroll + refresh attempts. Stopping.")
                         w2))
        else GoOn (mkLoop st1 0 fails (pageRefreshCount l) w2)
      else GoOn (mkLoop st1 0 0 (pageRefreshCount l) w1)
    else
      let extractedAds :=
        extractAllCardsInBrowser browser (page w0) (processedCount st0) batchSize in
      let '(st1, batchNew, w1) :=
        saveBatch kw executionId maxAds owner extractedAds st0 0 w0 in
      let st2 := countBatch st1 in
      let w2 :=
        if 0 <? batchNew
        then say ("📊 " ++ tagged executionId ++ "Batch done: +"
                  ++ Js.showZ batchNew ++ " new, "
                  ++ Js.showZ (duplicateCount st2) ++ " dupes total") w1
        else w1 in
      if (0 <? batchNew) && (0 <? savedCount st2)
         && (savedCount st2 mod refreshInterval scraperConfig =? 0) then
        let w3 := say ("🧹 " ++ tagged executionId ++ "Stability refresh at "
                       ++ Js.showZ (savedCount st2) ++ " ads...") w2 in
        GoOn (mkLoop (resetProcessed st2) 0 0 (pageRefreshCount l)
                 (withPage (reloadAndWait browser (page w3)) w3))
      else if (savedCount st2 <? maxAds) && (processedCount st2 >=? count) then
        let st3 := countScroll st2 in
        let w3 := withPage (snd (scrollForMoreContent browser (page w2))) w2 in
        if (batchesProcessed st3 mod dailyLimitCheckInterval scraperConfig =? 0)
           && (getStats zone (clock (clockReads w3)) owner (ads w3) >=? dailyQuota)
        then Leave (mkLoop st3 0 0 (pageRefreshCount l) w3)
        else GoOn (mkLoop st3 0 0 (pageRefreshCount l) w3)
      else if savedCount st2 >=? maxAds then
        Leave (mkLoop st2 0 0 (pageRefreshCount l) w2)
      else if (batchesProcessed st2 mod dailyLimitCheckInterval scraperConfig =? 0)
              && (getStats zone (clock (clockReads w2)) owner (ads w2) >=? dailyQuota)
      then Leave (mkLoop st2 0 0 (pageRefreshCount l) w2)
      else GoOn (mkLoop st2 0 0 (pageRefreshCount l) w2)
  end.

(** [performEnhancedScraping] without the safety scroll of a resumed
    run: the [while] loop, cut off after [fuel] passes. The result is
    [inr] when the function returns and [inl] when it throws. *)
Fixpoint performEnhancedScraping (fuel : nat) (kw executionId : string)
    (maxAds dailyQuota : Z) (owner : option string) (l : Loop)
  : option (Loop * string + Loop) :=
  if (savedCount (stats l) <? maxAds)
     && (scrollAttempts (stats l) <? maxScrollAttempts scraperConfig) then
    match fuel with
    | O => None
    | S fuel' =>
        match iteration kw executionId maxAds dailyQuota owner l with
        | GoOn l' =>
            performEnhancedScraping fuel' kw executionId maxAds dailyQuota owner l'
        | Leave l' => Some (inr l')
        | Raise l' message => Some (inl (l', message))
        end
    end
  else Some (inr l).

(** The update the worker sends when it is done: [completed] after the
    loop, [failed] with the message of the error otherwise. *)
Definition finalUpdate (st : Stats) (endedAt : Z) : MissionSet :=
  mkMissionSet (Some completed) (Some endedAt)
    (Some (processedCount st)) (Some (savedCount st))
    (Some (duplicateCount st)) (Some (processedCount st)) None None.

Definition savePartialResults (st : Stats) (message : string) (endedAt : Z)
  : MissionSet :=
  mkMissionSet (Some failed) (Some endedAt)
    (Some (processedCount st)) (Some (savedCount st))
    (Some (duplicateCount st)) None (Some message) None.

(** The outcome of [scrapeAds] for a mission: the world it leaves and
    the update of the Mission document it sends last. *)
Record WorkerRun := mkWorkerRun {
  run_stats : Stats;
  run_world : World;
  run_update : MissionSet
}.

(** [getMissionById] as [scrapeAds] uses it: the owner of the mission,
    none when the mission is not stored or has no owner, and none as
    well when the lookup throws ([lookup_ok] is false), which
    [getMissionById] catches. *)
Definition ownerOf (lookup_ok : bool) (id : string)
    (missions : gmap string Mission) : option string :=
  if lookup_ok then
    match missions !! id with
    | Some m => m_userId m
    | None => None
    end
  else None.

(** [scrapeAds] for a mission of the store. [navigation] is [None] when
    the page was reached and the message of the error otherwise. *)
Definition scrapeAds (fuel : nat) (navigation : option string)
    (kw : string) (maxAds dailyQuota : Z) (id : string)
    (missions : gmap string Mission) (lookup_ok : bool) (w : World)
  : option WorkerRun :=
  let owner := ownerOf lookup_ok id missions in
  match navigation with
  | Some message =>
      Some (mkWorkerRun initialStats w
              (savePartialResults initialStats message (clock (clockReads w))))
  | None =>
      match performEnhancedScraping fuel kw id maxAds dailyQuota owner
              (mkLoop initialStats 0 0 0 w) with
      | Some (inr l) =>
          Some (mkWorkerRun (stats l) (world l)
                  (finalUpdate (stats l) (clock (clockReads (world l)))))
      | Some (inl (l, message)) =>
          Some (mkWorkerRun (stats l) (world l)
                  (savePartialResults (stats l) message
                     (clock (clockReads (world l)))))
      | None => None
      end
  end.

End Worker.

End Scraper.

(** ** The card finder injected into the page ([__findAdCards])

    The document is the tree under [document.body]. An element is
    referred to by its path from the body (the positions among the child
    nodes), which gives the identity that [===] and the [seen] set
    compare. Bounding boxes are part of the tree. *)

Module Dom.

Inductive Node :=
| Text (data : string)
| Element (tagName : string) (role testid : option string)
    (classList : list string) (width height : Z) (childNodes : list Node).

Definition Path := list nat.

Definition isElement (n : Node) : bool :=
  match n with
  | Element _ _ _ _ _ _ _ => true
  | Text _ => false
  end.

Definition tagOf (n : Node) : string :=
  match n with
  | Element t _ _ _ _ _ _ => t
  | Text _ => ""
  end.

Definition heightOf (n : Node) : Z :=
  match n with
  | Element _ _ _ _ _ h _ => h
  | Text _ => 0
  end.

Definition widthOf (n : Node) : Z :=
  match n with
  | Element _ _ _ _ w _ _ => w
  | Text _ => 0
  end.

Definition childNodesOf (n : Node) : list Node :=
  match n with
  | Element _ _ _ _ _ _ kids => kids
  | Text _ => []
  end.

(** [node.textContent] *)
Fixpoint textContent (n : Node) : string :=
  match n with
  | Text d => d
  | Element _ _ _ _ _ _ kids =>
      (fix go (ks : list Node) : string :=
         match ks with
         | [] => EmptyString
         | k :: rest => textContent k ++ go rest
         end) kids
  end.

(** The element at [p] and the elements below it, in document order,
    each with its path. *)
Fixpoint elementsFrom (p : Path) (n : Node) : list (Path * Node) :=
  match n with
  | Text _ => []
  | Element _ _ _ _ _ _ kids =>
      (p, n) ::
      (fix go (i : nat) (ks : list Node) {struct ks} : list (Path * Node) :=
         match ks with
         | [] => []
         | k :: rest => (elementsFrom (p ++ [i]) k ++ go (S i) rest)%list
         end) 0%nat kids
  end.

(** [root.querySelectorAll('*')]: the elements strictly below. *)
Definition descendants (p : Path) (n : Node) : list (Path * Node) :=
  List.tail (elementsFrom p n).

Fixpoint nodeAt (n : Node) (p : Path) : option Node :=
  match p with
  | [] => Some n
  | i :: rest =>
      match nth_error (childNodesOf n) i with
      | Some k => nodeAt k rest
      | None => None
      end
  end.

Fixpoint indexed {A} (i : nat) (l : list A) : list (nat * A) :=
  match l with
  | [] => []
  | x :: rest => (i, x) :: indexed (S i) rest
  end.

(** [el.children]: the child elements, with their paths. *)
Definition children (p : Path) (n : Node) : list (Path * Node) :=
  List.map (fun ik => ((p ++ [fst ik])%list, snd ik))
    (List.filter (fun ik => isElement (snd ik)) (indexed 0 (childNodesOf n))).

Definition pathEqb (p q : Path) : bool :=
  if decide (p = q) then true else false.

Definition hasRole (r : string) (n : Node) : bool :=
  match n with
  | Element _ (Some v) _ _ _ _ _ => String.eqb v r
  | _ => false
  end.

Definition hasTestId (t : string) (n : Node) : bool :=
  match n with
  | Element _ _ (Some v) _ _ _ _ => String.eqb v t
  | _ => false
  end.

Definition hasClass (c : string) (n : Node) : bool :=
  match n with
  | Element _ _ _ cl _ _ _ => existsb (String.eqb c) cl
  | Text _ => false
  end.

Definition isTag (t : string) (n : Node) : bool := String.eqb (tagOf n) t.

(** [document.querySelector(sel)] for a predicate on elements. *)
Definition querySelector (sel : Node -> bool) (body : Node) : option Path :=
  match List.find (fun pn => sel (snd pn)) (elementsFrom [] body) with
  | Some pn => Some (fst pn)
  | None => None
  end.

(** [__getAdRoot()] *)
Definition getAdRoot (body : Node) : Path :=
  match querySelector (hasRole "main") body with
  | Some p => p
  | None =>
      match querySelector (hasTestId "ad_library_main_content") body with
      | Some p => p
      | None =>
          match querySelector (hasTestId "search_results_container") body with
          | Some p => p
          | None => []
          end
      end
  end.

(** Strategy 1: the elements under the search root that carry the
    card marker. *)
Definition byTestId (body : Node) (searchRoot : Path) : list Path :=
  match nodeAt body searchRoot with
  | Some root =>
      List.map fst
        (List.filter (fun pn => hasTestId "fb-ad-library-ad-card" (snd pn))
           (descendants searchRoot root))
  | None => []
  end.

Section Finder.

(** [String.prototype.toLowerCase] *)
Variable toLowerCase : string -> string.

Definition isDetailPhrase (n : Node) : bool :=
  let text := toLowerCase (Js.trim (textContent n)) in
  String.eqb text "see ad details" || String.eqb text "ad details"
  || String.eqb text "see summary details".

(** The walk from a detail link to its card: at most [levels] steps up,
    stopped by the search root or the body, ended by the first ancestor
    wider than 200 and higher than 100. *)
Fixpoint climb (levels : nat) (body : Node) (searchRoot parent : Path)
  : option Path :=
  match levels with
  | O => None
  | S levels' =>
      let up := removelast parent in
      if pathEqb up searchRoot || pathEqb up [] then None
      else
        match nodeAt body up with
        | Some el =>
            if (200 <? widthOf el) && (100 <? heightOf el) then Some up
            else climb levels' body searchRoot up
        | None => None
        end
  end.

(** Strategy 2: the containers of the detail links, each once, in the
    order the links come in the document. *)
Definition byDetailLinks (body : Node) (searchRoot : Path) : list Path :=
  match nodeAt body searchRoot with
  | Some root =>
      let allLinks :=
        List.filter
          (fun pn => isTag "a" (snd pn) || isTag "span" (snd pn)
                     || isTag "div" (snd pn))
          (descendants searchRoot root) in
      fold_left
        (fun adDetailContainers link =>
           if isDetailPhrase (snd link) then
             match climb 12 body searchRoot (fst link) with
             | Some parent =>
                 if existsb (pathEqb parent) adDetailContainers
                 then adDetailContainers
                 else (adDetailContainers ++ [parent])%list
             | None => adDetailContainers
             end
           else adDetailContainers)
        allLinks []
  | None => []
  end.

(** Strategy 3: the class selectors, only under a root that is not the
    body. *)
Definition byClassNames (body : Node) (searchRoot : Path) : list Path :=
  if pathEqb searchRoot [] then []
  else
    match nodeAt body searchRoot with
    | Some root =>
        List.map fst
          (List.filter
             (fun pn =>
                isTag "div" (snd pn)
                && (hasClass "xh8yej3" (snd pn) || hasClass "x1plvlek" (snd pn))
                && (50 <? Z.of_nat (Js.length (textContent (snd pn)))))
             (descendants searchRoot root))
    | None => []
    end.

(** [child.querySelector('a')] finds something. *)
Definition hasLink (child : Path * Node) : bool :=
  existsb (fun pn => isTag "a" (snd pn)) (descendants (fst child) (snd child)).

Definition textLen (child : Path * Node) : Z :=
  Z.of_nat (Js.length (textContent (snd child))).

(** The test of the counting loop of strategy 4. *)
Definition cardLike (child : Path * Node) : bool :=
  hasLink child && (100 <? textLen child) && (80 <? heightOf (snd child)).

Definition cardLikeCount (kids : list (Path * Node)) : Z :=
  Z.of_nat (List.length (List.filter cardLike kids)).

(** [cardLikeCount / children.length > 0.6]. Both numbers are integers
    between 0 and 200, where the quotient in double precision is above
    the double 0.6 exactly when the fraction is above three fifths. *)
Definition above60 (count total : Z) : bool := 3 * total <? 5 * count.

(** The test a [div] passes to be taken as the results container. *)
Definition acceptsContainer (kids : list (Path * Node)) : bool :=
  let total := Z.of_nat (List.length kids) in
  negb ((total <? 3) || (200 <? total))
  && (3 <=? cardLikeCount kids) && above60 (cardLikeCount kids) total.

(** What strategy 4 returns for an accepted container. *)
Definition cardsOf (kids : list (Path * Node)) : list Path :=
  List.map fst
    (List.filter (fun child => hasLink child && (100 <? textLen child)) kids).

(** Strategy 4: the first [div] of the document whose children pass. *)
Definition bySiblings (body : Node) : list Path :=
  match List.find (fun pn => acceptsContainer (children (fst pn) (snd pn)))
          (List.filter (fun pn => isTag "div" (snd pn)) (descendants [] body)) with
  | Some pn => cardsOf (children (fst pn) (snd pn))
  | None => []
  end.

Definition nonEmpty {A} (l : list A) : bool :=
  match l with
  | [] => false
  | _ => true
  end.

(** The first candidate that is not empty, the empty list when all are. *)
Fixpoint firstNonEmpty {A} (candidates : list (list A)) : list A :=
  match candidates with
  | [] => []
  | c :: rest => if nonEmpty c then c else firstNonEmpty rest
  end.

(** [__findAdCards()] *)
Definition findAdCards (body : Node) : list Path :=
  let searchRoot := getAdRoot body in
  let testIdCards := byTestId body searchRoot in
  if nonEmpty testIdCards then testIdCards
  else
    let adDetailContainers := byDetailLinks body searchRoot in
    if nonEmpty adDetailContainers then adDetailContainers
    else
      let filtered := byClassNames body searchRoot in
      if nonEmpty filtered then filtered
      else bySiblings body.

End Finder.

(** The acceptance test of the sibling heuristic in the words of the
    specification: between 3 and 200 children, at least 3 of them
    card-like, and at least 60% of them card-like. *)
Definition spec_acceptsContainer (kids : list (Path * Node)) : bool :=
  let total := Z.of_nat (List.length kids) in
  (3 <=? total) && (total <=? 200)
  && (3 <=? cardLikeCount kids)
  && (60 * total <=? 100 * cardLikeCount kids).

End Dom.

(** ** Concrete runs used as test inputs *)

Module Scenarios.

Import Db Protocol.

Definition quote : string := String "034"%char EmptyString.

(** The JSON text of an object whose only field is [saved]. *)
Definition savedOnly (n : Z) : string :=
  "{" ++ quote ++ "saved" ++ quote ++ ":" ++ Js.showZ n ++ "}".

(** [JSON.parse] on the summaries of the runs below: the objects with
    the single field [saved] between 0 and 9. No other text occurs in
    them, and it is given no parse. *)
Definition parseSavedOnly (text : string) : option MissionResult :=
  match List.find (fun n => String.eqb text (savedOnly n))
          [0; 1; 2; 3; 4; 5; 6; 7; 8; 9] with
  | Some n => Some (mkResult None (Some n) None None None None)
  | None => None
  end.

Definition summaryLine (n : Z) : string := summaryTag ++ savedOnly n.

(** A page whose cards are a fixed list: scrolling brings nothing new,
    and a reload brings the page back with the cards [afterReload]. *)
Definition listBrowser (afterReload : list Scraper.AdData)
  : Scraper.Browser (list Scraper.AdData) :=
  Scraper.mkBrowser
    (fun p => inr (Z.of_nat (List.length p)))
    (fun p startIdx size => firstn (Z.to_nat size) (skipn (Z.to_nat startIdx) p))
    (fun p => (false, p))
    (fun _ => afterReload).

Definition acme : Scraper.AdData := Scraper.mkAdData "Acme" "Sale on shoes" None.
Definition bolt : Scraper.AdData := Scraper.mkAdData "Bolt" "Fast delivery" None.

Definition noState : Server.State := Server.mkState ∅ ∅ ∅.

(** The state after user [u1] asked for a scrape of [shoes] with a cap
    of 100 and the store named the mission [m1]. *)
Definition started : Server.State :=
  snd (fst (Server.startScrape 1000 "m1" 4242 "shoes" (Some 100) None "u1" noState)).

Definition closure0 : Server.Closure := Server.mkClosure "m1" "" "".

(** A wall clock that advances by one second per reading. *)
Definition secondsClock (n : nat) : Z := 2000 + 1000 * Z.of_nat n.

(** The worker of mission [m1] on a page with the cards [cards] which
    comes back with [afterReload] after a reload, over the Ad collection
    [ads]; no store fault, the zone of India. *)
Definition worker (cards afterReload : list Scraper.AdData) (ads : list Ad)
  : option (@Scraper.WorkerRun (list Scraper.AdData)) :=
  Scraper.scrapeAds (listBrowser afterReload) Scraper.defaultScraperConfig
    (JsDate.fixedZone 19800000) (fun _ => NoFault) secondsClock 200 None
    "shoes" 100 5000 "m1" (Server.missions started) true
    (Scraper.mkWorld cards ads [] 0 0).

(** [parseInt] on the digits of the runs below, which are few: the
    integer they spell. *)
Definition shortNumber (digits : string) : option Z :=
  Some (digitsValue 0 digits).

(** The supervisor reads all the worker printed, in one chunk. *)
Definition supervised (parse : string -> option MissionResult)
    (lines : list string) (st : Server.State) : Server.Closure * Server.State :=
  Server.onStdoutData parse 5000 (Js.printed lines) closure0 st.

Definition persisted (st : Server.State) : option Mission :=
  Server.missions st !! "m1".

Definition inMemory (st : Server.State) : option Mission :=
  match Server.activeFacebookScrapers st !! "m1" with
  | Some info => Some (Server.mission info)
  | None => None
  end.

(** A scheduled mission as [executeScrapingJob] creates it. *)
Definition scheduledMission : Mission :=
  mkMission (Some "u1") "shoes" running 1000 None 0 0 0 0 100 5000 None
    (Some "job_s1_1000") 1000.

(** An output line of the worker for its [k]-th saved record. *)
Definition tagLine (k : Z) : string :=
  "NEW AD [" ++ Js.showZ k ++ "/100]: [Acme]".

(** A record of user [u1] that is already in the store. *)
Definition acmeAd : Ad :=
  mkAd (Some "u1") "Acme" "Sale on shoes" 1 "shoes" None None None.

(** A record as the Google route writes it for user [u1]: its scraper
    fills the phone and the address with the empty text. *)
Definition googleAd : Ad :=
  mkAd (Some "u1") "Acme" "Sale on shoes" 1 "shoes" (Some "") (Some "") None.

(** Mission [m1] after its worker exited normally. *)
Definition finished : Server.State :=
  Server.onClose parseSavedOnly (Some 0) 9000 closure0 started.

(** A text of 120 characters. *)
Definition longText : string :=
  "Lorem ipsum dolor sit amet, consectetur adipiscing elit, sed do eiusmod tempor incididunt ut labore et dolore magna aliq".

(** A child that looks like a card: a link, a long text, 300 high. *)
Definition cardDiv : Dom.Node :=
  Dom.Element "div" None None [] 600 300
    [Dom.Element "a" None None [] 100 20 [Dom.Text "Shop now"];
     Dom.Text longText].

(** A child without a link. *)
Definition plainDiv : Dom.Node :=
  Dom.Element "div" None None [] 600 300 [Dom.Text longText].

(** A body whose only element is a list of [cards] card-like children
    followed by [others] plain ones; no marker attribute, no detail link,
    no main region. *)
Definition listPage (cards others : nat) : Dom.Node :=
  Dom.Element "body" None None [] 1280 800
    [Dom.Element "div" None None [] 1280 800
       (repeat cardDiv cards ++ repeat plainDiv others)].

Definition listChildren (cards others : nat) : list (Dom.Path * Dom.Node) :=
  match Dom.nodeAt (listPage cards others) [0%nat] with
  | Some container => Dom.children [0%nat] container
  | None => []
  end.

(** 3 November 2024, 06:30:00 UTC: half past one in the night in New
    York, half an hour after the clocks went back from two to one. *)
Definition fallBackNight : Z := 1730615400000.

(** A schedule of user [u1] that runs every two minutes. *)
Definition everyTwo : Scheduler :=
  mkScheduler (Some "u1") "shoes" "*/2 * * * *" true 100 5000 None None 0 0 0.

(** A schedule of user [u1] that runs every six hours. *)
Definition everySix : Scheduler :=
  mkScheduler (Some "u1") "shoes" "0 */6 * * *" true 100 5000 None None 0 0 0.

(** A card whose detail link sits two levels below it. *)
Definition detailCard : Dom.Node :=
  Dom.Element "div" None None [] 600 300
    [Dom.Element "span" None None [] 90 20
       [Dom.Element "a" None None [] 90 20 [Dom.Text " See ad Details "]]].

(** A page with a main region and two such cards in a flat list, and no
    marker attribute. *)
Definition detailPage : Dom.Node :=
  Dom.Element "body" None None [] 1280 800
    [Dom.Element "div" (Some "main") None [] 1280 800
       [Dom.Element "div" None None [] 150 50 [detailCard; detailCard]]].

End Scenarios.

(** ** Invariants and further inputs used by the properties below *)

Module WorkerInvariant.

Import Db.

(** The collection is [before] followed by [n] more records. *)
Definition stored {Page : Type} (before : list Ad) (n : Z)
    (w : @Scraper.World Page) : Prop :=
  exists added,
    Scraper.ads w = (before ++ added)%list
    /\ Z.of_nat (List.length added) = n.

(** The output is [printed] followed by lines of which at least [n]
    carry the text the supervisor counts new records by. *)
Definition announced {Page : Type} (printed : list string) (n : Z)
    (w : @Scraper.World Page) : Prop :=
  exists lines,
    Scraper.out w = (printed ++ lines)%list
    /\ n <= Protocol.tagCount "NEW AD" lines.

(** What holds of the local variables of the scraping loop at every
    turn, for a loop that began over the collection [before] and the
    output [printed] with the cap [maxAds]: the saved count is within
    the cap, it is the number of records added to the collection, which
    lost none, and each of them was announced on the output; the
    duplicate count is not negative; the reloads after a stall are
    within their budget. *)
Definition holds {Page : Type} (before : list Ad) (printed : list string)
    (maxAds : Z) (l : @Scraper.Loop Page) : Prop :=
  0 <= Scraper.savedCount (Scraper.stats l) <= maxAds
  /\ 0 <= Scraper.duplicateCount (Scraper.stats l)
  /\ 0 <= Scraper.pageRefreshCount l <= Scraper.maxPageRefreshes
  /\ stored before (Scraper.savedCount (Scraper.stats l)) (Scraper.world l)
  /\ announced printed (Scraper.savedCount (Scraper.stats l)) (Scraper.world l).

End WorkerInvariant.

Module Stamps.

Import Db.

(** A mission document without the time of its last update. *)
Definition withoutStamp (m : Mission) : Mission :=
  mkMission (m_userId m) (m_keyword m) (status m) (startTime m) (endTime m)
    (adsFound m) (newAds m) (duplicatesSkipped m) (adsProcessed m)
    (maxAdsPerRequest m) (dailyLimit m) (error m) (executionId m) 0.

(** Two collections hold the same documents up to the times of their
    last updates. *)
Definition sameButStamps (a b : gmap string Mission) : Prop :=
  forall id, withoutStamp <$> (a !! id) = withoutStamp <$> (b !! id).

End Stamps.

Module MoreScenarios.

Import Db.

(** The state after user [u2] asked for a scrape of [boots] as well,
    which the store named [m2]: two missions of two users are running. *)
Definition twoUsers : Server.State :=
  snd (fst (Server.startScrape 1500 "m2" 4343 "boots" None None "u2"
              Scenarios.started)).

(** The documents of the two missions as they were stored at the start. *)
Definition shoesMission : Mission :=
  mkMission (Some "u1") "shoes" running 1000 None 0 0 0 0 100 5000 None None 1000.

Definition bootsMission : Mission :=
  mkMission (Some "u2") "boots" running 1500 None 0 0 0 0 1000 5000 None None 1500.

(** The line of a new record of an advertiser whose name has an
    accent, cut inside the two bytes of the accented letter. *)
Definition accentHead : string :=
  "NEW AD [1/100]: [Caf" ++ String (ascii_of_nat 195) EmptyString.

Definition accentTail : string :=
  String (ascii_of_nat 169) ("]" ++ String Js.LF EmptyString).

(** The name [Alice_1] with a no-break space before it and a space
    after it. *)
Definition paddedName : string :=
  String (ascii_of_nat 194) (String (ascii_of_nat 160) "Alice_1 ").

(** A page that never shows a card, whatever is done to it. *)
Definition blankBrowser : Scraper.Browser unit :=
  Scraper.mkBrowser (fun _ => inr 0) (fun _ _ _ => []) (fun p => (false, p))
    (fun p => p).

End MoreScenarios.

Module CronTable.

(** The expressions that [getNextRunTime] compares its argument with. *)
Definition literals : list string :=
  ["*/2 * * * *"; "*/2*****"; "*/3 * * * *"; "*/3*****";
   "*/5 * * * *"; "*/5*****"; "*/10 * * * *"; "*/10*****";
   "*/15 * * * *"; "*/15*****"; "*/30 * * * *"; "*/30*****";
   "0 */1 * * *"; "0 */6 * * *"; "0 */12 * * *"; "0 0 * * *"; "0 0 * * 0"].

(** No star of the text is followed by anything but a space. *)
Fixpoint starSpaced (s : string) : bool :=
  match s with
  | EmptyString => true
  | String c rest =>
      (if Ascii.eqb c "*"%char
       then match rest with
            | EmptyString => true
            | String d _ => Ascii.eqb d " "%char
            end
       else true)
      && starSpaced rest
  end.

End CronTable.

(** ** Accounts ([registerUser], [verifyUser] and the two routes of
    [/api/auth]) *)

Module Accounts.

(** [userSchema]: the fields the code reads and writes. *)
Record User := mkUser {
  username : string;
  passwordHash : string
}.

(** [User.findOne({ username })]. The names asked for are normalized
    ones, which the setters of the schema would leave as they are. *)
Definition findOne (name : string) (users : list User) : option User :=
  List.find (fun u => String.eqb (username u) name) users.

(** What a call or a route gives back: the user name, or the status
    code and the message of the refusal. *)
Inductive Outcome :=
| Ok (userId : string)
| Refused (statusCode : Z) (message : string).

(** A character of [/^[a-zA-Z0-9_-]+$/]. *)
Definition is_name_char (c : ascii) : bool :=
  let n := nat_of_ascii c in
  ((Nat.leb 97 n && Nat.leb n 122) || (Nat.leb 65 n && Nat.leb n 90)
   || (Nat.leb 48 n && Nat.leb n 57) || Nat.eqb n 95 || Nat.eqb n 45)%bool.

(** A character of a stored name: a small letter, a digit, an
    underscore or a hyphen. *)
Definition is_stored_char (c : ascii) : bool :=
  let n := nat_of_ascii c in
  ((Nat.leb 97 n && Nat.leb n 122) || (Nat.leb 48 n && Nat.leb n 57)
   || Nat.eqb n 95 || Nat.eqb n 45)%bool.

Fixpoint all_chars (p : ascii -> bool) (s : string) : bool :=
  match s with
  | EmptyString => true
  | String c rest => p c && all_chars p rest
  end.

(** [/^[a-zA-Z0-9_-]+$/.test(s)] *)
Definition is_name (s : string) : bool :=
  match s with
  | EmptyString => false
  | _ => all_chars is_name_char s
  end.

Section Service.

(** [String.prototype.toLowerCase] *)
Variable toLowerCase : string -> string.

(** [username.trim().toLowerCase()] *)
Definition normalize (username : string) : string :=
  toLowerCase (Js.trim username).

(** The setters [trim] and [lowercase] of the schema, run on the
    [username] of a new document. *)
Definition setUsername (value : string) : string :=
  toLowerCase (Js.trim value).

(** [bcrypt.hash(password, 10)] with the salt it draws, and
    [bcrypt.compare(password, hash)]. *)
Variable bcrypt_hash : string -> string -> string.
Variable bcrypt_compare : string -> string -> bool.

(** [registerUser(username, password)]; [store_ok] is false when a call
    of the store throws, which the function does not catch. The result
    is [None] for such an error, the name stored otherwise, or
    [USERNAME_TAKEN]. *)
Definition registerUser (store_ok : bool) (salt : string)
    (username password : string) (users : list User)
  : option (string + string) * list User :=
  if store_ok then
    let normalizedUsername := normalize username in
    match findOne normalizedUsername users with
    | Some _ => (Some (inl "USERNAME_TAKEN"), users)
    | None =>
        let passwordHash := bcrypt_hash salt password in
        let user := mkUser (setUsername normalizedUsername) passwordHash in
        (Some (inr (Accounts.username user)), (users ++ [user])%list)
    end
  else (None, users).

(** [verifyUser(username, password)]: the stored name, or [null]. *)
Definition verifyUser (username password : string) (users : list User)
  : option string :=
  let normalizedUsername := normalize username in
  match findOne normalizedUsername users with
  | None => None
  | Some user =>
      if bcrypt_compare password (passwordHash user)
      then Some (Accounts.username user) else None
  end.

(** [POST /api/auth/register]; a field of the body is [None] when it is
    absent or not a string. The token of the answer is left out. *)
Definition register (store_ok : bool) (salt : string)
    (username password : option string) (users : list User)
  : Outcome * list User :=
  match username with
  | None => (Refused 400 "Username must be at least 2 characters", users)
  | Some name =>
      if (Js.length (Js.trim name) <? 2)%nat
      then (Refused 400 "Username must be at least 2 characters", users)
      else
        match password with
        | None => (Refused 400 "Password must be at least 6 characters", users)
        | Some pass =>
            if (Js.length pass <? 6)%nat
            then (Refused 400 "Password must be at least 6 characters", users)
            else if negb (is_name (Js.trim name))
            then (Refused 400
                    "Username can only contain letters, numbers, hyphens, and underscores",
                  users)
            else
              match registerUser store_ok salt name pass users with
              | (Some (inr stored), users') => (Ok stored, users')
              | (Some (inl _), users') =>
                  (Refused 409 "Username is already taken", users')
              | (None, users') => (Refused 500 "Registration failed", users')
              end
        end
  end.

(** [POST /api/auth/login], without the token. *)
Definition login (username password : option string) (users : list User)
  : Outcome :=
  match username with
  | None => Refused 400 "Username is required"
  | Some name =>
      if Js.isEmpty (Js.trim name)
      then Refused 400 "Username is required"
      else
        match password with
        | None => Refused 400 "Password is required"
        | Some pass =>
            if Js.isEmpty pass
            then Refused 400 "Password is required"
            else
              match verifyUser name pass users with
              | Some verifiedUsername =>
                  if String.eqb verifiedUsername ""
                  then Refused 401 "Invalid username or password"
                  else Ok verifiedUsername
              | None => Refused 401 "Invalid username or password"
              end
        end
  end.

End Service.

(** A stand-in for bcrypt in the examples: the hash is the password
    itself, whatever the salt. *)
Definition plainHash (salt password : string) : string := password.

Definition plainCompare (password hash : string) : bool :=
  String.eqb password hash.

End Accounts.

(** ** Schedule management ([createJob], [addScheduler],
    [updateScheduler], [deleteScheduler], [stopJob] and the routes of
    [/api/schedulers]) *)

Module SchedulerAdmin.

Import Db.

(** An entry of [this.jobs]: the parameters the cron task was created
    with. *)
Record Job := mkJob {
  job_keyword : string;
  job_cronExpression : string;
  job_maxAdsPerRequest : Z;
  job_dailyLimit : Z
}.

(** The Scheduler collection, the job table of the service and its
    count of created jobs. *)
Record Service := mkService {
  schedulers : gmap string Scheduler;
  jobs : gmap string Job;
  totalJobsCreated : Z
}.

(** The fields of the body of [PUT /api/schedulers/:id] that the
    service looks at; a body with other fields is not covered. *)
Record Updates := mkUpdates {
  u_isActive : option bool;
  u_cronExpression : option string;
  u_maxAdsPerRequest : option Z;
  u_dailyLimit : option Z
}.

(** What a route answers: the id of the schedule it worked on, or the
    status code and message of the error. *)
Inductive Answer :=
| Done (_id : string)
| Failed (statusCode : Z) (message : string).

Definition setNextRun (next : Z) (s : Scheduler) : Scheduler :=
  mkScheduler (s_userId s) (s_keyword s) (cronExpression s) (isActive s)
    (s_maxAdsPerRequest s) (s_dailyLimit s) (lastRun s) (Some next)
    (totalRuns s) (successfulRuns s) (failedRuns s).

(** [scheduler.userId !== userId] *)
Definition ownedBy (userId : string) (s : Scheduler) : bool :=
  match s_userId s with
  | Some v => String.eqb v userId
  | None => false
  end.

(** The filter [{ keyword, userId }]. *)
Definition sameKey (keyword userId : string) (s : Scheduler) : bool :=
  String.eqb (s_keyword s) keyword && ownedBy userId s.

(** [Scheduler.findOne({ keyword, userId })] *)
Definition findOne (keyword userId : string) (schedulers : gmap string Scheduler)
  : option (string * Scheduler) :=
  List.find (fun entry => sameKey keyword userId (snd entry))
    (map_to_list schedulers).

(** A text or a number of the body that counts as given. *)
Definition given_text (x : option string) : bool :=
  match x with
  | Some s => negb (String.eqb s "")
  | None => false
  end.

Definition given_number (x : option Z) : bool :=
  match x with
  | Some v => negb (v =? 0)
  | None => false
  end.

Section Admin.

Variable zone : JsDate.Zone.
Variable month_start : Z -> Z.
(** [cron.validate] of node-cron. *)
Variable validate : string -> bool.
(** The text can be cast to an ObjectId, as the id of every stored
    document can. *)
Variable isObjectId : string -> bool.

(** [Scheduler.findById(id)]: the document, [Some None] for the [null]
    of an id that no document has, [None] for the CastError that the
    store throws on a text that is no ObjectId. *)
Definition findById (id : string) (schedulers : gmap string Scheduler)
  : option (option Scheduler) :=
  match schedulers !! id with
  | Some scheduler => Some (Some scheduler)
  | None => if isObjectId id then Some None else None
  end.

(** [stopJob(id)] *)
Definition stopJob (id : string) (sv : Service) : Service :=
  match jobs sv !! id with
  | Some _ => mkService (schedulers sv) (delete id (jobs sv)) (totalJobsCreated sv)
  | None => sv
  end.

(** [createJob]: [None] when it throws on an expression that does not
    validate; [now] is the clock reading of its [getNextRunTime]. *)
Definition createJob (now : Z) (_id keyword cron : string)
    (maxAds dailyQuota : Z) (sv : Service) : option Service :=
  if negb (validate cron) then None
  else
    let without :=
      match jobs sv !! _id with
      | Some _ => delete _id (jobs sv)
      | None => jobs sv
      end in
    Some (mkService
            (alter (setNextRun
                      (SchedulerService.getNextRunTime zone month_start now cron))
               _id (schedulers sv))
            (<[_id := mkJob keyword cron maxAds dailyQuota]> without)
            (totalJobsCreated sv + 1)).

(** [addScheduler]; [newId] is the id the store gives a new document,
    [t_doc] and [t_job] the clock readings of the two calls of
    [getNextRunTime]. The result is [inr] with the id of the schedule,
    or [inl] when [createJob] threw, with the state the throw leaves. *)
Definition addScheduler (t_doc t_job : Z) (newId keyword cron : string)
    (maxAds dailyQuota : Z) (userId : string) (sv : Service)
  : Service + string * Service :=
  match findOne keyword userId (schedulers sv) with
  | Some (id, existing) =>
      let saved :=
        mkScheduler (s_userId existing) (s_keyword existing) cron true
          maxAds dailyQuota (lastRun existing) (nextRun existing)
          (totalRuns existing) (successfulRuns existing) (failedRuns existing) in
      let sv1 := mkService (<[id := saved]> (schedulers sv)) (jobs sv)
                   (totalJobsCreated sv) in
      match createJob t_job id (s_keyword saved) (cronExpression saved)
              (s_maxAdsPerRequest saved) (s_dailyLimit saved) sv1 with
      | Some sv2 => inr (id, sv2)
      | None => inl sv1
      end
  | None =>
      let doc :=
        mkScheduler (Some userId) keyword cron true maxAds dailyQuota None
          (Some (SchedulerService.getNextRunTime zone month_start t_doc cron))
          0 0 0 in
      let sv1 := mkService (<[newId := doc]> (schedulers sv)) (jobs sv)
                   (totalJobsCreated sv) in
      match createJob t_job newId keyword cron maxAds dailyQuota sv1 with
      | Some sv2 => inr (newId, sv2)
      | None => inl sv1
      end
  end.

(** [POST /api/schedulers] *)
Definition postScheduler (t_doc t_job : Z) (newId : string)
    (keyword cron : option string) (maxAdsPerRequest dailyLimit : option Z)
    (userId : string) (sv : Service) : Answer * Service :=
  if negb (given_text keyword && given_text cron)
  then (Failed 400 "Keyword and cron expression are required", sv)
  else
    match keyword, cron with
    | Some k, Some c =>
        if negb (validate c) then (Failed 400 "Invalid cron expression", sv)
        else
          match addScheduler t_doc t_job newId k c
                  (Server.orDefault maxAdsPerRequest 100)
                  (Server.orDefault dailyLimit 1000) userId sv with
          | inr (id, sv') => (Done id, sv')
          | inl sv' => (Failed 500 "Failed to create scheduler", sv')
          end
    | _, _ => (Failed 400 "Keyword and cron expression are required", sv)
    end.

(** [Scheduler.findByIdAndUpdate(id, updates, { new: true })] on a
    document. *)
Definition applyUpdates (u : Updates) (s : Scheduler) : Scheduler :=
  mkScheduler (s_userId s) (s_keyword s)
    (pick (u_cronExpression u) (cronExpression s))
    (pick (u_isActive u) (isActive s))
    (pick (u_maxAdsPerRequest u) (s_maxAdsPerRequest s))
    (pick (u_dailyLimit u) (s_dailyLimit s))
    (lastRun s) (nextRun s) (totalRuns s) (successfulRuns s) (failedRuns s).

(** [updateScheduler]: [inr None] is the [null] it returns, [inl] a
    throw of [findById] or of [createJob] with the state it leaves. *)
Definition updateScheduler (now : Z) (id : string) (updates : Updates)
    (userId : string) (sv : Service) : Service + option string * Service :=
  match findById id (schedulers sv) with
  | None => inl sv
  | Some None => inr (None, sv)
  | Some (Some scheduler) =>
      if negb (ownedBy userId scheduler) then inr (None, sv)
      else
        let updated := applyUpdates updates scheduler in
        let sv1 := mkService (<[id := updated]> (schedulers sv)) (jobs sv)
                     (totalJobsCreated sv) in
        let recreate :=
          match createJob now id (s_keyword updated) (cronExpression updated)
                  (s_maxAdsPerRequest updated) (s_dailyLimit updated) sv1 with
          | Some sv2 => inr (Some id, sv2)
          | None => inl sv1
          end in
        match u_isActive updates with
        | Some false => inr (Some id, stopJob id sv1)
        | Some true => recreate
        | None =>
            if given_text (u_cronExpression updates)
               || given_number (u_maxAdsPerRequest updates)
               || given_number (u_dailyLimit updates)
            then recreate
            else inr (Some id, sv1)
        end
  end.

(** [PUT /api/schedulers/:id] *)
Definition putScheduler (now : Z) (id : string) (updates : Updates)
    (userId : string) (sv : Service) : Answer * Service :=
  match updateScheduler now id updates userId sv with
  | inr (Some _id, sv') => (Done _id, sv')
  | inr (None, sv') => (Failed 404 "Scheduler not found", sv')
  | inl sv' => (Failed 500 "Failed to update scheduler", sv')
  end.



End Admin.

(** No two schedules of one owner have the same keyword. *)
Definition unique_keys (schedulers : gmap string Scheduler) : Prop :=
  forall id1 id2 s1 s2 owner,
    schedulers !! id1 = Some s1 -> schedulers !! id2 = Some s2 ->
    s_userId s1 = Some owner -> s_userId s2 = Some owner ->
    s_keyword s1 = s_keyword s2 -> id1 = id2.

(** Every job of the table belongs to a stored schedule. *)
Definition jobs_are_stored (sv : Service) : Prop :=
  forall id job, jobs sv !! id = Some job ->
    exists s, schedulers sv !! id = Some s.

End SchedulerAdmin.

Module AdminScenarios.

(** The service with the one schedule of [Scenarios.everySix], stored
    as [s1], and its job. *)
Definition oneSchedule : SchedulerAdmin.Service :=
  SchedulerAdmin.mkService
    (<["s1" := Scenarios.everySix]> ∅)
    (<["s1" := SchedulerAdmin.mkJob "shoes" "0 */6 * * *" 100 5000]> ∅)
    1.

(** A validator that lets every expression of five or more characters
    through. *)
Definition longEnough (cron : string) : bool :=
  (5 <=? String.length cron)%nat.

(** A text of 24 hexadecimal digits, which is what the store casts to
    an ObjectId. The documents of the examples go by short names. *)
Definition hex24 (id : string) : bool :=
  Nat.eqb (String.length id) 24
  && forallb (fun c : ascii =>
                let n := nat_of_ascii c in
                (Nat.leb 48 n && Nat.leb n 57) || (Nat.leb 97 n && Nat.leb n 102)
                || (Nat.leb 65 n && Nat.leb n 70))
       (list_ascii_of_string id).

Definition switchOff : SchedulerAdmin.Updates :=
  SchedulerAdmin.mkUpdates (Some false) None None None.

End AdminScenarios.

(** ** Deleting missions ([DELETE /api/missions/:id] and
    [POST /api/missions/batch-delete]) *)

Module MissionAdmin.

Import Db.

(** [mission.userId !== userId] *)
Definition ownedBy (userId : string) (m : Mission) : bool :=
  match m_userId m with
  | Some v => String.eqb v userId
  | None => false
  end.

Section Routes.

(** The text can be cast to an ObjectId, as the id of every stored
    document can. *)
Variable isObjectId : string -> bool.

(** [Mission.findById(id)]: the document, [Some None] for the [null] of
    an id that no document has, [None] for the CastError that the store
    throws on a text that is no ObjectId. *)
Definition findById (id : string) (missions : gmap string Mission)
  : option (option Mission) :=
  match missions !! id with
  | Some mission => Some (Some mission)
  | None => if isObjectId id then Some None else None
  end.





End Routes.

End MissionAdmin.

Module StuckScenarios.

(** A page that always shows three cards none of which can be read:
    the extraction skips every card. *)
Definition unreadableBrowser : Scraper.Browser unit :=
  Scraper.mkBrowser (fun _ => inr 3) (fun _ _ _ => []) (fun p => (false, p))
    (fun p => p).

End StuckScenarios.

(** * Properties *)

(** ** Date arithmetic in a zone whose clocks are never changed *)

Section DateFacts.

Variable tza : Z.
Variable month_start : Z -> Z.

(** Unfolds the field arithmetic of a local time [l] into linear facts. *)
Ltac split_fields l :=
  pose proof (Z.div_mod l 86400000 ltac:(lia));
  pose proof (Z.div_mod l 3600000 ltac:(lia));
  pose proof (Z.div_mod l 60000 ltac:(lia));
  pose proof (Z.div_mod l 1000 ltac:(lia));
  pose proof (Z.div_mod (l / 3600000) 24 ltac:(lia));
  pose proof (Z.div_mod (l / 60000) 60 ltac:(lia));
  pose proof (Z.div_mod (l / 1000) 60 ltac:(lia));
  replace (l / 3600000 / 24) with (l / 86400000) in *
    by (rewrite Z.div_div by lia; reflexivity);
  replace (l / 60000 / 60) with (l / 3600000) in *
    by (rewrite Z.div_div by lia; reflexivity);
  replace (l / 1000 / 60) with (l / 60000) in *
    by (rewrite Z.div_div by lia; reflexivity).

Lemma setMinutes_shift (t k : Z) :
  JsDate.setMinutes (JsDate.fixedZone tza) t
    (JsDate.getMinutes (JsDate.fixedZone tza) t + k)
  = t + k * 60000.
Proof.
  unfold JsDate.setMinutes, JsDate.getMinutes, JsDate.UTC, JsDate.MakeDate,
    JsDate.MakeTime, JsDate.LocalTime, JsDate.fixedZone, JsDate.Day,
    JsDate.HourFromTime, JsDate.MinFromTime, JsDate.SecFromTime,
    JsDate.msFromTime, JsDate.msPerDay, JsDate.msPerHour, JsDate.msPerMinute,
    JsDate.msPerSecond.
  set (l := t + tza). split_fields l. lia.
Qed.

Lemma setHours_shift (t k : Z) :
  JsDate.setHours (JsDate.fixedZone tza) t
    (JsDate.getHours (JsDate.fixedZone tza) t + k)
  = t + k * 3600000.
Proof.
  unfold JsDate.setHours, JsDate.getHours, JsDate.UTC, JsDate.MakeDate,
    JsDate.MakeTime, JsDate.LocalTime, JsDate.fixedZone, JsDate.Day,
    JsDate.HourFromTime, JsDate.MinFromTime, JsDate.SecFromTime,
    JsDate.msFromTime, JsDate.msPerDay, JsDate.msPerHour, JsDate.msPerMinute,
    JsDate.msPerSecond.
  set (l := t + tza). split_fields l. lia.
Qed.

Lemma setDate_shift (t n : Z) :
  JsDate.setDate (JsDate.fixedZone tza) month_start t
    (JsDate.getDate (JsDate.fixedZone tza) month_start t + n)
  = t + n * 86400000.
Proof.
  unfold JsDate.setDate, JsDate.getDate, JsDate.DateFromTime,
    JsDate.MakeDayInMonthOf, JsDate.UTC, JsDate.MakeDate, JsDate.LocalTime,
    JsDate.fixedZone, JsDate.TimeWithinDay, JsDate.Day, JsDate.msPerDay.
  set (l := t + tza).
  pose proof (Z.div_mod l 86400000 ltac:(lia)).
  lia.
Qed.

(** Midnight of the local day that lies [n >= 1] days ahead is later
    than now. *)
Lemma midnight_days_ahead (t n : Z) :
  1 <= n ->
  t < JsDate.setHours4 (JsDate.fixedZone tza) (t + n * 86400000) 0 0 0 0.
Proof.
  intros Hn.
  unfold JsDate.setHours4, JsDate.UTC, JsDate.MakeDate, JsDate.MakeTime,
    JsDate.LocalTime, JsDate.fixedZone, JsDate.Day, JsDate.msPerDay,
    JsDate.msPerHour, JsDate.msPerMinute, JsDate.msPerSecond.
  replace (t + n * 86400000 + tza) with ((t + tza) + n * 86400000) by lia.
  rewrite Z.div_add by lia.
  set (l := t + tza).
  pose proof (Z.div_mod l 86400000 ltac:(lia)).
  pose proof (Z.mod_pos_bound l 86400000 ltac:(lia)).
  nia.
Qed.

End DateFacts.

Lemma getDay_range (zone : JsDate.Zone) (t : Z) : 0 <= JsDate.getDay zone t < 7.
Proof.
  unfold JsDate.getDay, JsDate.WeekDay. apply Z.mod_pos_bound. lia.
Qed.

(** ** The scheduler *)

Section SchedulerFacts.

Variable month_start : Z -> Z.

Import Db SchedulerService.

(** Where the clocks are never changed the next run is after now. *)
Lemma getNextRunTime_later (tza now : Z) (cron : string) :
  now < getNextRunTime (JsDate.fixedZone tza) month_start now cron.
Proof.
  unfold getNextRunTime.
  repeat match goal with
         | |- context [if ?b then _ else _] => destruct b
         end;
    rewrite ?setMinutes_shift, ?setHours_shift, ?setDate_shift;
    try lia.
  - apply midnight_days_ahead. lia.
  - apply midnight_days_ahead.
    pose proof (getDay_range (JsDate.fixedZone tza) now). lia.
Qed.

(** An expression that selects no branch of its own gets the default. *)
Lemma getNextRunTime_default (zone : JsDate.Zone) (now : Z) (cron : string) :
  recognized cron = false ->
  getNextRunTime zone month_start now cron
  = JsDate.setHours zone now (JsDate.getHours zone now + 1).
Proof.
  unfold recognized, getNextRunTime. cbn [existsb].
  rewrite !orb_false_iff. intros H.
  repeat match type of H with
         | _ /\ _ => let H1 := fresh "E" in destruct H as [H1 H]
         end.
  repeat match goal with
         | E : _ /\ _ |- _ => destruct E
         end.
  repeat match goal with
         | E : String.eqb _ _ = false |- _ => rewrite E; clear E
         end.
  reflexivity.
Qed.

(** C9 at a failing input. The process runs in the zone of New York and
    computes the next run of an every-two-minutes schedule at 06:30 UTC
    on 3 November 2024, which is 01:30 local time, in the hour that the
    clocks show for the second time. [setMinutes(getMinutes() + 2)]
    asks for 01:32 local time, which is taken as its first occurrence:
    the result is 05:32 UTC, fifty-eight minutes before the moment of
    the computation. *)
Theorem next_run_before_now_when_the_clocks_went_back :
  JsDate.getHours JsDate.newYork Scenarios.fallBackNight = 1
  /\ JsDate.getMinutes JsDate.newYork Scenarios.fallBackNight = 30
  /\ getNextRunTime JsDate.newYork month_start Scenarios.fallBackNight
       "*/2 * * * *"
     = Scenarios.fallBackNight - 58 * 60000
  /\ getNextRunTime JsDate.newYork month_start Scenarios.fallBackNight
       "*/2 * * * *"
     < Scenarios.fallBackNight.
Proof.
  assert (H : getNextRunTime JsDate.newYork month_start Scenarios.fallBackNight
                "*/2 * * * *"
              = Scenarios.fallBackNight - 58 * 60000) by (vm_compute; reflexivity).
  split; [vm_compute; reflexivity|]. split; [vm_compute; reflexivity|].
  split; [exact H|]. rewrite H. unfold Scenarios.fallBackNight. lia.
Qed.

(** C2 at a failing input. In the zone of New York the worker of an
    every-two-minutes schedule exits at 06:30 UTC on 3 November 2024:
    the close listener stores that instant as [lastRun] and a [nextRun]
    fifty-eight minutes before it. And when the store rejects the four
    attempts of a tick and the bookkeeping update after them, the
    schedule keeps the [lastRun] and [nextRun] it had. *)
Theorem nextRun_before_lastRun_when_the_clocks_went_back :
  let schedulers : gmap string Scheduler := <["s1" := Scenarios.everyTwo]> ∅ in
  let ev := mkCloseEvent (Some 0) false "" 0 Scenarios.fallBackNight
              Scenarios.fallBackNight (Scenarios.fallBackNight + 1) in
  (exists s' l n,
      closeScheduler JsDate.newYork month_start "s1" Scenarios.everyTwo ev
        schedulers !! "s1" = Some s'
      /\ lastRun s' = Some l /\ nextRun s' = Some n
      /\ l = Scenarios.fallBackNight /\ n < l)
  /\ (exists run,
        executeScrapingJobWithRetry (JsDate.fixedZone 19800000) month_start
          (fun _ => false) Scenarios.secondsClock 9001 9002 "s1" "shoes"
          100 5000 schedulers = Some run
        /\ delays run = [5000; 10000; 20000]
        /\ schedulers_after run = schedulers).
Proof.
  intros schedulers ev. split.
  - unfold closeScheduler. subst schedulers.
    rewrite lookup_alter_eq, lookup_insert_eq.
    cbn [fmap option_fmap option_map recordRun lastRun nextRun].
    eexists _, _, _. split; [reflexivity|].
    split; [reflexivity|]. split; [reflexivity|].
    split; [reflexivity|].
    replace (getNextRunTime JsDate.newYork month_start (t_now ev)
               (cronExpression Scenarios.everyTwo))
      with (Scenarios.fallBackNight + 1 - 58 * 60000) by (vm_compute; reflexivity).
    cbn [t_lastRun ev]. unfold Scenarios.fallBackNight. lia.
  - eexists. split; [reflexivity|]. split; reflexivity.
Qed.

End SchedulerFacts.

(** ** The persistence gateway *)

Section DbFacts.

Import Db.

Lemma matches_own (adv desc : string) (owner : option string) now kw ph addr sd :
  matches (mkFilter adv desc owner) (mkAd owner adv desc now kw ph addr sd) = true.
Proof.
  unfold matches. cbn. rewrite !String.eqb_refl. cbn.
  destruct owner as [u|]; [apply String.eqb_refl | reflexivity].
Qed.

Lemma findOne_snoc (f : AdFilter) (ads : list Ad) (a : Ad) :
  matches f a = true -> exists b, findOne f (ads ++ [a]) = Some b.
Proof.
  intros Hm. unfold findOne.
  induction ads as [|x xs IH]; cbn.
  - rewrite Hm. eauto.
  - destruct (matches f x); eauto.
Qed.

Lemma findOne_None_key (adv desc : string) (owner : option string) (ads : list Ad) :
  findOne (mkFilter adv desc owner) ads = None ->
  ~ In (owner, (adv, desc)) (List.map dedup_key ads).
Proof.
  unfold findOne. intros Hf Hin.
  apply in_map_iff in Hin as [a [Hk Ha]].
  pose proof (find_none _ _ Hf a Ha) as Hm.
  unfold dedup_key in Hk. inversion Hk; subst.
  unfold matches in Hm. cbn in Hm. rewrite !String.eqb_refl in Hm. cbn in Hm.
  destruct (userId a); [rewrite String.eqb_refl in Hm|]; discriminate.
Qed.

Lemma findOne_no_owner (adv desc : string) (ads : list Ad) (a : Ad) :
  In a ads -> advertiser_name a = adv -> ad_description a = desc ->
  exists b, findOne (mkFilter adv desc None) ads = Some b.
Proof.
  intros Hin Ha Hd. unfold findOne.
  destruct (List.find (matches (mkFilter adv desc None)) ads) as [b|] eqn:E; eauto.
  pose proof (find_none _ _ E a Hin) as Hm.
  unfold matches in Hm. cbn in Hm. rewrite Ha, Hd, !String.eqb_refl in Hm.
  discriminate.
Qed.

(** What a call that reports [true] has done. *)
Lemma saveAd_true (fault : Fault) now adv desc kw ph addr sd owner ads :
  returned (saveAd fault now adv desc kw ph addr sd owner ads) = true ->
  findOne (mkFilter adv desc owner) ads = None
  /\ ads_after (saveAd fault now adv desc kw ph addr sd owner ads)
     = (ads ++ [mkAd owner adv desc now kw ph addr sd])%list.
Proof.
  unfold saveAd.
  destruct fault; destruct (findOne (mkFilter adv desc owner) ads); cbn;
    intros H; try discriminate; auto.
Qed.

(** A call that reports [false] leaves the collection alone. *)
Lemma saveAd_false (fault : Fault) now adv desc kw ph addr sd owner ads :
  returned (saveAd fault now adv desc kw ph addr sd owner ads) = false ->
  ads_after (saveAd fault now adv desc kw ph addr sd owner ads) = ads.
Proof.
  unfold saveAd.
  destruct fault; destruct (findOne (mkFilter adv desc owner) ads); cbn;
    intros H; try discriminate; auto.
Qed.

Lemma saveAd_keeps_keys_distinct (fault : Fault) now adv desc kw ph addr sd owner ads :
  NoDup (List.map dedup_key ads) ->
  NoDup (List.map dedup_key
    (ads_after (saveAd fault now adv desc kw ph addr sd owner ads))).
Proof.
  intros Hnd.
  destruct (returned (saveAd fault now adv desc kw ph addr sd owner ads)) eqn:E.
  - apply saveAd_true in E as [Hnone ->].
    rewrite map_app. cbn.
    apply NoDup_app. split; [exact Hnd|].
    split.
    + intros k Hk Hk'. apply list_elem_of_In in Hk.
      apply list_elem_of_singleton in Hk'. subst k.
      exact (findOne_None_key _ _ _ _ Hnone Hk).
    + apply NoDup_singleton.
  - rewrite (saveAd_false _ _ _ _ _ _ _ _ _ _ E). exact Hnd.
Qed.

(** A call that follows an accepted one, with nothing in between, is
    refused. *)
Lemma saveAd_again_is_refused
    (fault1 fault2 : Fault) (now1 now2 : Z) (adv desc kw1 kw2 : string)
    (ph1 ph2 addr1 addr2 : option string) (sd1 sd2 : option Z)
    (owner : option string) (ads : list Ad) :
  let first := saveAd fault1 now1 adv desc kw1 ph1 addr1 sd1 owner ads in
  let second :=
    saveAd fault2 now2 adv desc kw2 ph2 addr2 sd2 owner (ads_after first) in
  returned first = true ->
  returned second = false /\ ads_after second = ads_after first.
Proof.
  intros first second Hs. subst first second.
  destruct (saveAd_true _ _ _ _ _ _ _ _ _ _ Hs) as [_ Heq].
  rewrite Heq.
  destruct (findOne_snoc (mkFilter adv desc owner) ads
              (mkAd owner adv desc now1 kw1 ph1 addr1 sd1)
              (matches_own _ _ _ _ _ _ _ _)) as [b Hb].
  unfold saveAd. rewrite Hb.
  destruct fault2; cbn; auto.
Qed.

(** A call of [saveAd] that nothing interrupts and that meets no fault
    is its lookup followed at once by its save. *)
Lemma saveAd_is_lookup_then_save now adv desc kw ph addr sd owner (ads : list Ad) :
  let r := saveAd NoFault now adv desc kw ph addr sd owner ads in
  let looked := lookup now adv desc kw ph addr sd owner (mkStore ads []) in
  returned r = fst looked
  /\ ads_after r = stored (save 0 (snd looked)).
Proof.
  unfold saveAd, lookup. cbn [stored inFlight].
  destruct (findOne (mkFilter adv desc owner) ads); cbn; auto.
Qed.

(** C1 at a failing input. Two workers of user [u1] meet the same card.
    The lookup of the second call is answered before the save of the
    first has landed: both lookups find nothing, both calls save and
    report a new record, and the collection holds two records of [u1]
    with the same advertiser and description. The Google route stores
    what its scraper found with no lookup at all, so a record that two
    of its runs find is kept twice. Only a call that starts after the save
    of the other has landed is refused. *)
Theorem parallel_saves_store_a_record_twice :
  let first :=
    lookup 1000 "Acme" "Sale on shoes" "shoes" None None None (Some "u1")
      (mkStore [] []) in
  let second :=
    lookup 1001 "Acme" "Sale on shoes" "shoes" None None None (Some "u1")
      (snd first) in
  let final := save 0 (save 0 (snd second)) in
  let viaGoogle :=
    run [GoogleSave Scenarios.googleAd; GoogleSave Scenarios.googleAd] in
  (fst first = true /\ fst second = true
   /\ List.map dedup_key (stored final)
      = [(Some "u1", ("Acme", "Sale on shoes"));
         (Some "u1", ("Acme", "Sale on shoes"))]
   /\ reachable (stored final)
   /\ ~ NoDup (List.map dedup_key (stored final)))
  /\ (reachable (stored viaGoogle)
      /\ ~ NoDup (List.map dedup_key (stored viaGoogle)))
  /\ fst (lookup 1001 "Acme" "Sale on shoes" "shoes" None None None (Some "u1")
            (save 0 (snd first))) = false.
Proof.
  intros first second final viaGoogle.
  split; [|split].
  - split; [reflexivity|]. split; [reflexivity|]. split; [reflexivity|].
    split.
    + exists [Lookup 1000 "Acme" "Sale on shoes" "shoes" None None None (Some "u1");
              Lookup 1001 "Acme" "Sale on shoes" "shoes" None None None (Some "u1");
              Save 0; Save 0].
      reflexivity.
    + intros Hnd. change (List.map dedup_key (stored final))
        with [(Some "u1", ("Acme", "Sale on shoes"));
              (Some "u1", ("Acme", "Sale on shoes"))] in Hnd.
      apply NoDup_cons in Hnd as [Hnotin _].
      apply Hnotin. left.
  - split.
    + exists [GoogleSave Scenarios.googleAd; GoogleSave Scenarios.googleAd].
      reflexivity.
    + intros Hnd. change (List.map dedup_key (stored viaGoogle))
        with [dedup_key Scenarios.googleAd; dedup_key Scenarios.googleAd] in Hnd.
      apply NoDup_cons in Hnd as [Hnotin _].
      apply Hnotin. left.
  - reflexivity.
Qed.

(** C10: called without an owner, [saveAd] reports a duplicate as soon
    as any record, of whatever owner, has the same advertiser and
    description, and a record it stores carries no owner. *)
Theorem saveAd_without_owner_dedups_globally
    (fault : Fault) (now : Z) (adv desc kw : string)
    (ph addr : option string) (sd : option Z) (ads : list Ad) :
  let r := saveAd fault now adv desc kw ph addr sd None ads in
  (forall a, In a ads -> advertiser_name a = adv -> ad_description a = desc ->
     returned r = false /\ ads_after r = ads)
  /\ (returned r = true ->
      exists a, ads_after r = (ads ++ [a])%list /\ userId a = None
                /\ advertiser_name a = adv /\ ad_description a = desc).
Proof.
  intros r. split.
  - intros a Hin Ha Hd.
    destruct (findOne_no_owner adv desc ads a Hin Ha Hd) as [b Hb].
    subst r. unfold saveAd. rewrite Hb. destruct fault; cbn; auto.
  - intros Hs. subst r.
    unfold saveAd in *.
    destruct fault; destruct (findOne (mkFilter adv desc None) ads);
      cbn in *; try discriminate; eexists; repeat split.
Qed.

End DbFacts.

(** A save without owner against a record of user [u1], and one into an
    empty collection. *)
Lemma saveAd_without_owner_dedups_globally_witness :
  let other := Db.mkAd (Some "u1") "Acme" "Sale" 1 "shoes" None None None in
  let r := Db.saveAd Db.NoFault 2 "Acme" "Sale" "boots" None None None None [other] in
  (Db.returned r = false /\ Db.ads_after r = [other])
  /\ exists a,
       Db.ads_after (Db.saveAd Db.NoFault 2 "Acme" "Sale" "boots" None None None None [])
       = [a] /\ Db.userId a = None
       /\ Db.advertiser_name a = "Acme" /\ Db.ad_description a = "Sale".
Proof.
  split.
  - apply (proj1 (saveAd_without_owner_dedups_globally Db.NoFault 2 "Acme" "Sale"
                    "boots" None None None
                    [Db.mkAd (Some "u1") "Acme" "Sale" 1 "shoes" None None None])
             (Db.mkAd (Some "u1") "Acme" "Sale" 1 "shoes" None None None));
      [left; reflexivity | reflexivity | reflexivity].
  - apply (proj2 (saveAd_without_owner_dedups_globally Db.NoFault 2 "Acme" "Sale"
                    "boots" None None None [])).
    reflexivity.
Defined.

(** ** The mission supervisor *)

Section SupervisorFacts.

Import Db Protocol.

Variable JSON_parse : string -> option MissionResult.

Lemma checkFinalResult_missions (cl : Server.Closure) (st : Server.State) :
  Server.missions (Server.checkFinalResult JSON_parse cl st) = Server.missions st.
Proof.
  unfold Server.checkFinalResult.
  destruct (Server.activeFacebookScrapers st !! Server.missionId cl); [|reflexivity].
  destruct (matchMissionResult (Server.scriptOutput cl)) as [text|]; [|reflexivity].
  destruct (JSON_parse text); reflexivity.
Qed.

Lemma checkFinalResult_registered (cl : Server.Closure) (st : Server.State)
    (info : Server.MissionInfo) :
  Server.activeFacebookScrapers st !! Server.missionId cl = Some info ->
  exists info',
    Server.activeFacebookScrapers (Server.checkFinalResult JSON_parse cl st)
      !! Server.missionId cl = Some info'.
Proof.
  intros H. unfold Server.checkFinalResult. rewrite H.
  destruct (matchMissionResult (Server.scriptOutput cl)) as [text|]; [|eauto].
  destruct (JSON_parse text); [|eauto].
  cbn. rewrite lookup_insert_eq. eauto.
Qed.

Lemma checkFinalResult_unregistered (cl : Server.Closure) (st : Server.State) :
  Server.activeFacebookScrapers st !! Server.missionId cl = None ->
  Server.checkFinalResult JSON_parse cl st = st.
Proof.
  intros H. unfold Server.checkFinalResult. rewrite H. reflexivity.
Qed.

(** The document the [close] listener leaves in the store. *)
Lemma onClose_status (code : option Z) (now : Z) (cl : Server.Closure)
    (st : Server.State) (info : Server.MissionInfo) (m : Mission) :
  Server.activeFacebookScrapers st !! Server.missionId cl = Some info ->
  Server.missions st !! Server.missionId cl = Some m ->
  Server.missions (Server.onClose JSON_parse code now cl st) !! Server.missionId cl
  = Some (applyUpdate
            (mkMissionSet (Some (Server.finalStatus code)) (Some now)
               None None None None None (Some now)) noInc m).
Proof.
  intros Hreg Hdb. unfold Server.onClose.
  destruct (checkFinalResult_registered cl st info Hreg) as [info' ->].
  cbn. unfold findByIdAndUpdate.
  rewrite lookup_alter_eq, checkFinalResult_missions, Hdb. reflexivity.
Qed.

Lemma onLine_registry (now : Z) (id : string) (st : Server.State) (line : string) :
  Server.activeFacebookScrapers (Server.onLine now id st line)
  = Server.activeFacebookScrapers st.
Proof.
  unfold Server.onLine.
  destruct (Server.activeFacebookScrapers st !! id); [|reflexivity].
  destruct (Server.incIsEmpty _); reflexivity.
Qed.

(** C3, as the code has it: on demand, the [close] listener of a
    mission that is still registered stores [completed] for exit code 0,
    [stopped] for a killed worker (code [null]) and [failed] for any
    other code, and stores nothing for a mission that left the registry;
    a scheduled job ends as [completed] for exit code 0 without timeout
    and as [failed] in every other case, a killed worker included. *)
Theorem exit_disposition_decides_terminal_status :
  (forall (code : option Z) (now : Z) (cl : Server.Closure) (st : Server.State)
          (info : Server.MissionInfo) (m : Mission),
      Server.activeFacebookScrapers st !! Server.missionId cl = Some info ->
      Server.missions st !! Server.missionId cl = Some m ->
      exists m',
        Server.missions (Server.onClose JSON_parse code now cl st)
          !! Server.missionId cl = Some m'
        /\ status m' = match code with
                       | Some 0 => completed
                       | None => stopped
                       | Some _ => failed
                       end)
  /\ (forall (code : option Z) (now : Z) (cl : Server.Closure) (st : Server.State),
      Server.activeFacebookScrapers st !! Server.missionId cl = None ->
      Server.missions (Server.onClose JSON_parse code now cl st)
      = Server.missions st)
  /\ (forall (ev : SchedulerService.CloseEvent) (m : Mission),
      status (SchedulerService.closeMission JSON_parse ev m)
      = if SchedulerService.isTimeout ev then failed
        else match SchedulerService.code ev with
             | Some 0 => completed
             | _ => failed
             end).
Proof.
  split; [|split].
  - intros code now cl st info m Hreg Hdb.
    rewrite (onClose_status code now cl st info m Hreg Hdb).
    eexists. split; [reflexivity|]. cbn. reflexivity.
  - intros code now cl st Hreg. unfold Server.onClose.
    rewrite (checkFinalResult_unregistered cl st Hreg), Hreg. reflexivity.
  - intros ev m. unfold SchedulerService.closeMission.
    destruct (SchedulerService.isTimeout ev);
      destruct (matchMissionResult (SchedulerService.scriptOutput ev)) as [text|];
      try destruct (JSON_parse text);
      destruct (SchedulerService.code ev) as [[| |]|]; reflexivity.
Qed.

(** C6, as the code has it: a stop request that names a mission which is
    not in the registry of running workers is answered with the error
    404 and changes nothing; and a mission is not in the registry once
    its worker was seen to exit or it was stopped. *)
Theorem stop_of_unregistered_mission_is_rejected :
  (forall (now : Z) (id user : string) (st : Server.State),
      id <> "" ->
      Server.activeFacebookScrapers st !! id = None ->
      Server.stop now (Some id) user st
      = (Server.Json 404 "Mission not found or not running", st))
  /\ (forall (code : option Z) (now : Z) (cl : Server.Closure) (st : Server.State),
      Server.activeFacebookScrapers (Server.onClose JSON_parse code now cl st)
        !! Server.missionId cl = None)
  /\ (forall (now : Z) (id : string) (info : Server.MissionInfo) (st : Server.State),
      Server.activeFacebookScrapers (Server.stopFacebookScraper now id info st)
        !! id = None).
Proof.
  split; [|split].
  - intros now id user st Hid Hreg. unfold Server.stop.
    apply String.eqb_neq in Hid. rewrite Hid, Hreg. reflexivity.
  - intros code now cl st. unfold Server.onClose. cbn. apply lookup_delete_eq.
  - intros now id info st. unfold Server.stopFacebookScraper. cbn.
    apply lookup_delete_eq.
Qed.

End SupervisorFacts.

(** Mission [m1], still registered, whose worker is killed; the same
    mission after it left the registry. *)
Lemma exit_disposition_decides_terminal_status_witness :
  (exists m',
      Server.missions
        (Server.onClose Scenarios.parseSavedOnly None 9000 Scenarios.closure0
           Scenarios.started) !! "m1" = Some m'
      /\ Db.status m' = Db.stopped)
  /\ Server.missions
       (Server.onClose Scenarios.parseSavedOnly (Some 1) 9500 Scenarios.closure0
          Scenarios.finished)
     = Server.missions Scenarios.finished.
Proof.
  destruct (exit_disposition_decides_terminal_status Scenarios.parseSavedOnly)
    as (H1 & H2 & _).
  split.
  - destruct (H1 None 9000 Scenarios.closure0 Scenarios.started
                (Server.mkMissionInfo 4242 "shoes"
                   (Db.mkMission (Some "u1") "shoes" Db.running 1000 None 0 0 0 0
                      100 5000 None None 1000))
                (Db.mkMission (Some "u1") "shoes" Db.running 1000 None 0 0 0 0
                   100 5000 None None 1000))
      as (m' & Hm & Hs); [reflexivity | reflexivity |].
    exists m'. split; [exact Hm | exact Hs].
  - apply (H2 (Some 1) 9500 Scenarios.closure0 Scenarios.finished). reflexivity.
Defined.

(** C3 fails as stated: a scheduled worker that is killed (exit code
    [null]) ends as [failed], where the claim asks for [stopped], both
    when the scheduler itself killed it on timeout and when it did not. *)
Lemma killed_scheduled_worker_is_failed :
  let killed := SchedulerService.mkCloseEvent None false "" 0 9000 9000 9000 in
  let timedOut := SchedulerService.mkCloseEvent None true "" 8999 9000 9000 9000 in
  Server.finalStatus (SchedulerService.code killed) = Db.stopped
  /\ Db.status (SchedulerService.closeMission Scenarios.parseSavedOnly killed
                  Scenarios.scheduledMission) = Db.failed
  /\ Db.status (SchedulerService.closeMission Scenarios.parseSavedOnly killed
                  Scenarios.scheduledMission) <> Db.stopped
  /\ Db.status (SchedulerService.closeMission Scenarios.parseSavedOnly timedOut
                  Scenarios.scheduledMission) = Db.failed.
Proof. vm_compute. repeat split. discriminate. Qed.

(** C4 at a failing input. On demand, the worker prints one line with
    the NEW AD tag and a summary with [saved = 3]: [checkFinalResult]
    raises [newAds] of the in-memory document to 3, the maximum of both
    channels, but the exit stores the status and the times only, and
    the stored [newAds] stays 1. After three tagged lines and a summary
    with [saved = 1] the in-memory document holds 1 while the store
    holds 3, so the document the maximum is taken on is not the one the
    lines are counted on. A scheduled job that saw the progress tag of
    five new records and then a summary with [saved = 2] ends with
    [newAds = 2], not 5. *)
Theorem max_of_both_channels_fails :
  (let run := Scenarios.supervised Scenarios.parseSavedOnly
                [Scenarios.tagLine 1; Scenarios.summaryLine 3]
                Scenarios.started in
   let st := Server.onClose Scenarios.parseSavedOnly (Some 0) 9000
               (fst run) (snd run) in
   Db.newAds <$> Scenarios.inMemory (snd run) = Some 3
   /\ Db.newAds <$> Scenarios.persisted (snd run) = Some 1
   /\ Db.newAds <$> Scenarios.persisted st = Some 1
   /\ Db.status <$> Scenarios.persisted st = Some Db.completed)
  /\ (let st := snd (Scenarios.supervised Scenarios.parseSavedOnly
                       [Scenarios.tagLine 1; Scenarios.tagLine 2;
                        Scenarios.tagLine 3; Scenarios.summaryLine 1]
                       Scenarios.started) in
      Db.newAds <$> Scenarios.persisted st = Some 3
      /\ Db.newAds <$> Scenarios.inMemory st = Some 1)
  /\ (exists seen,
        SchedulerService.onStdoutData Scenarios.shortNumber "NEW AD [5/+]"
          Scenarios.scheduledMission = Some seen
        /\ Db.newAds seen = 5
        /\ Db.newAds
             (SchedulerService.closeMission Scenarios.parseSavedOnly
                (SchedulerService.mkCloseEvent (Some 0) false
                   (Js.printed ["NEW AD [5/+]"; Scenarios.summaryLine 2])
                   0 9000 9000 9000)
                seen) = 2).
Proof.
  split; [|split].
  - vm_compute. repeat split.
  - vm_compute. repeat split.
  - eexists. split; [vm_compute; reflexivity|]. vm_compute. split; reflexivity.
Qed.

(** A stop request for mission [m1] after its worker exited. *)
Lemma stop_of_unregistered_mission_is_rejected_witness :
  Server.stop 9500 (Some "m1") "u1" Scenarios.finished
  = (Server.Json 404 "Mission not found or not running", Scenarios.finished).
Proof.
  apply (proj1 (stop_of_unregistered_mission_is_rejected Scenarios.parseSavedOnly));
    [discriminate | reflexivity].
Defined.

(** C6 fails as stated: mission [m1] of user [u1] is [completed], and the
    stop request of [u1] for it is answered with an error. *)
Lemma stop_of_finished_mission_is_an_error :
  Db.status <$> Scenarios.persisted Scenarios.finished = Some Db.completed
  /\ Db.m_userId <$> Scenarios.persisted Scenarios.finished = Some (Some "u1")
  /\ Server.is_error
       (fst (Server.stop 9500 (Some "m1") "u1" Scenarios.finished)) = true.
Proof. vm_compute. repeat split. Qed.

(** ** The worker under the supervisor *)

(** C5 at a failing input: the page shows a record that user [u1]
    already has and a new one. The worker counts one duplicate and
    prints its skip line for it, no line of its output contains
    DUPLICATE, and after the supervisor has read all of it the stored
    [duplicatesSkipped] is still 0, while the new record was counted
    once in [newAds] and [adsFound]. *)
Theorem duplicate_lines_leave_counter_untouched :
  exists run st,
    Scenarios.worker [Scenarios.acme; Scenarios.bolt] [] [Scenarios.acmeAd]
    = Some run
    /\ Scraper.duplicateCount (Scraper.run_stats run) = 1
    /\ Scraper.savedCount (Scraper.run_stats run) = 1
    /\ In "[Skip] Ad already exists: Acme" (Scraper.out (Scraper.run_world run))
    /\ Protocol.tagCount "DUPLICATE" (Scraper.out (Scraper.run_world run)) = 0
    /\ snd (Scenarios.supervised Scenarios.parseSavedOnly
              (Scraper.out (Scraper.run_world run)) Scenarios.started) = st
    /\ Db.duplicatesSkipped <$> Scenarios.persisted st = Some 0
    /\ Db.newAds <$> Scenarios.persisted st = Some 1
    /\ Db.adsFound <$> Scenarios.persisted st = Some 1.
Proof.
  eexists _, _. split; [vm_compute; reflexivity|].
  vm_compute. repeat split. tauto.
Qed.

(** C7 at a failing input: the page shows two new records, scrolling
    brings nothing, and the page comes back empty from the reload. The
    supervisor has stored [adsFound = 2] when the worker sends its last
    update, which carries [adsFound = 0] (the processed count was reset
    by the reload) and lowers the stored counter to 0. *)
Theorem final_update_lowers_adsFound :
  exists run st,
    Scenarios.worker [Scenarios.acme; Scenarios.bolt] [] [] = Some run
    /\ snd (Scenarios.supervised Scenarios.parseSavedOnly
              (Scraper.out (Scraper.run_world run)) Scenarios.started) = st
    /\ Db.adsFound <$> Scenarios.persisted st = Some 2
    /\ Scraper.run_update run
       = Db.mkMissionSet (Some Db.completed) (Some 4000) (Some 0) (Some 2)
           (Some 0) (Some 0) None None
    /\ Db.adsFound <$> (Db.updateMission true 6000 "m1" (Scraper.run_update run)
                          (Server.missions st) !! "m1") = Some 0.
Proof.
  eexists _, _. split; [vm_compute; reflexivity|].
  vm_compute. repeat split.
Qed.

(** ** Record-container discovery *)

Section DomFacts.

Import Dom.

Lemma removelast_prefix (p : Path) :
  removelast p `prefix_of` p
  /\ (List.length p <= S (List.length (removelast p)))%nat.
Proof.
  induction p as [|x l _] using rev_ind.
  - split; [reflexivity | cbn; lia].
  - rewrite removelast_last, length_app. split.
    + apply prefix_app_r. reflexivity.
    + cbn. lia.
Qed.

(** The walk ends at an ancestor at most [levels] above the link, below
    the search root, with a box above the thresholds. *)
Lemma climb_within (levels : nat) (body : Node) (searchRoot : Path) :
  forall (p q : Path),
  climb levels body searchRoot p = Some q ->
  q `prefix_of` p /\ (List.length p <= List.length q + levels)%nat
  /\ q <> searchRoot /\ q <> []
  /\ exists el, nodeAt body q = Some el /\ 200 < widthOf el /\ 100 < heightOf el.
Proof.
  induction levels as [|n IH]; intros p q H; cbn [climb] in H; [discriminate|].
  cbv zeta in H.
  destruct (removelast_prefix p) as [Hup Hlen].
  destruct (pathEqb (removelast p) searchRoot || pathEqb (removelast p) []) eqn:Estop;
    [discriminate H|].
  apply orb_false_iff in Estop as [E1 E2].
  unfold pathEqb in E1, E2.
  destruct (decide _) as [|Hroot] in E1; [discriminate E1|].
  destruct (decide _) as [|Hbody] in E2; [discriminate E2|].
  destruct (nodeAt body (removelast p)) as [el|] eqn:Eel; [|discriminate H].
  destruct ((200 <? widthOf el) && (100 <? heightOf el)) eqn:Ebox.
  - inversion H; subst q. apply andb_true_iff in Ebox as [Hw Hh].
    apply Z.ltb_lt in Hw, Hh.
    repeat split; auto; try lia. eauto.
  - destruct (IH _ _ H) as (Hp & Hl & Hr & Hb & Hel).
    repeat split; auto.
    + etransitivity; eassumption.
    + lia.
Qed.

Lemma acceptsContainer_iff (kids : list (Path * Node)) :
  acceptsContainer kids = true <->
  3 <= Z.of_nat (List.length kids) <= 200
  /\ 3 <= cardLikeCount kids
  /\ 3 * Z.of_nat (List.length kids) < 5 * cardLikeCount kids.
Proof.
  unfold acceptsContainer, above60.
  rewrite !andb_true_iff, negb_true_iff, orb_false_iff.
  rewrite !Z.ltb_ge, Z.leb_le, Z.ltb_lt. tauto.
Qed.

Lemma pathEqb_true (p q : Path) : pathEqb p q = true <-> p = q.
Proof.
  unfold pathEqb. destruct (decide (p = q)); split; intros H;
    try reflexivity; try assumption; try discriminate H; contradiction.
Qed.

Lemma existsb_pathEqb (p : Path) (l : list Path) :
  existsb (pathEqb p) l = true <-> In p l.
Proof.
  rewrite existsb_exists. split.
  - intros (x & Hx & Heq). apply pathEqb_true in Heq. subst x. exact Hx.
  - intros H. exists p. split; [exact H | apply pathEqb_true; reflexivity].
Qed.

Variable toLowerCase : string -> string.

(** What a link adds to the containers found so far. *)
Lemma detail_links_fold (body : Node) (searchRoot : Path)
    (links : list (Path * Node)) :
  forall acc : list Path,
  let step := fun (adDetailContainers : list Path) (link : Path * Node) =>
    if isDetailPhrase toLowerCase (snd link) then
      match climb 12 body searchRoot (fst link) with
      | Some parent =>
          if existsb (pathEqb parent) adDetailContainers
          then adDetailContainers
          else (adDetailContainers ++ [parent])%list
      | None => adDetailContainers
      end
    else adDetailContainers in
  NoDup acc ->
  NoDup (fold_left step links acc)
  /\ forall card,
       In card (fold_left step links acc) <->
       In card acc
       \/ exists link, In link links
                       /\ isDetailPhrase toLowerCase (snd link) = true
                       /\ climb 12 body searchRoot (fst link) = Some card.
Proof.
  induction links as [|link links IH]; intros acc step Hnd.
  - cbn. split; [exact Hnd|]. intros card. split; [auto|].
    intros [H|(l & [] & _)]. exact H.
  - cbn [fold_left].
    assert (Hstep : NoDup (step acc link)
                    /\ forall card, In card (step acc link) <->
                         In card acc
                         \/ (isDetailPhrase toLowerCase (snd link) = true
                             /\ climb 12 body searchRoot (fst link) = Some card)).
    { subst step. cbn beta.
      destruct (isDetailPhrase toLowerCase (snd link)).
      2:{ split; [exact Hnd|]. intros card. split; [auto|].
          intros [H|[H _]]; [exact H | discriminate H]. }
      destruct (climb 12 body searchRoot (fst link)) as [parent|].
      2:{ split; [exact Hnd|]. intros card. split; [auto|].
          intros [H|[_ H]]; [exact H | discriminate H]. }
      destruct (existsb (pathEqb parent) acc) eqn:Eseen.
      - apply existsb_pathEqb in Eseen.
        split; [exact Hnd|]. intros card. split; [auto|].
        intros [H|[_ H]]; [exact H|]. injection H as <-. exact Eseen.
      - split.
        + apply NoDup_app. split; [exact Hnd|]. split; [|apply NoDup_singleton].
          intros x Hx Hx'. apply list_elem_of_singleton in Hx'. subst x.
          apply list_elem_of_In in Hx. apply existsb_pathEqb in Hx. congruence.
        + intros card. rewrite in_app_iff. cbn [In]. split.
          * intros [H|[<-|[]]]; [left; exact H | right; auto].
          * intros [H|[_ H]]; [left; exact H|]. injection H as <-. auto. }
    destruct Hstep as [Hnd1 Hin1].
    destruct (IH (step acc link) Hnd1) as [Hnd2 Hin2].
    split; [exact Hnd2|].
    intros card. fold step in Hin2. rewrite (Hin2 card), (Hin1 card). split.
    + intros [[H|[Hp Hc]]|(l & Hl & Hp & Hc)].
      * left. exact H.
      * right. exists link. split; [left; reflexivity | auto].
      * right. exists l. split; [right; exact Hl | auto].
    + intros [H|(l & [<-|Hl] & Hp & Hc)].
      * left. left. exact H.
      * left. right. auto.
      * right. exists l. auto.
Qed.

(** The containers of the detail links: each once, and exactly those
    the walk reaches from a link, span or division under the search
    root whose text is one of the detail phrases. *)
Lemma byDetailLinks_spec (body : Node) (searchRoot : Path) (root : Node) :
  nodeAt body searchRoot = Some root ->
  NoDup (byDetailLinks toLowerCase body searchRoot)
  /\ forall card,
       In card (byDetailLinks toLowerCase body searchRoot) <->
       exists link,
         In link (descendants searchRoot root)
         /\ (isTag "a" (snd link) || isTag "span" (snd link)
             || isTag "div" (snd link)) = true
         /\ isDetailPhrase toLowerCase (snd link) = true
         /\ climb 12 body searchRoot (fst link) = Some card.
Proof.
  intros Hroot. unfold byDetailLinks. rewrite Hroot. cbv zeta.
  destruct (detail_links_fold body searchRoot
              (List.filter
                 (fun pn => isTag "a" (snd pn) || isTag "span" (snd pn)
                            || isTag "div" (snd pn))
                 (descendants searchRoot root)) [] NoDup_nil_2) as [Hnd Hin].
  split; [exact Hnd|].
  intros card. rewrite (Hin card). split.
  - intros [[]|(link & Hl & Hp & Hc)]. apply filter_In in Hl as [Hd Ht].
    exists link. auto.
  - intros (link & Hd & Ht & Hp & Hc). right. exists link.
    split; [apply filter_In; auto | auto].
Qed.

Lemma find_first {A} (f : A -> bool) (before : list A) (x : A) (after : list A) :
  (forall y, In y before -> f y = false) -> f x = true ->
  List.find f (before ++ x :: after) = Some x.
Proof.
  induction before as [|y before IH]; intros Hb Hx; cbn.
  - rewrite Hx. reflexivity.
  - rewrite (Hb y (or_introl eq_refl)). apply IH; [|exact Hx].
    intros z Hz. apply Hb. right. exact Hz.
Qed.

Lemma find_nothing {A} (f : A -> bool) (l : list A) :
  (forall y, In y l -> f y = false) -> List.find f l = None.
Proof.
  induction l as [|y l IH]; intros H; cbn; [reflexivity|].
  rewrite (H y (or_introl eq_refl)). apply IH.
  intros z Hz. apply H. right. exact Hz.
Qed.

(** C8, as the code has it: the card finder returns the result of the
    first of its four strategies, in their fixed order, that is not
    empty. The marker strategy returns exactly the elements under the
    search root that carry the card marker. The detail-link strategy
    returns, each once, exactly the
    containers that the walk reaches from a link, span or division
    under the search root whose text is a detail phrase, and the walk
    ends at most 12 levels up, at an element other than the search root
    and the body that is wider than 200 and higher than 100. The
    class-name strategy gives nothing when the search root is the body,
    and under another root exactly the divisions with one of the two
    classes and a text longer than 50. The sibling strategy accepts a
    container exactly when it has between 3 and 200 children, at least
    3 of them card-like (a link, a text longer than 100, higher than
    80) and more than 60% of them card-like; it returns, for the first
    division of the document that it accepts, exactly those of its
    children that contain a link and have a text longer than 100, and
    nothing when it accepts no division. *)
Theorem findAdCards_fallback_chain :
  (forall body : Node,
     findAdCards toLowerCase body
     = firstNonEmpty
         [byTestId body (getAdRoot body);
          byDetailLinks toLowerCase body (getAdRoot body);
          byClassNames body (getAdRoot body);
          bySiblings body])
  /\ (forall (body : Node) (searchRoot : Path) (root : Node) (card : Path),
        nodeAt body searchRoot = Some root ->
        (In card (byTestId body searchRoot) <->
         exists el,
           In (card, el) (descendants searchRoot root)
           /\ hasTestId "fb-ad-library-ad-card" el = true))
  /\ (forall (body : Node) (searchRoot : Path) (root : Node),
        nodeAt body searchRoot = Some root ->
        NoDup (byDetailLinks toLowerCase body searchRoot)
        /\ forall card,
             In card (byDetailLinks toLowerCase body searchRoot) <->
             exists link,
               In link (descendants searchRoot root)
               /\ (isTag "a" (snd link) || isTag "span" (snd link)
                   || isTag "div" (snd link)) = true
               /\ isDetailPhrase toLowerCase (snd link) = true
               /\ climb 12 body searchRoot (fst link) = Some card)
  /\ (forall (body : Node) (searchRoot p q : Path),
        climb 12 body searchRoot p = Some q ->
        q `prefix_of` p /\ (List.length p <= List.length q + 12)%nat
        /\ q <> searchRoot /\ q <> []
        /\ exists el, nodeAt body q = Some el
                      /\ 200 < widthOf el /\ 100 < heightOf el)
  /\ (forall body : Node, byClassNames body [] = [])
  /\ (forall (body : Node) (searchRoot : Path) (root : Node) (card : Path),
        searchRoot <> [] -> nodeAt body searchRoot = Some root ->
        (In card (byClassNames body searchRoot) <->
         exists el,
           In (card, el) (descendants searchRoot root)
           /\ isTag "div" el = true
           /\ (hasClass "xh8yej3" el || hasClass "x1plvlek" el) = true
           /\ 50 < Z.of_nat (Js.length (textContent el))))
  /\ (forall kids : list (Path * Node),
        acceptsContainer kids = true <->
        3 <= Z.of_nat (List.length kids) <= 200
        /\ 3 <= cardLikeCount kids
        /\ 3 * Z.of_nat (List.length kids) < 5 * cardLikeCount kids)
  /\ (forall child : Path * Node,
        cardLike child = true <->
        hasLink child = true /\ 100 < textLen child /\ 80 < heightOf (snd child))
  /\ (forall (body : Node) (before after : list (Path * Node))
             (container : Path * Node),
        List.filter (fun pn => isTag "div" (snd pn)) (descendants [] body)
        = (before ++ container :: after)%list ->
        (forall c, In c before ->
           acceptsContainer (children (fst c) (snd c)) = false) ->
        acceptsContainer (children (fst container) (snd container)) = true ->
        bySiblings body = cardsOf (children (fst container) (snd container)))
  /\ (forall body : Node,
        (forall c,
           In c (List.filter (fun pn => isTag "div" (snd pn)) (descendants [] body)) ->
           acceptsContainer (children (fst c) (snd c)) = false) ->
        bySiblings body = [])
  /\ (forall (kids : list (Path * Node)) (card : Path),
        In card (cardsOf kids) <->
        exists child, In child kids /\ fst child = card
                      /\ hasLink child = true /\ 100 < textLen child)
  /\ (forall (body : Node) (card : Path),
        In card (bySiblings body) ->
        exists container kids,
          In container (descendants [] body)
          /\ isTag "div" (snd container) = true
          /\ kids = children (fst container) (snd container)
          /\ acceptsContainer kids = true
          /\ exists child, In child kids /\ fst child = card
                           /\ hasLink child = true /\ 100 < textLen child).
Proof.
  assert (Hcards : forall (kids : list (Path * Node)) (card : Path),
             In card (cardsOf kids) <->
             exists child, In child kids /\ fst child = card
                           /\ hasLink child = true /\ 100 < textLen child).
  { intros kids card. unfold cardsOf. rewrite in_map_iff. split.
    - intros (child & Hc & Hchild). apply filter_In in Hchild as [Hkid Hok].
      apply andb_true_iff in Hok as [Hl Ht]. apply Z.ltb_lt in Ht.
      exists child. auto.
    - intros (child & Hkid & Hc & Hl & Ht). exists child.
      split; [exact Hc|]. apply filter_In. split; [exact Hkid|].
      apply andb_true_iff. split; [exact Hl | apply Z.ltb_lt; exact Ht]. }
  split; [|split; [|split; [|split; [|split; [|split; [|split; [|split;
    [|split; [|split; [|split]]]]]]]]]].
  - intros body. unfold findAdCards. cbn [firstNonEmpty].
    destruct (nonEmpty (byTestId _ _)); [reflexivity|].
    destruct (nonEmpty (byDetailLinks _ _ _)); [reflexivity|].
    destruct (nonEmpty (byClassNames _ _)) eqn:E3; [reflexivity|].
    destruct (bySiblings body); reflexivity.
  - intros body searchRoot root card Hroot. unfold byTestId.
    rewrite Hroot, in_map_iff. split.
    + intros ([p el] & Hc & Hin). cbn in Hc. subst p.
      apply filter_In in Hin as [Hd Hok]. exists el. auto.
    + intros (el & Hd & Hmark). exists (card, el).
      split; [reflexivity|]. apply filter_In. auto.
  - apply byDetailLinks_spec.
  - intros body searchRoot p q H.
    exact (climb_within 12 body searchRoot p q H).
  - intros body. reflexivity.
  - intros body searchRoot root card Hne Hroot. unfold byClassNames.
    destruct (pathEqb searchRoot []) eqn:E;
      [apply pathEqb_true in E; contradiction|].
    rewrite Hroot, in_map_iff. split.
    + intros ([p el] & Hc & Hin). cbn in Hc. subst p.
      apply filter_In in Hin as [Hd Hok]. cbn [snd] in Hok.
      apply andb_true_iff in Hok as [Hok Hlen].
      apply andb_true_iff in Hok as [Htag Hclass]. apply Z.ltb_lt in Hlen.
      exists el. auto.
    + intros (el & Hd & Htag & Hclass & Hlen). exists (card, el).
      split; [reflexivity|]. apply filter_In. split; [exact Hd|].
      cbn [snd]. rewrite Htag, Hclass. apply Z.ltb_lt in Hlen. rewrite Hlen.
      reflexivity.
  - apply acceptsContainer_iff.
  - intros child. unfold cardLike. rewrite !andb_true_iff, !Z.ltb_lt. tauto.
  - intros body before after container Hdivs Hbefore Hacc. unfold bySiblings.
    rewrite Hdivs.
    rewrite (find_first
               (fun pn => acceptsContainer (children (fst pn) (snd pn)))
               before container after Hbefore Hacc).
    reflexivity.
  - intros body Hnone. unfold bySiblings.
    rewrite (find_nothing
               (fun pn => acceptsContainer (children (fst pn) (snd pn)))
               _ Hnone).
    reflexivity.
  - exact Hcards.
  - intros body card Hin. unfold bySiblings in Hin.
    destruct (List.find _ _) as [pn|] eqn:Ef; [|destruct Hin].
    apply find_some in Ef as [Hdiv Hacc].
    apply filter_In in Hdiv as [Hdesc Htag].
    apply Hcards in Hin as (child & Hkid & Hc & Hl & Ht).
    exists pn, (children (fst pn) (snd pn)). repeat split; auto.
    exists child. auto.
Qed.

End DomFacts.

(** A detail link two levels below its card, a list of four cards and a
    plain child, and the cards of that list. *)
Lemma findAdCards_fallback_chain_witness :
  ([0; 0; 0]%nat `prefix_of` [0; 0; 0; 0; 0]%nat
   /\ (List.length [0; 0; 0; 0; 0]%nat <= List.length [0; 0; 0]%nat + 12)%nat)
  /\ (3 <= Z.of_nat (List.length (Scenarios.listChildren 4 1)) <= 200
      /\ 3 <= Dom.cardLikeCount (Scenarios.listChildren 4 1)
      /\ 3 * Z.of_nat (List.length (Scenarios.listChildren 4 1))
         < 5 * Dom.cardLikeCount (Scenarios.listChildren 4 1))
  /\ Dom.bySiblings (Scenarios.listPage 4 1)
     = Dom.cardsOf (Scenarios.listChildren 4 1)
  /\ In [0; 0; 0]%nat
       (Dom.byDetailLinks Js.toLowerCaseASCII Scenarios.detailPage [0%nat])
  /\ exists container kids,
       In container (Dom.descendants [] (Scenarios.listPage 4 1))
       /\ Dom.isTag "div" (snd container) = true
       /\ kids = Dom.children (fst container) (snd container)
       /\ Dom.acceptsContainer kids = true
       /\ exists child, In child kids /\ fst child = [0; 0]%nat
                        /\ Dom.hasLink child = true /\ 100 < Dom.textLen child.
Proof.
  destruct (findAdCards_fallback_chain Js.toLowerCaseASCII)
    as (_ & _ & H2 & H3 & _ & _ & H6 & _ & H8 & _ & _ & H11).
  split; [|split; [|split; [|split]]].
  - destruct (H3 Scenarios.detailPage [0%nat] [0; 0; 0; 0; 0]%nat [0; 0; 0]%nat)
      as (Hp & Hl & _); [reflexivity|]. split; [exact Hp | exact Hl].
  - apply (proj1 (H6 (Scenarios.listChildren 4 1))). reflexivity.
  - apply (H8 (Scenarios.listPage 4 1) []
             (List.tail (List.filter (fun pn => Dom.isTag "div" (snd pn))
                           (Dom.descendants [] (Scenarios.listPage 4 1))))
             ([0%nat], Dom.Element "div" None None [] 1280 800
                         (repeat Scenarios.cardDiv 4 ++ repeat Scenarios.plainDiv 1))).
    + reflexivity.
    + intros c [].
    + reflexivity.
  - destruct (H2 Scenarios.detailPage [0%nat]
                (Dom.Element "div" (Some "main") None [] 1280 800
                   [Dom.Element "div" None None [] 150 50
                      [Scenarios.detailCard; Scenarios.detailCard]]))
      as [_ Hin]; [reflexivity|].
    apply (proj2 (Hin [0; 0; 0]%nat)).
    exists ([0; 0; 0; 0; 0]%nat,
            Dom.Element "a" None None [] 90 20 [Dom.Text " See ad Details "]).
    split; [vm_compute; tauto|]. split; [reflexivity|].
    split; reflexivity.
  - apply (H11 (Scenarios.listPage 4 1) [0; 0]%nat). left. reflexivity.
Defined.

(** C8 fails as stated: a container with five children of which exactly
    three, that is 60%, are card-like passes the test in the words of the
    specification and is rejected by the code, which then finds no
    card on that page. *)
Lemma sixty_percent_is_rejected :
  List.length (Scenarios.listChildren 3 2) = 5%nat
  /\ Dom.cardLikeCount (Scenarios.listChildren 3 2) = 3
  /\ Dom.spec_acceptsContainer (Scenarios.listChildren 3 2) = true
  /\ Dom.acceptsContainer (Scenarios.listChildren 3 2) = false
  /\ Dom.findAdCards Js.toLowerCaseASCII (Scenarios.listPage 3 2) = [].
Proof. vm_compute. repeat split. Qed.

(** * Further properties of the code *)

(** ** Output chunks of the worker *)

Section ChunkFacts.

Lemma string_app_assoc (a b c : string) : (a ++ b) ++ c = a ++ (b ++ c).
Proof.
  induction a as [|x a IH]; [reflexivity|].
  change (String x ((a ++ b) ++ c) = String x (a ++ (b ++ c))).
  rewrite IH. reflexivity.
Qed.

Lemma splitLines_nonempty (s : string) : Js.splitLines s <> [].
Proof.
  destruct s as [|c s]; cbn [Js.splitLines]; [discriminate|].
  destruct (Ascii.eqb c Js.LF); [discriminate|].
  destruct (Js.splitLines s); discriminate.
Qed.

(** Splitting a text that arrives in two parts: the whole lines of the
    first part, then the lines of its unfinished rest followed by the
    second part. *)
Lemma splitLines_app (a b : string) :
  Js.splitLines (a ++ b)
  = (removelast (Js.splitLines a)
     ++ Js.splitLines (List.last (Js.splitLines a) "" ++ b))%list.
Proof.
  induction a as [|c a IH].
  - reflexivity.
  - change (String c a ++ b) with (String c (a ++ b)).
    cbn [Js.splitLines]. rewrite IH.
    pose proof (splitLines_nonempty a) as Hne.
    destruct (Ascii.eqb c Js.LF) eqn:Ec.
    + destruct (Js.splitLines a) as [|p ps] eqn:Ea; [congruence|]. reflexivity.
    + destruct (Js.splitLines a) as [|p ps] eqn:Ea; [congruence|].
      destruct ps as [|p' ps'].
      * cbn [removelast List.last app].
        change (String c p ++ b) with (String c (p ++ b)).
        cbn [Js.splitLines]. rewrite Ec. reflexivity.
      * reflexivity.
Qed.

End ChunkFacts.

Section ChunkSupervisor.

Import Db Protocol.

Variable JSON_parse : string -> option MissionResult.

Lemma last_app_nonempty {A} (l k : list A) (d : A) :
  k <> [] -> List.last (l ++ k) d = List.last k d.
Proof.
  intros Hk. induction l as [|x l IH]; [reflexivity|].
  cbn [app]. destruct (l ++ k)%list eqn:E.
  - destruct l; [cbn in E; congruence | discriminate E].
  - cbn [List.last]. exact IH.
Qed.

Lemma checkFinalResult_presence (cl : Server.Closure) (st : Server.State) :
  Server.activeFacebookScrapers (Server.checkFinalResult JSON_parse cl st)
    !! Server.missionId cl = None
  <-> Server.activeFacebookScrapers st !! Server.missionId cl = None.
Proof.
  destruct (Server.activeFacebookScrapers st !! Server.missionId cl) as [info|] eqn:E.
  - destruct (checkFinalResult_registered JSON_parse cl st info E) as [info' ->].
    split; discriminate.
  - rewrite (checkFinalResult_unregistered JSON_parse cl st E), E. tauto.
Qed.

(** Handling a line looks at the registry only to see whether the
    mission is there, and the clock goes to the time of the update
    only. *)
Lemma onLine_same (t1 t2 : Z) (id line : string) (a b : Server.State) :
  Stamps.sameButStamps (Server.missions a) (Server.missions b) ->
  (Server.activeFacebookScrapers a !! id = None
   <-> Server.activeFacebookScrapers b !! id = None) ->
  Stamps.sameButStamps (Server.missions (Server.onLine t1 id a line))
    (Server.missions (Server.onLine t2 id b line))
  /\ (Server.activeFacebookScrapers (Server.onLine t1 id a line) !! id = None
      <-> Server.activeFacebookScrapers (Server.onLine t2 id b line) !! id = None).
Proof.
  intros Hm Hr. rewrite !onLine_registry. split; [|exact Hr].
  unfold Server.onLine.
  destruct (Server.activeFacebookScrapers a !! id) as [ia|] eqn:Ea;
    destruct (Server.activeFacebookScrapers b !! id) as [ib|] eqn:Eb.
  - destruct (Server.incIsEmpty _); [exact Hm|].
    cbn [Server.missions]. unfold findByIdAndUpdate. intros id'.
    destruct (decide (id' = id)) as [->|Hne].
    + rewrite !lookup_alter_eq. specialize (Hm id).
      destruct (Server.missions a !! id) as [ma|],
               (Server.missions b !! id) as [mb|];
        cbn in Hm |- *; try discriminate Hm; [|reflexivity].
      f_equal. destruct ma, mb. unfold Stamps.withoutStamp in Hm.
      cbn in Hm. injection Hm as -> -> -> -> -> -> -> -> -> -> -> -> ->.
      reflexivity.
    + rewrite !lookup_alter_ne by congruence. apply Hm.
  - destruct Hr as [_ Hr]. discriminate (Hr eq_refl).
  - destruct Hr as [Hr _]. discriminate (Hr eq_refl).
  - exact Hm.
Qed.

Lemma lines_same (t1 t2 : Z) (id : string) (lines : list string) :
  forall a b : Server.State,
  Stamps.sameButStamps (Server.missions a) (Server.missions b) ->
  (Server.activeFacebookScrapers a !! id = None
   <-> Server.activeFacebookScrapers b !! id = None) ->
  Stamps.sameButStamps
    (Server.missions (fold_left (Server.onLine t1 id) lines a))
    (Server.missions (fold_left (Server.onLine t2 id) lines b))
  /\ (Server.activeFacebookScrapers (fold_left (Server.onLine t1 id) lines a)
        !! id = None
      <-> Server.activeFacebookScrapers (fold_left (Server.onLine t2 id) lines b)
            !! id = None).
Proof.
  induction lines as [|l ls IH]; intros a b Hm Hr; [split; assumption|].
  cbn [fold_left].
  destruct (onLine_same t1 t2 id l a b Hm Hr) as [Hm' Hr'].
  exact (IH _ _ Hm' Hr').
Qed.

(** A decoder between two characters goes on as a fresh one. *)
Lemma decodeFrom_between (d : Js.Decoder) (s : string) :
  Js.needed d = 0%nat ->
  fst (Js.decodeFrom d s) = fst (Js.decodeFrom Js.idle s)
  /\ Js.needed (snd (Js.decodeFrom d s))
     = Js.needed (snd (Js.decodeFrom Js.idle s)).
Proof.
  intros Hd. destruct s as [|b rest]; cbn [Js.decodeFrom fst snd].
  - split; [reflexivity | exact Hd].
  - unfold Js.step. rewrite Hd. cbn [Js.needed Js.idle]. split; reflexivity.
Qed.

Lemma decodeFrom_app (a b : string) :
  forall d : Js.Decoder,
  Js.decodeFrom d (a ++ b)
  = (fst (Js.decodeFrom d a)
     ++ fst (Js.decodeFrom (snd (Js.decodeFrom d a)) b),
     snd (Js.decodeFrom (snd (Js.decodeFrom d a)) b)).
Proof.
  induction a as [|x a IH]; intros d.
  - change ("" ++ b) with b. cbn [Js.decodeFrom fst snd].
    destruct (Js.decodeFrom d b); reflexivity.
  - change (String x a ++ b) with (String x (a ++ b)).
    cbn [Js.decodeFrom]. destruct (Js.step d x) as [out d1].
    rewrite (IH d1). destruct (Js.decodeFrom d1 a) as [more d2].
    cbn [fst snd]. destruct (Js.decodeFrom d2 b) as [rest d3].
    cbn [fst snd]. rewrite string_app_assoc. reflexivity.
Qed.

(** Bytes that are cut between two characters decode to the text of
    the first part followed by the text of the second. *)
Lemma decodeUtf8_app (a b : string) :
  Js.endsOnCharacter a = true ->
  Js.decodeUtf8 (a ++ b) = Js.decodeUtf8 a ++ Js.decodeUtf8 b.
Proof.
  unfold Js.endsOnCharacter, Js.decodeUtf8. intros Ha.
  apply Nat.eqb_eq in Ha.
  rewrite decodeFrom_app.
  destruct (decodeFrom_between (snd (Js.decodeFrom Js.idle a)) b Ha) as [Hf Hn].
  destruct (Js.decodeFrom Js.idle a) as [o1 d1]. cbn [fst snd] in *.
  rewrite Ha, Hf, Hn.
  destruct (Js.decodeFrom Js.idle b) as [o2 d2]. cbn [fst snd].
  destruct (Js.needed d2); [reflexivity|].
  rewrite string_app_assoc. reflexivity.
Qed.

(** X1: however the bytes of the worker are cut into chunks between
    two characters, the same lines are handled: after two chunks the
    buffered rest and the output kept for the summary are what they are
    after the one chunk made of both, and so are the stored missions up
    to the times of their last updates, whatever the clock shows when
    the chunks arrive. A cut inside a character is not of that kind:
    each chunk is decoded on its own, so that both halves of the letter
    become U+FFFD in the output that is kept. *)
Theorem chunk_boundaries_do_not_matter :
  (forall (t1 t2 t : Z) (c1 c2 : string) (cl : Server.Closure)
          (st : Server.State),
      Js.endsOnCharacter c1 = true ->
      let r1 := Server.onStdoutData JSON_parse t1 c1 cl st in
      let r2 := Server.onStdoutData JSON_parse t2 c2 (fst r1) (snd r1) in
      let r := Server.onStdoutData JSON_parse t (c1 ++ c2) cl st in
      fst r2 = fst r
      /\ Stamps.sameButStamps (Server.missions (snd r2)) (Server.missions (snd r)))
  /\ (let r1 := Server.onStdoutData JSON_parse 5000 MoreScenarios.accentHead
                  Scenarios.closure0 Scenarios.started in
      let r2 := Server.onStdoutData JSON_parse 5000 MoreScenarios.accentTail
                  (fst r1) (snd r1) in
      let r := Server.onStdoutData JSON_parse 5000
                 (MoreScenarios.accentHead ++ MoreScenarios.accentTail)
                 Scenarios.closure0 Scenarios.started in
      Js.endsOnCharacter MoreScenarios.accentHead = false
      /\ Server.scriptOutput (fst r)
         = MoreScenarios.accentHead ++ MoreScenarios.accentTail
      /\ Server.scriptOutput (fst r2)
         = "NEW AD [1/100]: [Caf" ++ Js.replacement ++ Js.replacement
           ++ "]" ++ String Js.LF EmptyString
      /\ Server.scriptOutput (fst r2) <> Server.scriptOutput (fst r)).
Proof.
  split.
  - intros t1 t2 t c1 c2 cl st Hcut.
    cbv zeta. unfold Server.onStdoutData. cbn [fst snd Server.missionId
      Server.stdoutBuffer Server.scriptOutput].
    rewrite (decodeUtf8_app c1 c2 Hcut).
    set (k1 := Js.decodeUtf8 c1). set (k2 := Js.decodeUtf8 c2).
    rewrite <- !string_app_assoc.
    rewrite (splitLines_app (Server.stdoutBuffer cl ++ k1) k2).
    set (p1 := Js.splitLines (Server.stdoutBuffer cl ++ k1)).
    set (p2 := Js.splitLines (List.last p1 "" ++ k2)).
    assert (Hp2 : p2 <> []) by apply splitLines_nonempty.
    rewrite (removelast_app _ Hp2), (last_app_nonempty _ _ _ Hp2).
    split; [reflexivity|].
    rewrite !checkFinalResult_missions, fold_left_app.
    apply lines_same.
    + rewrite checkFinalResult_missions.
      apply lines_same; [intros id; reflexivity | tauto].
    + etransitivity.
      * apply (checkFinalResult_presence
                 (Server.mkClosure (Server.missionId cl) (List.last p1 "")
                    (Server.scriptOutput cl ++ k1))).
      * apply lines_same; [intros id; reflexivity | tauto].
  - cbv zeta. unfold Server.onStdoutData.
    cbn [fst snd Server.scriptOutput Server.missionId].
    split; [vm_compute; reflexivity|].
    split; [vm_compute; reflexivity|].
    split; [vm_compute; reflexivity|].
    vm_compute. discriminate.
Qed.

(** X2: once a mission has left the registry, the output that still
    arrives from its worker changes nothing, neither in the store nor in
    the registry. *)
Theorem output_after_unregistering_is_ignored
    (now : Z) (chunk : string) (cl : Server.Closure) (st : Server.State) :
  Server.activeFacebookScrapers st !! Server.missionId cl = None ->
  snd (Server.onStdoutData JSON_parse now chunk cl st) = st.
Proof.
  intros Hreg. unfold Server.onStdoutData. cbn [snd].
  assert (Hfold : forall lines,
            fold_left (Server.onLine now (Server.missionId cl)) lines st = st).
  { induction lines as [|l ls IH]; [reflexivity|].
    cbn [fold_left]. unfold Server.onLine at 2. rewrite Hreg. exact IH. }
  rewrite Hfold. apply checkFinalResult_unregistered. exact Hreg.
Qed.

End ChunkSupervisor.

(** The line of a new record, cut after its tag. *)
Lemma chunk_boundaries_do_not_matter_witness :
  let r1 := Server.onStdoutData Scenarios.parseSavedOnly 5000 "NEW AD [1/1"
              Scenarios.closure0 Scenarios.started in
  let r2 := Server.onStdoutData Scenarios.parseSavedOnly 5001
              ("00]: [Acme]" ++ String Js.LF EmptyString) (fst r1) (snd r1) in
  let r := Server.onStdoutData Scenarios.parseSavedOnly 5002
             ("NEW AD [1/1" ++ "00]: [Acme]" ++ String Js.LF EmptyString)
             Scenarios.closure0 Scenarios.started in
  fst r2 = fst r
  /\ Stamps.sameButStamps (Server.missions (snd r2)) (Server.missions (snd r)).
Proof.
  apply (proj1 (chunk_boundaries_do_not_matter Scenarios.parseSavedOnly)
           5000 5001 5002 "NEW AD [1/1"
           ("00]: [Acme]" ++ String Js.LF EmptyString)
           Scenarios.closure0 Scenarios.started).
  reflexivity.
Defined.

Lemma output_after_unregistering_is_ignored_witness :
  snd (Server.onStdoutData Scenarios.parseSavedOnly 9600
         (Js.printed [Scenarios.tagLine 1; Scenarios.summaryLine 3])
         Scenarios.closure0 Scenarios.finished)
  = Scenarios.finished.
Proof.
  apply output_after_unregistering_is_ignored. reflexivity.
Defined.

(** ** Stopping and starting missions *)

Section StopFacts.

Import Db Protocol.

Variable JSON_parse : string -> option MissionResult.

Lemma stopFacebookScraper_other (now : Z) (id other : string)
    (info : Server.MissionInfo) (st : Server.State) :
  other <> id ->
  Server.activeFacebookScrapers (Server.stopFacebookScraper now id info st) !! other
  = Server.activeFacebookScrapers st !! other
  /\ Server.missions (Server.stopFacebookScraper now id info st) !! other
     = Server.missions st !! other.
Proof.
  intros Hne. unfold Server.stopFacebookScraper, findByIdAndUpdate. cbn.
  rewrite lookup_delete_ne, lookup_alter_ne by congruence. auto.
Qed.

Lemma stopFacebookScraper_self (now : Z) (id : string)
    (info : Server.MissionInfo) (st : Server.State) (m : Mission) :
  Server.missions st !! id = Some m ->
  Server.activeFacebookScrapers (Server.stopFacebookScraper now id info st) !! id
  = None
  /\ exists m',
       Server.missions (Server.stopFacebookScraper now id info st) !! id = Some m'
       /\ status m' = stopped /\ endTime m' = Some now
       /\ adsFound m' = adsFound m /\ newAds m' = newAds m
       /\ duplicatesSkipped m' = duplicatesSkipped m
       /\ adsProcessed m' = adsProcessed m.
Proof.
  intros Hm. unfold Server.stopFacebookScraper, findByIdAndUpdate. cbn.
  rewrite lookup_delete_eq, lookup_alter_eq, Hm. split; [reflexivity|].
  eexists. split; [reflexivity|]. cbn. repeat split; lia.
Qed.

(** X3: a stop request of the owner for a registered mission is
    answered with 200; the mission is stored as stopped with its end time
    and its counters as they were, it leaves the registry, its worker is
    signalled, and no other mission is touched, in the registry or in
    the store. *)
Theorem stop_by_owner_stops_that_mission_only
    (now : Z) (id user : string) (st : Server.State)
    (info : Server.MissionInfo) (m : Mission) :
  id <> "" ->
  Server.activeFacebookScrapers st !! id = Some info ->
  Server.missions st !! id = Some m ->
  m_userId m = Some user ->
  let r := Server.stop now (Some id) user st in
  fst r = Server.Json 200 "Scraper stopped successfully"
  /\ Server.activeFacebookScrapers (snd r) !! id = None
  /\ (exists m',
        Server.missions (snd r) !! id = Some m'
        /\ status m' = stopped /\ endTime m' = Some now
        /\ adsFound m' = adsFound m /\ newAds m' = newAds m
        /\ duplicatesSkipped m' = duplicatesSkipped m
        /\ adsProcessed m' = adsProcessed m)
  /\ Server.process info ∈ Server.signalled (snd r)
  /\ (forall other : string, other <> id ->
        Server.activeFacebookScrapers (snd r) !! other
        = Server.activeFacebookScrapers st !! other
        /\ Server.missions (snd r) !! other = Server.missions st !! other).
Proof.
  intros Hid Hreg Hm Hown r. subst r. unfold Server.stop.
  apply String.eqb_neq in Hid. rewrite Hid, Hreg, Hm.
  unfold Server.ownedByOther. rewrite Hown, String.eqb_refl. cbn [negb fst snd].
  destruct (stopFacebookScraper_self now id info st m Hm) as [Hr Hs].
  split; [reflexivity|]. split; [exact Hr|]. split; [exact Hs|].
  split.
  - unfold Server.stopFacebookScraper. cbn.
    apply elem_of_union_l, elem_of_singleton. reflexivity.
  - intros other Hne. apply stopFacebookScraper_other. exact Hne.
Qed.

(** X4: a stop request for a registered mission of somebody else, or of
    nobody, is answered with 403 and changes nothing. *)
Theorem stop_by_other_user_is_forbidden
    (now : Z) (id user : string) (st : Server.State)
    (info : Server.MissionInfo) (m : Mission) :
  id <> "" ->
  Server.activeFacebookScrapers st !! id = Some info ->
  Server.missions st !! id = Some m ->
  m_userId m <> Some user ->
  Server.stop now (Some id) user st
  = (Server.Json 403 "Forbidden: cannot stop another user's scrape", st).
Proof.
  intros Hid Hreg Hm Hown. unfold Server.stop.
  apply String.eqb_neq in Hid. rewrite Hid, Hreg, Hm.
  unfold Server.ownedByOther.
  destruct (m_userId m) as [owner|]; [|reflexivity].
  destruct (String.eqb owner user) eqn:E; [|reflexivity].
  apply String.eqb_eq in E. congruence.
Qed.

(** X5: the exit of a worker that was stopped does not touch the stored
    mission again: after a stop by the owner, the close listener, with
    whatever exit code, leaves store and registry as the stop left them. *)
Theorem close_after_stop_changes_nothing
    (now later : Z) (code : option Z) (user : string) (cl : Server.Closure)
    (st : Server.State) (info : Server.MissionInfo) (m : Mission) :
  Server.missionId cl <> "" ->
  Server.activeFacebookScrapers st !! Server.missionId cl = Some info ->
  Server.missions st !! Server.missionId cl = Some m ->
  m_userId m = Some user ->
  let stopped := snd (Server.stop now (Some (Server.missionId cl)) user st) in
  Server.onClose JSON_parse code later cl stopped = stopped.
Proof.
  intros Hid Hreg Hm Hown stoppedSt. subst stoppedSt. unfold Server.stop.
  apply String.eqb_neq in Hid. rewrite Hid, Hreg, Hm.
  unfold Server.ownedByOther. rewrite Hown, String.eqb_refl. cbn [negb fst snd].
  destruct (stopFacebookScraper_self now (Server.missionId cl) info st m Hm)
    as [Hr _].
  set (s1 := Server.stopFacebookScraper now (Server.missionId cl) info st) in *.
  unfold Server.onClose.
  rewrite (checkFinalResult_unregistered JSON_parse cl s1 Hr), Hr.
  rewrite (delete_id _ _ Hr). destruct s1; reflexivity.
Qed.

End StopFacts.

Lemma stop_by_owner_stops_that_mission_only_witness :
  fst (Server.stop 7000 (Some "m1") "u1" MoreScenarios.twoUsers)
  = Server.Json 200 "Scraper stopped successfully"
  /\ Server.missions (snd (Server.stop 7000 (Some "m1") "u1" MoreScenarios.twoUsers))
     !! "m2" = Some MoreScenarios.bootsMission.
Proof.
  pose proof (stop_by_owner_stops_that_mission_only 7000 "m1" "u1"
                MoreScenarios.twoUsers
                (Server.mkMissionInfo 4242 "shoes" MoreScenarios.shoesMission)
                MoreScenarios.shoesMission) as H.
  cbv zeta in H.
  destruct H as (H1 & _ & _ & _ & H5);
    [discriminate | reflexivity | reflexivity | reflexivity |].
  split; [exact H1|].
  destruct (H5 "m2") as [_ Hm]; [discriminate|].
  rewrite Hm. reflexivity.
Defined.

Lemma stop_by_other_user_is_forbidden_witness :
  Server.stop 7000 (Some "m1") "u2" MoreScenarios.twoUsers
  = (Server.Json 403 "Forbidden: cannot stop another user's scrape",
     MoreScenarios.twoUsers).
Proof.
  apply (stop_by_other_user_is_forbidden 7000 "m1" "u2" MoreScenarios.twoUsers
           (Server.mkMissionInfo 4242 "shoes" MoreScenarios.shoesMission)
           MoreScenarios.shoesMission);
    [discriminate | reflexivity | reflexivity | discriminate].
Defined.

Lemma close_after_stop_changes_nothing_witness :
  Server.onClose Scenarios.parseSavedOnly None 7100 Scenarios.closure0
    (snd (Server.stop 7000 (Some "m1") "u1" MoreScenarios.twoUsers))
  = snd (Server.stop 7000 (Some "m1") "u1" MoreScenarios.twoUsers).
Proof.
  apply (close_after_stop_changes_nothing Scenarios.parseSavedOnly 7000 7100
           None "u1" Scenarios.closure0 MoreScenarios.twoUsers
           (Server.mkMissionInfo 4242 "shoes" MoreScenarios.shoesMission)
           MoreScenarios.shoesMission);
    [discriminate | reflexivity | reflexivity | reflexivity].
Defined.

Section StopAllFacts.

Import Db.

(** Stops of other missions leave a mission alone. *)
Lemma stops_keep_others (now : Z) (id : string)
    (l : list (string * Server.MissionInfo)) :
  forall st : Server.State,
  ~ In id (List.map fst l) ->
  Server.activeFacebookScrapers
    (fold_left (fun acc entry =>
                  Server.stopFacebookScraper now (fst entry) (snd entry) acc) l st)
    !! id = Server.activeFacebookScrapers st !! id
  /\ Server.missions
       (fold_left (fun acc entry =>
                     Server.stopFacebookScraper now (fst entry) (snd entry) acc) l st)
       !! id = Server.missions st !! id.
Proof.
  induction l as [|[i info] l IH]; intros st Hnot; [auto|].
  cbn [fold_left fst snd]. cbn [List.map fst In] in Hnot.
  destruct (IH (Server.stopFacebookScraper now i info st)) as [H1 H2]; [tauto|].
  rewrite H1, H2. apply stopFacebookScraper_other. intros ->. tauto.
Qed.

(** A mission that is out of the registry and stored as stopped stays
    so under further stops. *)
Lemma stops_keep_stopped (now : Z) (id : string)
    (l : list (string * Server.MissionInfo)) :
  forall (st : Server.State) (m : Mission),
  Server.activeFacebookScrapers st !! id = None ->
  Server.missions st !! id = Some m -> status m = stopped ->
  Server.activeFacebookScrapers
    (fold_left (fun acc entry =>
                  Server.stopFacebookScraper now (fst entry) (snd entry) acc) l st)
    !! id = None
  /\ exists m',
       Server.missions
         (fold_left (fun acc entry =>
                       Server.stopFacebookScraper now (fst entry) (snd entry) acc) l st)
         !! id = Some m' /\ status m' = stopped.
Proof.
  induction l as [|[i info] l IH]; intros st m Hr Hm Hs; [eauto|].
  cbn [fold_left fst snd].
  destruct (decide (i = id)) as [->|Hne].
  - destruct (stopFacebookScraper_self now id info st m Hm)
      as (Hr1 & m1 & Hm1 & Hs1 & _).
    exact (IH _ m1 Hr1 Hm1 Hs1).
  - destruct (stopFacebookScraper_other now i id info st) as [Hr1 Hm1];
      [congruence|].
    apply (IH _ m); [rewrite Hr1; exact Hr | rewrite Hm1; exact Hm | exact Hs].
Qed.

Lemma stops_stop_listed (now : Z) (id : string)
    (l : list (string * Server.MissionInfo)) :
  forall (st : Server.State) (m : Mission),
  In id (List.map fst l) ->
  Server.missions st !! id = Some m ->
  Server.activeFacebookScrapers
    (fold_left (fun acc entry =>
                  Server.stopFacebookScraper now (fst entry) (snd entry) acc) l st)
    !! id = None
  /\ exists m',
       Server.missions
         (fold_left (fun acc entry =>
                       Server.stopFacebookScraper now (fst entry) (snd entry) acc) l st)
         !! id = Some m' /\ status m' = stopped.
Proof.
  induction l as [|[i info] l IH]; intros st m Hin Hm; [destruct Hin|].
  cbn [fold_left fst snd].
  destruct (decide (i = id)) as [->|Hne].
  - destruct (stopFacebookScraper_self now id info st m Hm)
      as (Hr1 & m1 & Hm1 & Hs1 & _).
    exact (stops_keep_stopped now id l _ m1 Hr1 Hm1 Hs1).
  - cbn [List.map fst In] in Hin. destruct Hin as [Heq|Hin]; [congruence|].
    destruct (stopFacebookScraper_other now i id info st) as [_ Hm1];
      [congruence|].
    apply (IH _ m Hin). rewrite Hm1. exact Hm.
Qed.

(** X6: a stop request without mission id stops the registered missions
    of the requester and those only: the request is accepted, each of
    them leaves the registry and is stored as stopped, while a registered mission of another user
    stays registered with its stored document as it was. With an empty
    registry the request is answered with 400. *)
Theorem stop_all_stops_own_missions_only
    (now : Z) (user : string) (st : Server.State) :
  let r := Server.stop now None user st in
  (forall (id : string) (info : Server.MissionInfo) (m : Mission),
      Server.activeFacebookScrapers st !! id = Some info ->
      Server.missions st !! id = Some m ->
      m_userId m = Some user ->
      Server.is_error (fst r) = false
      /\ Server.activeFacebookScrapers (snd r) !! id = None
      /\ exists m', Server.missions (snd r) !! id = Some m' /\ status m' = stopped)
  /\ (forall (id : string) (info : Server.MissionInfo) (m : Mission),
      Server.activeFacebookScrapers st !! id = Some info ->
      Server.missions st !! id = Some m ->
      m_userId m <> Some user ->
      Server.activeFacebookScrapers (snd r) !! id = Some info
      /\ Server.missions (snd r) !! id = Some m)
  /\ (Server.activeFacebookScrapers st = ∅ ->
      r = (Server.Json 400 "No active Facebook scrapers to stop", st)).
Proof.
  intros r. subst r. unfold Server.stop, Server.stopAll.
  destruct (size (Server.activeFacebookScrapers st) =? 0)%nat eqn:Esize.
  - apply Nat.eqb_eq in Esize. apply map_size_empty_iff in Esize.
    split; [|split].
    + intros id info m Hreg. rewrite Esize, lookup_empty in Hreg. discriminate Hreg.
    + intros id info m Hreg. rewrite Esize, lookup_empty in Hreg. discriminate Hreg.
    + reflexivity.
  - apply Nat.eqb_neq in Esize.
    set (mine := List.filter _ _). cbn [fst snd].
    split; [|split].
    + intros id info m Hreg Hm Hown.
      split; [reflexivity|].
      apply (stops_stop_listed now id mine st m); [|exact Hm].
      apply in_map_iff. exists (id, info). split; [reflexivity|].
      apply filter_In. split.
      * apply list_elem_of_In, elem_of_map_to_list. exact Hreg.
      * cbn [fst]. rewrite Hm. unfold Server.ownedByOther.
        rewrite Hown, String.eqb_refl. reflexivity.
    + intros id info m Hreg Hm Hown.
      destruct (stops_keep_others now id mine st) as [H1 H2].
      * intros Hin. apply in_map_iff in Hin as ([i inf] & Hi & Hin).
        cbn [fst] in Hi. subst i.
        apply filter_In in Hin as [_ Hok]. cbn [fst] in Hok.
        rewrite Hm in Hok. unfold Server.ownedByOther in Hok.
        destruct (m_userId m) as [owner|]; [|discriminate Hok].
        rewrite negb_involutive in Hok. apply String.eqb_eq in Hok. congruence.
      * rewrite H1, H2. auto.
    + intros Hempty. rewrite Hempty, map_size_empty in Esize. congruence.
Qed.

End StopAllFacts.

Lemma stop_all_stops_own_missions_only_witness :
  Server.activeFacebookScrapers
    (snd (Server.stop 7000 None "u1" MoreScenarios.twoUsers)) !! "m1" = None
  /\ Server.missions
       (snd (Server.stop 7000 None "u1" MoreScenarios.twoUsers)) !! "m2"
     = Some MoreScenarios.bootsMission.
Proof.
  pose proof (stop_all_stops_own_missions_only 7000 "u1" MoreScenarios.twoUsers)
    as H.
  cbv zeta in H. destruct H as (Hown & Hother & _).
  split.
  - destruct (Hown "m1"
                (Server.mkMissionInfo 4242 "shoes" MoreScenarios.shoesMission)
                MoreScenarios.shoesMission) as (_ & Hreg & _);
      [reflexivity | reflexivity | reflexivity | exact Hreg].
  - destruct (Hother "m2"
                (Server.mkMissionInfo 4343 "boots" MoreScenarios.bootsMission)
                MoreScenarios.bootsMission) as (_ & Hm);
      [reflexivity | reflexivity | discriminate | exact Hm].
Defined.

(** ** The worker's accounting *)

Section WorkerFacts.

Import Db.

Context {Page : Type}.
Variable browser : Scraper.Browser Page.
Variable scraperConfig : Scraper.ScraperConfig.
Variable zone : JsDate.Zone.
Variable fault_at : nat -> Fault.
Variable clock : nat -> Z.

Lemma includes_app_r (s t needle : string) :
  Js.includes t needle = true -> Js.includes (s ++ t) needle = true.
Proof.
  intros H. induction s as [|c s IH]; [exact H|].
  change (String c s ++ t) with (String c (s ++ t)).
  cbn [Js.includes]. rewrite IH. apply orb_true_r.
Qed.

Lemma tagCount_app (tag : string) (l k : list string) :
  Protocol.tagCount tag (l ++ k)
  = Protocol.tagCount tag l + Protocol.tagCount tag k.
Proof.
  unfold Protocol.tagCount. rewrite List.filter_app, length_app. lia.
Qed.

Lemma tagCount_nonneg (tag : string) (l : list string) :
  0 <= Protocol.tagCount tag l.
Proof. unfold Protocol.tagCount. lia. Qed.

(** What the save loop does to the statistics, the store and the
    output, for any batch. *)
Lemma saveBatch_accounting (kw executionId : string) (maxAds : Z)
    (owner : option string) (extractedAds : list Scraper.AdData) :
  forall (stats : Scraper.Stats) (batchNew : Z) (w : @Scraper.World Page)
         (stats' : Scraper.Stats) (batchNew' : Z) (w' : @Scraper.World Page),
  Scraper.saveBatch fault_at clock kw executionId maxAds owner
    extractedAds stats batchNew w = (stats', batchNew', w') ->
  let new := Scraper.savedCount stats' - Scraper.savedCount stats in
  let dup := Scraper.duplicateCount stats' - Scraper.duplicateCount stats in
  0 <= new /\ 0 <= dup
  /\ batchNew' = batchNew + new
  /\ Scraper.processedCount stats' = Scraper.processedCount stats + new + dup
  /\ new + dup <= Z.of_nat (List.length extractedAds)
  /\ (Scraper.savedCount stats <= maxAds -> Scraper.savedCount stats' <= maxAds)
  /\ (exists added,
        Scraper.ads w' = (Scraper.ads w ++ added)%list
        /\ Z.of_nat (List.length added) = new)
  /\ (exists lines,
        Scraper.out w' = (Scraper.out w ++ lines)%list
        /\ new <= Protocol.tagCount "NEW AD" lines)
  /\ Scraper.page w' = Scraper.page w
  /\ Scraper.scrollAttempts stats' = Scraper.scrollAttempts stats
  /\ Scraper.batchesProcessed stats' = Scraper.batchesProcessed stats.
Proof.
  induction extractedAds as [|adData rest IH];
    intros stats batchNew w stats' batchNew' w' Hrun new dup; subst new dup.
  - cbn in Hrun. inversion Hrun; subst.
    repeat match goal with |- _ /\ _ => split end;
      try lia; try reflexivity;
      exists []; rewrite app_nil_r; (split; [reflexivity|]);
      unfold Protocol.tagCount; cbn; lia.
  - cbn [Scraper.saveBatch] in Hrun.
    destruct (Scraper.savedCount stats >=? maxAds) eqn:Ecap.
    + inversion Hrun; subst.
      repeat match goal with |- _ /\ _ => split end;
        try lia; try reflexivity;
        exists []; rewrite app_nil_r; (split; [reflexivity|]);
        unfold Protocol.tagCount; cbn; lia.
    + rewrite Z.geb_leb in Ecap. apply Z.leb_gt in Ecap.
      set (res := saveAd _ _ _ _ _ _ _ _ _ _) in Hrun.
      destruct (returned res) eqn:Eret.
      * destruct (saveAd_true _ _ _ _ _ _ _ _ _ _ Eret) as [_ Hads].
        fold res in Hads.
        apply IH in Hrun. cbv zeta in Hrun.
        cbn [Scraper.savedCount Scraper.duplicateCount Scraper.processedCount
             Scraper.scrollAttempts Scraper.batchesProcessed] in Hrun.
        unfold Scraper.say in Hrun.
        cbn [Scraper.ads Scraper.out Scraper.page] in Hrun.
        destruct Hrun as (Hn & Hd & Hb & Hp & Hlen & Hcap & (added & Ha & Hal)
                          & (lines & Hl & Hll) & Hpg & Hsc & Hbp).
        repeat match goal with |- _ /\ _ => split end; try lia.
        -- cbn [List.length]. lia.
        -- rewrite Ha, Hads, <- app_assoc. eexists. split; [reflexivity|].
           rewrite length_app. cbn [List.length]. lia.
        -- rewrite Hl, <- !app_assoc. eexists. split; [reflexivity|].
           rewrite !tagCount_app.
           pose proof (tagCount_nonneg "NEW AD" (logged res)).
           assert (Hline : Protocol.tagCount "NEW AD"
                     ["✅ " ++ Scraper.tagged executionId ++ "NEW AD ["
                      ++ Js.showZ (Scraper.savedCount stats + 1) ++ "/"
                      ++ Js.showZ maxAds ++ "]: ["
                      ++ Scraper.advertiser adData ++ "]"] = 1).
           { unfold Protocol.tagCount. cbn [List.filter].
             rewrite (includes_app_r "✅ ");
               [reflexivity|].
             apply includes_app_r. reflexivity. }
           lia.
        -- exact Hpg.
      * pose proof (saveAd_false _ _ _ _ _ _ _ _ _ _ Eret) as Hads.
        fold res in Hads.
        apply IH in Hrun. cbv zeta in Hrun.
        cbn [Scraper.savedCount Scraper.duplicateCount Scraper.processedCount
             Scraper.scrollAttempts Scraper.batchesProcessed
             Scraper.ads Scraper.out Scraper.page] in Hrun.
        destruct Hrun as (Hn & Hd & Hb & Hp & Hlen & Hcap & (added & Ha & Hal)
                          & (lines & Hl & Hll) & Hpg & Hsc & Hbp).
        repeat match goal with |- _ /\ _ => split end; try lia.
        -- cbn [List.length]. lia.
        -- rewrite Ha, Hads. eexists. split; [reflexivity|]. lia.
        -- rewrite Hl, <- !app_assoc. eexists. split; [reflexivity|].
           rewrite tagCount_app.
           pose proof (tagCount_nonneg "NEW AD" (logged res)). lia.
        -- exact Hpg.
Qed.

End WorkerFacts.

Section LoopFacts.

Import Db.

Context {Page : Type}.
Variable browser : Scraper.Browser Page.
Variable scraperConfig : Scraper.ScraperConfig.
Variable zone : JsDate.Zone.
Variable fault_at : nat -> Fault.
Variable clock : nat -> Z.

Lemma announced_say (printed : list string) (n : Z) (line : string)
    (w : @Scraper.World Page) :
  WorkerInvariant.announced printed n w ->
  WorkerInvariant.announced printed n (Scraper.say line w).
Proof.
  intros (lines & Hout & Hn). exists (lines ++ [line])%list. cbn.
  rewrite Hout, app_assoc. split; [reflexivity|].
  rewrite tagCount_app. pose proof (tagCount_nonneg "NEW AD" [line]). lia.
Qed.

Lemma announced_withPage (printed : list string) (n : Z) (p : Page)
    (w : @Scraper.World Page) :
  WorkerInvariant.announced printed n w ->
  WorkerInvariant.announced printed n (Scraper.withPage p w).
Proof. intros H. exact H. Qed.

Lemma stored_say (before : list Ad) (n : Z) (line : string)
    (w : @Scraper.World Page) :
  WorkerInvariant.stored before n w ->
  WorkerInvariant.stored before n (Scraper.say line w).
Proof. intros H. exact H. Qed.

Lemma stored_withPage (before : list Ad) (n : Z) (p : Page)
    (w : @Scraper.World Page) :
  WorkerInvariant.stored before n w ->
  WorkerInvariant.stored before n (Scraper.withPage p w).
Proof. intros H. exact H. Qed.

Ltac loop_cases :=
  repeat match goal with
         | |- context [if ?b then _ else _] => destruct b eqn:?
         end;
  unfold WorkerInvariant.holds, Scraper.resetProcessed, Scraper.countScroll,
    Scraper.countBatch;
  unfold Scraper.maxPageRefreshes in *;
  cbn [Scraper.stats Scraper.world Scraper.pageRefreshCount
       Scraper.savedCount Scraper.duplicateCount];
  repeat match goal with
         | H : (_ <? _) = true |- _ => apply Z.ltb_lt in H
         end;
  repeat match goal with |- _ /\ _ => split end;
  try lia;
  repeat (apply announced_say || apply announced_withPage
          || apply stored_say || apply stored_withPage);
  try assumption.

(** One turn of the loop keeps the invariant, however it ends. *)
Lemma iteration_keeps_invariant (before : list Ad) (printed : list string)
    (kw executionId : string) (maxAds dailyQuota : Z) (owner : option string)
    (l : @Scraper.Loop Page) :
  WorkerInvariant.holds before printed maxAds l ->
  match Scraper.iteration browser scraperConfig zone fault_at clock kw
          executionId maxAds dailyQuota owner l with
  | Scraper.GoOn l' => WorkerInvariant.holds before printed maxAds l'
  | Scraper.Leave l' => WorkerInvariant.holds before printed maxAds l'
  | Scraper.Raise l' _ => WorkerInvariant.holds before printed maxAds l'
  end.
Proof.
  intros (Hsaved & Hdup & Hrefresh & Hstored & Hannounced).
  unfold Scraper.iteration. cbv zeta.
  set (st0 := if (0 <? Scraper.batchesProcessed (Scraper.stats l))
                 && (Scraper.batchesProcessed (Scraper.stats l)
                     mod Scraper.memoryCleanupInterval scraperConfig =? 0)
              then Scraper.performMemoryCleanup (Scraper.stats l)
              else Scraper.stats l).
  assert (Hst0 : Scraper.savedCount st0 = Scraper.savedCount (Scraper.stats l)
                 /\ Scraper.duplicateCount st0
                    = Scraper.duplicateCount (Scraper.stats l)).
  { subst st0. destruct (_ && _); split; reflexivity. }
  destruct Hst0 as [Hs0 Hd0]. clearbody st0.
  rewrite <- Hs0 in Hsaved, Hstored, Hannounced. rewrite <- Hd0 in Hdup.
  unfold Scraper.maxPageRefreshes in Hrefresh.
  destruct (Scraper.getCardCount browser (Scraper.page (Scraper.world l)))
    as [message|count].
  { loop_cases. }
  destruct (count =? 0).
  { loop_cases. }
  destruct (Z.min _ _ <=? 0).
  { destruct (Scraper.scrollForMoreContent browser _) as [scrollWorked p1].
    loop_cases. }
  match goal with
  | |- context [Scraper.saveBatch ?f ?c ?k ?e ?m ?o ?x ?s ?b ?w0] =>
      destruct (Scraper.saveBatch f c k e m o x s b w0)
        as [[st1 batchNew] w1] eqn:Ebatch
  end.
  apply saveBatch_accounting in Ebatch. cbv zeta in Ebatch.
  destruct Ebatch as (Hn & Hd & Hb & Hp & Hl & Hcap
                      & (added1 & Ha1 & Hal1) & (lines1 & Ho1 & Hol1) & _).
  assert (Hstored1 : WorkerInvariant.stored before (Scraper.savedCount st1) w1).
  { destruct Hstored as (added & Hads & Hlen).
    exists (added ++ added1)%list. rewrite Ha1. cbn [Scraper.say Scraper.ads].
    rewrite Hads, app_assoc. split; [reflexivity|]. rewrite length_app. lia. }
  assert (Hannounced1 :
            WorkerInvariant.announced printed (Scraper.savedCount st1) w1).
  { apply (announced_say _ _
             ("🔄 " ++ Scraper.tagged executionId ++ "Batch "
              ++ Js.showZ (Scraper.batchesProcessed st0 + 1) ++ ": Found "
              ++ Js.showZ count ++ " cards (processed "
              ++ Js.showZ (Scraper.processedCount st0) ++ "), Saved: "
              ++ Js.showZ (Scraper.savedCount st0) ++ "/" ++ Js.showZ maxAds))
      in Hannounced.
    destruct Hannounced as (lines & Hout & Hlen).
    exists (lines ++ lines1)%list. rewrite Ho1, Hout, app_assoc.
    split; [reflexivity|]. rewrite tagCount_app. lia. }
  assert (Hs1 : 0 <= Scraper.savedCount st1 <= maxAds) by lia.
  assert (Hd1 : 0 <= Scraper.duplicateCount st1) by lia.
  clear Hn Hd Hb Hp Hl Hcap Ha1 Hal1 Ho1 Hol1 Hstored Hannounced.
  loop_cases.
Qed.

(** The invariant holds when the loop is left, in whatever way. *)
Lemma loop_keeps_invariant (before : list Ad) (printed : list string)
    (kw executionId : string) (maxAds dailyQuota : Z) (owner : option string)
    (fuel : nat) :
  forall l : @Scraper.Loop Page,
  WorkerInvariant.holds before printed maxAds l ->
  match Scraper.performEnhancedScraping browser scraperConfig zone fault_at
          clock fuel kw executionId maxAds dailyQuota owner l with
  | Some (inr l') => WorkerInvariant.holds before printed maxAds l'
  | Some (inl (l', _)) => WorkerInvariant.holds before printed maxAds l'
  | None => True
  end.
Proof.
  induction fuel as [|fuel IH]; intros l Hl.
  - cbn [Scraper.performEnhancedScraping]. destruct (_ && _); [exact I | exact Hl].
  - cbn [Scraper.performEnhancedScraping]. destruct (_ && _); [|exact Hl].
    pose proof (iteration_keeps_invariant before printed kw executionId maxAds
                  dailyQuota owner l Hl) as Hstep.
    destruct (Scraper.iteration _ _ _ _ _ _ _ _ _ _ l) as [l'|l'|l' message].
    + apply IH. exact Hstep.
    + exact Hstep.
    + exact Hstep.
Qed.

(** X7. Whenever a run of the worker comes to an end, whatever the page
    showed and whatever the store did, the update it sends last for its
    mission reports as [newAds] a number within the requested cap that
    is exactly the number of records the run added to the collection;
    no earlier record is lost or reordered, each added record was
    announced by a line of its own on the output, and the duplicate
    count reported is not negative. *)
Theorem worker_reports_what_it_stored (fuel : nat) (navigation : option string)
    (kw : string) (maxAds dailyQuota : Z) (id : string)
    (missions : gmap string Mission) (lookup_ok : bool)
    (w : @Scraper.World Page)
    (run : @Scraper.WorkerRun Page) :
  0 <= maxAds ->
  Scraper.scrapeAds browser scraperConfig zone fault_at clock fuel navigation
    kw maxAds dailyQuota id missions lookup_ok w = Some run ->
  exists n d,
    set_newAds (Scraper.run_update run) = Some n
    /\ set_duplicatesSkipped (Scraper.run_update run) = Some d
    /\ 0 <= n <= maxAds /\ 0 <= d
    /\ WorkerInvariant.stored (Scraper.ads w) n (Scraper.run_world run)
    /\ WorkerInvariant.announced (Scraper.out w) n (Scraper.run_world run).
Proof.
  intros Hcap Hrun. unfold Scraper.scrapeAds in Hrun.
  assert (Hinit : WorkerInvariant.holds (Scraper.ads w) (Scraper.out w) maxAds
                    (Scraper.mkLoop Scraper.initialStats 0 0 0 w)).
  { unfold WorkerInvariant.holds, Scraper.maxPageRefreshes. cbn.
    repeat match goal with |- _ /\ _ => split end; try lia.
    - exists []. rewrite app_nil_r. split; reflexivity.
    - exists []. rewrite app_nil_r. split; [reflexivity|].
      unfold Protocol.tagCount. cbn. lia. }
  destruct navigation as [message|].
  - inversion Hrun; subst run. exists 0, 0. cbn.
    destruct Hinit as (_ & _ & _ & Hs & Ha).
    repeat match goal with |- _ /\ _ => split end; try reflexivity; try lia;
      assumption.
  - match type of Hrun with
    | context [Scraper.performEnhancedScraping ?b ?c ?t ?f ?k ?fu ?kw ?i ?m ?q ?o ?l] =>
        pose proof (loop_keeps_invariant (Scraper.ads w) (Scraper.out w)
                      kw i m q o fu l Hinit) as Hend;
        destruct (Scraper.performEnhancedScraping b c t f k fu kw i m q o l)
          as [[[l' message]|l']|]
    end.
    + inversion Hrun; subst run.
      destruct Hend as (Hs & Hd & _ & Hst & Han).
      exists (Scraper.savedCount (Scraper.stats l')),
             (Scraper.duplicateCount (Scraper.stats l')). cbn.
      repeat match goal with |- _ /\ _ => split end; try reflexivity; try lia;
        assumption.
    + inversion Hrun; subst run.
      destruct Hend as (Hs & Hd & _ & Hst & Han).
      exists (Scraper.savedCount (Scraper.stats l')),
             (Scraper.duplicateCount (Scraper.stats l')). cbn.
      repeat match goal with |- _ /\ _ => split end; try reflexivity; try lia;
        assumption.
    + discriminate Hrun.
Qed.

End LoopFacts.

Lemma worker_reports_what_it_stored_witness :
  exists run n d,
    Scenarios.worker [Scenarios.acme; Scenarios.bolt] [] [Scenarios.acmeAd]
    = Some run
    /\ Db.set_newAds (Scraper.run_update run) = Some n
    /\ Db.set_duplicatesSkipped (Scraper.run_update run) = Some d
    /\ 0 <= n <= 100 /\ 0 <= d
    /\ WorkerInvariant.stored [Scenarios.acmeAd] n (Scraper.run_world run)
    /\ WorkerInvariant.announced [] n (Scraper.run_world run).
Proof.
  destruct (Scenarios.worker [Scenarios.acme; Scenarios.bolt] []
              [Scenarios.acmeAd]) as [run|] eqn:Erun;
    [|vm_compute in Erun; discriminate Erun].
  destruct (worker_reports_what_it_stored (Scenarios.listBrowser [])
              Scraper.defaultScraperConfig (JsDate.fixedZone 19800000)
              (fun _ => Db.NoFault)
              Scenarios.secondsClock 200 None "shoes" 100 5000 "m1"
              (Server.missions Scenarios.started) true
              (Scraper.mkWorld [Scenarios.acme; Scenarios.bolt]
                 [Scenarios.acmeAd] [] 0 0) run)
    as (n & d & H); [lia | exact Erun |].
  exists run, n, d. split; [reflexivity | exact H].
Defined.

Section EmptyPageFacts.

Import Db.

Context {Page : Type}.
Variable browser : Scraper.Browser Page.
Variable scraperConfig : Scraper.ScraperConfig.
Variable zone : JsDate.Zone.
Variable fault_at : nat -> Fault.
Variable clock : nat -> Z.

Hypothesis no_cards : forall p, Scraper.getCardCount browser p = inr 0.

(** On a page that never shows a card the loop is left after at most
    five passes per allowed reload, with nothing saved. *)
Lemma empty_page_loop (kw executionId : string) (maxAds dailyQuota : Z)
    (owner : option string) (fuel : nat) :
  forall l : @Scraper.Loop Page,
  0 <= Scraper.emptyBatchPatience l <= 4 ->
  0 <= Scraper.pageRefreshCount l <= 3 ->
  (Z.to_nat ((3 - Scraper.pageRefreshCount l) * 5
             + (5 - Scraper.emptyBatchPatience l)) <= fuel)%nat ->
  exists l',
    Scraper.performEnhancedScraping browser scraperConfig zone fault_at clock
      fuel kw executionId maxAds dailyQuota owner l = Some (inr l')
    /\ Scraper.savedCount (Scraper.stats l') = Scraper.savedCount (Scraper.stats l)
    /\ Scraper.duplicateCount (Scraper.stats l')
       = Scraper.duplicateCount (Scraper.stats l)
    /\ (Scraper.processedCount (Scraper.stats l) = 0 ->
        Scraper.processedCount (Scraper.stats l') = 0)
    /\ Scraper.ads (Scraper.world l') = Scraper.ads (Scraper.world l)
    /\ Scraper.pageRefreshCount l' <= 3.
Proof.
  induction fuel as [|fuel IH]; intros l Hp Hr Hfuel.
  - exfalso. lia.
  - cbn [Scraper.performEnhancedScraping].
    destruct (_ && _).
    2:{ exists l. repeat split; try reflexivity; tauto || lia. }
    unfold Scraper.iteration. cbv zeta.
    set (st0 := if (0 <? Scraper.batchesProcessed (Scraper.stats l))
                   && (Scraper.batchesProcessed (Scraper.stats l)
                       mod Scraper.memoryCleanupInterval scraperConfig =? 0)
                then Scraper.performMemoryCleanup (Scraper.stats l)
                else Scraper.stats l).
    assert (Hst0 : Scraper.savedCount st0 = Scraper.savedCount (Scraper.stats l)
                   /\ Scraper.duplicateCount st0
                      = Scraper.duplicateCount (Scraper.stats l)
                   /\ Scraper.processedCount st0
                      = Scraper.processedCount (Scraper.stats l)).
    { subst st0. destruct (_ && _); repeat split; reflexivity. }
    destruct Hst0 as (Hs0 & Hd0 & Hp0). clearbody st0.
    rewrite no_cards. cbn [Z.eqb].
    unfold Scraper.maxEmptyBatchPatience, Scraper.maxPageRefreshes.
    destruct (Scraper.emptyBatchPatience l + 1 >=? 5) eqn:Epatience.
    + rewrite Z.geb_leb in Epatience. apply Z.leb_le in Epatience.
      destruct (Scraper.pageRefreshCount l <? 3) eqn:Erefresh.
      * apply Z.ltb_lt in Erefresh.
        match goal with
        | |- context [Scraper.performEnhancedScraping _ _ _ _ _ _ _ _ _ _ _ ?l1] =>
            destruct (IH l1) as (l' & Hrun & Hs & Hd & Hpr & Ha & Hre);
              [cbn; lia | cbn; lia | cbn; lia |]
        end.
        exists l'. split; [exact Hrun|]. cbn in Hs, Hd, Hpr, Ha.
        repeat split; try congruence. intros _. apply Hpr. reflexivity.
      * eexists. split; [reflexivity|]. cbn.
        repeat split; try congruence; lia.
    + rewrite Z.geb_leb in Epatience. apply Z.leb_gt in Epatience.
      match goal with
      | |- context [Scraper.performEnhancedScraping _ _ _ _ _ _ _ _ _ _ _ ?l1] =>
          destruct (IH l1) as (l' & Hrun & Hs & Hd & Hpr & Ha & Hre);
            [cbn; lia | cbn; lia | cbn; lia |]
      end.
      exists l'. split; [exact Hrun|]. cbn in Hs, Hd, Hpr, Ha.
      repeat split; try congruence. intros Hz. apply Hpr. congruence.
Qed.

(** X8. On a page that never shows a card the worker always comes to an
    end: twenty passes of the loop are enough, whatever the cap, the
    configuration and the store. It then reports the mission as
    completed with no record found, saved or skipped, and the collection
    is as it was. *)
Theorem empty_page_ends_completed_with_nothing (fuel : nat) (kw : string)
    (maxAds dailyQuota : Z) (id : string) (missions : gmap string Mission)
    (lookup_ok : bool)
    (w : @Scraper.World Page) :
  (20 <= fuel)%nat ->
  exists run,
    Scraper.scrapeAds browser scraperConfig zone fault_at clock fuel None
      kw maxAds dailyQuota id missions lookup_ok w = Some run
    /\ set_status (Scraper.run_update run) = Some completed
    /\ set_adsFound (Scraper.run_update run) = Some 0
    /\ set_newAds (Scraper.run_update run) = Some 0
    /\ set_duplicatesSkipped (Scraper.run_update run) = Some 0
    /\ Scraper.ads (Scraper.run_world run) = Scraper.ads w.
Proof.
  intros Hfuel. unfold Scraper.scrapeAds.
  match goal with
  | |- context [Scraper.performEnhancedScraping _ _ _ _ _ _ ?kw ?i ?m ?q ?o ?l] =>
      destruct (empty_page_loop kw i m q o fuel l)
        as (l' & Hrun & Hs & Hd & Hp & Ha & _); [cbn; lia | cbn; lia | cbn; lia |]
  end.
  rewrite Hrun. eexists. split; [reflexivity|]. cbn in *.
  rewrite Hs, Hd, Hp by reflexivity. repeat split. exact Ha.
Qed.

End EmptyPageFacts.

Lemma empty_page_ends_completed_with_nothing_witness :
  exists run,
    Scraper.scrapeAds MoreScenarios.blankBrowser Scraper.defaultScraperConfig
      (JsDate.fixedZone 19800000) (fun _ => Db.NoFault) Scenarios.secondsClock
      20 None "shoes" 100 5000 "m1" (Server.missions Scenarios.started) true
      (Scraper.mkWorld tt [Scenarios.acmeAd] [] 0 0) = Some run
    /\ Db.set_status (Scraper.run_update run) = Some Db.completed
    /\ Db.set_newAds (Scraper.run_update run) = Some 0.
Proof.
  destruct (empty_page_ends_completed_with_nothing MoreScenarios.blankBrowser
              Scraper.defaultScraperConfig (JsDate.fixedZone 19800000)
              (fun _ => Db.NoFault)
              Scenarios.secondsClock (fun _ => eq_refl) 20 "shoes" 100 5000 "m1"
              (Server.missions Scenarios.started) true
              (Scraper.mkWorld tt [Scenarios.acmeAd] [] 0 0))
    as (run & Hrun & Hstatus & _ & Hnew & _); [lia|].
  exists run. split; [exact Hrun|]. split; [exact Hstatus | exact Hnew].
Defined.

Section ScheduleFacts.

Variable zone : JsDate.Zone.
Variable month_start : Z -> Z.
Variable JSON_parse : string -> option Protocol.MissionResult.

Import Db SchedulerService.

Lemma closeMission_status (ev : CloseEvent) (mission : Mission) :
  status (closeMission JSON_parse ev mission)
  = if exitedZero (code ev) && negb (isTimeout ev) then completed else failed.
Proof.
  unfold closeMission.
  destruct (isTimeout ev); destruct (exitedZero (code ev));
    destruct (Protocol.matchMissionResult (scriptOutput ev)) as [text|];
    try destruct (JSON_parse text); reflexivity.
Qed.

(** X9. When the worker of a scheduled job is gone, the run is counted
    exactly once, and on the side its mission ends on: as successful
    when the mission is finalized as completed, as failed otherwise, and
    the mission is then finalized as failed. The difference between the
    total and the two partial counts stays what it was, the schedule
    itself (owner, keyword, expression, activity, limits) is not
    altered, and no other schedule is touched. *)
Theorem run_is_counted_on_the_side_its_mission_ends
    (_id : string) (scheduler s : Scheduler) (ev : CloseEvent)
    (mission : Mission) (schedulers : gmap string Scheduler) :
  schedulers !! _id = Some s ->
  let after := closeScheduler zone month_start _id scheduler ev schedulers in
  let ended := status (closeMission JSON_parse ev mission) in
  (exists s',
      after !! _id = Some s'
      /\ totalRuns s' = totalRuns s + 1
      /\ successfulRuns s' + failedRuns s' = successfulRuns s + failedRuns s + 1
      /\ (ended = completed -> successfulRuns s' = successfulRuns s + 1)
      /\ (ended <> completed ->
          ended = failed /\ failedRuns s' = failedRuns s + 1)
      /\ s_userId s' = s_userId s /\ s_keyword s' = s_keyword s
      /\ cronExpression s' = cronExpression s /\ isActive s' = isActive s
      /\ s_maxAdsPerRequest s' = s_maxAdsPerRequest s
      /\ s_dailyLimit s' = s_dailyLimit s)
  /\ (forall other : string, other <> _id -> after !! other = schedulers !! other).
Proof.
  intros Hs after ended. subst after ended. rewrite closeMission_status.
  unfold closeScheduler. split.
  - rewrite lookup_alter_eq, Hs. cbn [fmap option_fmap option_map].
    eexists. split; [reflexivity|]. cbn.
    destruct (exitedZero (code ev)); destruct (isTimeout ev); cbn;
      repeat match goal with |- _ /\ _ => split end;
      try reflexivity; try lia; try (intros H; congruence);
      try (intros _; split; [reflexivity | lia]); intros _; lia.
  - intros other Hne. apply lookup_alter_ne. congruence.
Qed.

(** X10. A tick of a schedule always comes to an end within four
    attempts. The pauses between attempts are the first of 5, 10 and 20
    seconds; as soon as one attempt gets through its store calls nothing
    is written to the schedule, and a worker is launched only for a
    schedule that is stored and active, with a running mission of the
    schedule's owner that carries the limits of the tick. Only when all
    four attempts are rejected is the run booked. *)
Theorem tick_ends_within_four_attempts
    (store_ok_at : nat -> bool) (clock : nat -> Z) (t1 t2 : Z)
    (_id kw : string) (maxAds dailyQuota : Z)
    (schedulers : gmap string Scheduler) :
  exists run,
    executeScrapingJobWithRetry zone month_start store_ok_at clock t1 t2 _id kw
      maxAds dailyQuota schedulers = Some run
    /\ delays run `prefix_of` [5000; 10000; 20000]
    /\ (forall k, (k <= 3)%nat -> store_ok_at k = true ->
        schedulers_after run = schedulers)
    /\ (forall sch m, launched run = Some (sch, m) ->
        schedulers !! _id = Some sch /\ isActive sch = true
        /\ status m = running /\ m_userId m = s_userId sch
        /\ m_keyword m = s_keyword sch
        /\ maxAdsPerRequest m = maxAds /\ dailyLimit m = dailyQuota
        /\ newAds m = 0)
    /\ (schedulers_after run <> schedulers ->
        launched run = None /\ delays run = [5000; 10000; 20000]
        /\ forall k, (k <= 3)%nat -> store_ok_at k = false).
Proof.
  unfold executeScrapingJobWithRetry, maxRetries, retryLoop, executeScrapingJob.
  unfold maxRetries.
  assert (Hk : forall k, (k <= 3)%nat -> k = 0%nat \/ k = 1%nat \/ k = 2%nat \/ k = 3%nat)
    by (intros k Hk; lia).
  destruct (schedulers !! _id) as [sch|] eqn:Es;
    [destruct (isActive sch) eqn:Ea|];
    (destruct (store_ok_at 0%nat) eqn:E0;
     [|cbn [Nat.ltb Nat.leb app];
       destruct (store_ok_at 1%nat) eqn:E1;
       [|cbn [Nat.ltb Nat.leb app];
         destruct (store_ok_at 2%nat) eqn:E2;
         [|cbn [Nat.ltb Nat.leb app];
           destruct (store_ok_at 3%nat) eqn:E3;
           [|cbn [Nat.ltb Nat.leb app];
             destruct (store_ok_at 4%nat) eqn:E4]]]]);
    (eexists; split; [reflexivity|]);
    cbn [delays schedulers_after launched];
    (split; [cbn; eexists; reflexivity|]);
    (split;
     [first [ intros k Hle Hok; reflexivity
            | intros k Hle Hok;
              destruct (Hk k Hle) as [-> | [-> | [-> | ->]]]; congruence ]|]);
    (split;
     [first [ intros sch' m Hl; discriminate Hl
            | intros sch' m Hl; inversion Hl; subst; cbn;
              repeat split; assumption ]|]);
    first [ intros Hne; contradiction
          | intros _; split; [reflexivity|]; split; [reflexivity|];
            intros k Hle;
            destruct (Hk k Hle) as [-> | [-> | [-> | ->]]]; assumption ].
Qed.

End ScheduleFacts.

(** A worker that exits normally: the run of the six-hourly schedule is
    booked as successful. *)
Lemma run_is_counted_on_the_side_its_mission_ends_witness :
  let schedulers : gmap string Db.Scheduler := <["s1" := Scenarios.everySix]> ∅ in
  let ev := SchedulerService.mkCloseEvent (Some 0) false "" 0 9000 9001 9002 in
  exists s',
    SchedulerService.closeScheduler (JsDate.fixedZone 19800000) (fun d => d) "s1"
      Scenarios.everySix ev schedulers !! "s1" = Some s'
    /\ Db.totalRuns s' = 1 /\ Db.successfulRuns s' = 1.
Proof.
  intros schedulers ev.
  pose proof (run_is_counted_on_the_side_its_mission_ends
                (JsDate.fixedZone 19800000) (fun d => d)
                Scenarios.parseSavedOnly "s1" Scenarios.everySix
                Scenarios.everySix ev Scenarios.scheduledMission schedulers) as H.
  cbv zeta in H.
  destruct H as ((s' & Hs & Htotal & _ & Hok & _) & _); [reflexivity|].
  exists s'. split; [exact Hs|]. split; [exact Htotal|].
  apply Hok. reflexivity.
Defined.

(** A tick whose third attempt gets through: nothing is written to the
    schedule. *)
Lemma tick_ends_within_four_attempts_witness :
  let schedulers : gmap string Db.Scheduler := <["s1" := Scenarios.everySix]> ∅ in
  exists run,
    SchedulerService.executeScrapingJobWithRetry (JsDate.fixedZone 19800000)
      (fun d => d)
      (fun n => Nat.eqb n 2) Scenarios.secondsClock 9001 9002 "s1" "shoes"
      100 5000 schedulers = Some run
    /\ SchedulerService.schedulers_after run = schedulers.
Proof.
  intros schedulers.
  destruct (tick_ends_within_four_attempts (JsDate.fixedZone 19800000) (fun d => d)
              (fun n => Nat.eqb n 2) Scenarios.secondsClock 9001 9002 "s1"
              "shoes" 100 5000 schedulers)
    as (run & Hrun & _ & Hsame & _).
  exists run. split; [exact Hrun|].
  apply (Hsame 2%nat); [lia | reflexivity].
Defined.

Section CronFacts.

Variable zone : JsDate.Zone.
Variable tza : Z.
Variable month_start : Z -> Z.

Import Db SchedulerService.

Lemma starSpaced_replaceStarRuns (s : string) :
  forall in_run, CronTable.starSpaced (Js.replaceStarRuns in_run s) = true.
Proof.
  induction s as [|c rest IH]; intros in_run; [reflexivity|].
  cbn [Js.replaceStarRuns].
  destruct (Ascii.eqb c "*") eqn:Ec.
  - destruct in_run; [apply IH|].
    cbn [CronTable.starSpaced]. rewrite IH. reflexivity.
  - cbn [CronTable.starSpaced]. rewrite Ec, IH. reflexivity.
Qed.

Lemma starSpaced_tail (c : ascii) (rest : string) :
  CronTable.starSpaced (String c rest) = true -> CronTable.starSpaced rest = true.
Proof. cbn [CronTable.starSpaced]. intros H. apply andb_true_iff in H. tauto. Qed.

Lemma starSpaced_suffix (p s : string) :
  CronTable.starSpaced (p ++ s) = true -> CronTable.starSpaced s = true.
Proof.
  induction p as [|c p IH]; intros H; [exact H|].
  apply IH. exact (starSpaced_tail c _ H).
Qed.

Lemma starSpaced_prefix (s q : string) :
  CronTable.starSpaced (s ++ q) = true -> CronTable.starSpaced s = true.
Proof.
  induction s as [|c s IH]; intros H; [reflexivity|].
  change (String c s ++ q) with (String c (s ++ q)) in H.
  cbn [CronTable.starSpaced] in H |- *.
  apply andb_true_iff in H as [Hc Hrest]. rewrite (IH Hrest), andb_true_r.
  destruct (Ascii.eqb c "*"); [|reflexivity].
  destruct s as [|d s]; [reflexivity | exact Hc].
Qed.

(** What [trimStart] leaves is the end of the text. *)
Lemma trimStart_suffix (n : nat) :
  forall s, (String.length s <= n)%nat -> exists p, s = p ++ Js.trimStart s.
Proof.
  induction n as [|n IH]; intros s Hlen.
  - destruct s; [exists ""; reflexivity | cbn in Hlen; lia].
  - destruct s as [|a r1]; [exists ""; reflexivity|].
    cbn [Js.trimStart]. cbn [String.length] in Hlen.
    destruct (Js.is_space1 (Js.byte a)).
    { destruct (IH r1 ltac:(lia)) as [p Hp].
      exists (String a p).
      change (String a r1 = String a (p ++ Js.trimStart r1)). congruence. }
    destruct r1 as [|b r2]; [exists ""; reflexivity|].
    cbn [String.length] in Hlen.
    destruct (Js.is_space2 (Js.byte a) (Js.byte b)).
    { destruct (IH r2 ltac:(lia)) as [p Hp].
      exists (String a (String b p)).
      change (String a (String b r2)
              = String a (String b (p ++ Js.trimStart r2))). congruence. }
    destruct r2 as [|c r3]; [exists ""; reflexivity|].
    cbn [String.length] in Hlen.
    destruct (Js.is_space3 (Js.byte a) (Js.byte b) (Js.byte c)).
    { destruct (IH r3 ltac:(lia)) as [p Hp].
      exists (String a (String b (String c p))).
      change (String a (String b (String c r3))
              = String a (String b (String c (p ++ Js.trimStart r3)))).
      congruence. }
    exists "". reflexivity.
Qed.

Lemma dropSpacesRev_suffix (n : nat) :
  forall r, (List.length r <= n)%nat ->
  exists p, r = (p ++ Js.dropSpacesRev r)%list.
Proof.
  induction n as [|n IH]; intros r Hlen.
  - destruct r; [exists []; reflexivity | cbn in Hlen; lia].
  - destruct r as [|c r1]; [exists []; reflexivity|].
    cbn [Js.dropSpacesRev]. cbn [List.length] in Hlen.
    destruct (Js.is_space1 (Js.byte c)).
    { destruct (IH r1 ltac:(lia)) as [p Hp].
      exists (c :: p). cbn. rewrite <- Hp. reflexivity. }
    destruct r1 as [|b r2]; [exists []; reflexivity|].
    cbn [List.length] in Hlen.
    destruct (Js.is_space2 (Js.byte b) (Js.byte c)).
    { destruct (IH r2 ltac:(lia)) as [p Hp].
      exists (c :: b :: p). cbn. rewrite <- Hp. reflexivity. }
    destruct r2 as [|a r3]; [exists []; reflexivity|].
    cbn [List.length] in Hlen.
    destruct (Js.is_space3 (Js.byte a) (Js.byte b) (Js.byte c)).
    { destruct (IH r3 ltac:(lia)) as [p Hp].
      exists (c :: b :: a :: p). cbn. rewrite <- Hp. reflexivity. }
    exists []. reflexivity.
Qed.

Lemma string_of_list_app (l k : list ascii) :
  string_of_list_ascii (l ++ k)
  = string_of_list_ascii l ++ string_of_list_ascii k.
Proof.
  induction l as [|c l IH]; [reflexivity|].
  cbn [app string_of_list_ascii]. rewrite IH. reflexivity.
Qed.

(** What [trimEnd] leaves is the beginning of the text. *)
Lemma trimEnd_prefix (s : string) : exists q, s = Js.trimEnd s ++ q.
Proof.
  unfold Js.trimEnd.
  destruct (dropSpacesRev_suffix _ (List.rev (list_ascii_of_string s))
              (Nat.le_refl _)) as [p Hp].
  exists (string_of_list_ascii (List.rev p)).
  rewrite <- string_of_list_app, <- rev_app_distr, <- Hp, rev_involutive.
  symmetry. apply string_of_list_ascii_of_string.
Qed.

Lemma starSpaced_trimStart (s : string) :
  CronTable.starSpaced s = true -> CronTable.starSpaced (Js.trimStart s) = true.
Proof.
  intros H. destruct (trimStart_suffix _ s (Nat.le_refl _)) as [p Hp].
  rewrite Hp in H. exact (starSpaced_suffix _ _ H).
Qed.

Lemma starSpaced_trimEnd (s : string) :
  CronTable.starSpaced s = true -> CronTable.starSpaced (Js.trimEnd s) = true.
Proof.
  intros H. destruct (trimEnd_prefix s) as [q Hq].
  rewrite Hq in H. exact (starSpaced_prefix _ _ H).
Qed.

(** The normalized form of an expression is none of the six forms it is
    compared with. *)
Lemma normalized_matches_nothing (cron p : string) :
  In p ["*/2 * * * *"; "*/3 * * * *"; "*/5 * * * *"; "*/10 * * * *";
        "*/15 * * * *"; "*/30 * * * *"] ->
  String.eqb (Js.trim (Js.replaceStarRuns false cron)) p = false.
Proof.
  intros Hp. apply String.eqb_neq. intros Heq.
  pose proof (starSpaced_trimEnd _
                (starSpaced_trimStart _
                   (starSpaced_replaceStarRuns cron false))) as H.
  change (CronTable.starSpaced (Js.trim (Js.replaceStarRuns false cron)) = true) in H.
  rewrite Heq in H.
  cbn [In] in Hp.
  repeat match type of Hp with
         | _ \/ _ => destruct Hp as [<-|Hp]; [discriminate H|]
         end.
  exact Hp.
Qed.

Lemma recognized_literals (cron : string) :
  recognized cron = existsb (String.eqb cron) CronTable.literals.
Proof.
  unfold recognized. cbv zeta. cbn [existsb].
  rewrite !normalized_matches_nothing by (cbn; tauto).
  cbn [orb]. rewrite orb_false_r. reflexivity.
Qed.

(** X11. Only the seventeen expressions of the table select a branch of
    their own: the comparison with the normalized expression never
    succeeds, so every other text, among them a table entry with a space
    more or less, gets the default, which sets the local hour one
    ahead. Where the clocks are never changed that is one hour later;
    in New York at 05:30 UTC on 3 November 2024, half past one before
    the clocks go back, it is two hours later. *)
Theorem only_table_literals_select_a_branch (now : Z) (cron : string) :
  (recognized cron = true <-> In cron CronTable.literals)
  /\ (~ In cron CronTable.literals ->
      getNextRunTime zone month_start now cron
      = JsDate.setHours zone now (JsDate.getHours zone now + 1))
  /\ (~ In cron CronTable.literals ->
      getNextRunTime (JsDate.fixedZone tza) month_start now cron
      = now + 3600000)
  /\ (~ In cron CronTable.literals ->
      getNextRunTime JsDate.newYork month_start 1730611800000 cron
      = 1730611800000 + 2 * 3600000).
Proof.
  assert (Hiff : recognized cron = true <-> In cron CronTable.literals).
  { rewrite recognized_literals. rewrite existsb_exists. split.
    - intros (p & Hin & Heq). apply String.eqb_eq in Heq. subst p. exact Hin.
    - intros Hin. exists cron. split; [exact Hin | apply String.eqb_refl]. }
  assert (Hdefault : ~ In cron CronTable.literals -> recognized cron = false).
  { intros Hout. destruct (recognized cron) eqn:E; [|reflexivity].
    exfalso. apply Hout, Hiff. reflexivity. }
  split; [exact Hiff|]. split; [|split]; intros Hout.
  - apply getNextRunTime_default, Hdefault, Hout.
  - rewrite (getNextRunTime_default month_start _ _ _ (Hdefault Hout)).
    rewrite setHours_shift. lia.
  - rewrite (getNextRunTime_default month_start _ _ _ (Hdefault Hout)).
    vm_compute. reflexivity.
Qed.

Lemma setHours4_midnight (t : Z) :
  JsDate.setHours4 (JsDate.fixedZone tza) t 0 0 0 0
  = t - (t + tza) mod 86400000.
Proof.
  unfold JsDate.setHours4, JsDate.UTC, JsDate.MakeDate, JsDate.MakeTime,
    JsDate.LocalTime, JsDate.fixedZone, JsDate.Day, JsDate.msPerDay, JsDate.msPerHour,
    JsDate.msPerMinute, JsDate.msPerSecond.
  pose proof (Z.div_mod (t + tza) 86400000 ltac:(lia)). lia.
Qed.

Lemma getNextRunTime_at (z : JsDate.Zone) (now : Z) (cron : string) (k : nat) :
  nth_error CronTable.literals k = Some cron ->
  getNextRunTime z month_start now cron
  = nth k
      [JsDate.setMinutes z now (JsDate.getMinutes z now + 2);
       JsDate.setMinutes z now (JsDate.getMinutes z now + 2);
       JsDate.setMinutes z now (JsDate.getMinutes z now + 3);
       JsDate.setMinutes z now (JsDate.getMinutes z now + 3);
       JsDate.setMinutes z now (JsDate.getMinutes z now + 5);
       JsDate.setMinutes z now (JsDate.getMinutes z now + 5);
       JsDate.setMinutes z now (JsDate.getMinutes z now + 10);
       JsDate.setMinutes z now (JsDate.getMinutes z now + 10);
       JsDate.setMinutes z now (JsDate.getMinutes z now + 15);
       JsDate.setMinutes z now (JsDate.getMinutes z now + 15);
       JsDate.setMinutes z now (JsDate.getMinutes z now + 30);
       JsDate.setMinutes z now (JsDate.getMinutes z now + 30);
       JsDate.setHours z now (JsDate.getHours z now + 1);
       JsDate.setHours z now (JsDate.getHours z now + 6);
       JsDate.setHours z now (JsDate.getHours z now + 12);
       JsDate.setHours4 z
         (JsDate.setDate z month_start now
            (JsDate.getDate z month_start now + 1)) 0 0 0 0;
       JsDate.setHours4 z
         (JsDate.setDate z month_start now
            (JsDate.getDate z month_start now + (7 - JsDate.getDay z now)))
         0 0 0 0] 0.
Proof.
  intros Hk.
  do 17 (destruct k as [|k];
         [cbn in Hk; injection Hk as <-; unfold getNextRunTime; cbv zeta;
          rewrite !normalized_matches_nothing by (cbn; tauto); reflexivity|]).
  destruct k; discriminate Hk.
Qed.

(** X12. What the table gives, for every reading [now] of the clock: an
    every-[k]-minutes expression gives [now] plus [k] minutes and an
    every-[h]-hours expression [now] plus [h] hours, to the millisecond
    and whatever the phase of the clock; the daily expression gives the
    next local midnight, at most a day ahead; the weekly one gives a
    local midnight that begins a Sunday, at most seven days ahead. *)
Theorem next_run_of_the_table_entries (now : Z) :
  (forall k spaced packed,
      In (k, spaced, packed)
        [(2, "*/2 * * * *", "*/2*****"); (3, "*/3 * * * *", "*/3*****");
         (5, "*/5 * * * *", "*/5*****"); (10, "*/10 * * * *", "*/10*****");
         (15, "*/15 * * * *", "*/15*****"); (30, "*/30 * * * *", "*/30*****")] ->
      getNextRunTime (JsDate.fixedZone tza) month_start now spaced = now + k * 60000
      /\ getNextRunTime (JsDate.fixedZone tza) month_start now packed = now + k * 60000)
  /\ (forall h cron,
      In (h, cron) [(1, "0 */1 * * *"); (6, "0 */6 * * *"); (12, "0 */12 * * *")] ->
      getNextRunTime (JsDate.fixedZone tza) month_start now cron = now + h * 3600000)
  /\ (let next := getNextRunTime (JsDate.fixedZone tza) month_start now "0 0 * * *" in
      now < next <= now + 86400000
      /\ JsDate.TimeWithinDay (JsDate.LocalTime (JsDate.fixedZone tza) next) = 0)
  /\ (let next := getNextRunTime (JsDate.fixedZone tza) month_start now "0 0 * * 0" in
      now < next <= now + 7 * 86400000
      /\ JsDate.TimeWithinDay (JsDate.LocalTime (JsDate.fixedZone tza) next) = 0
      /\ JsDate.getDay (JsDate.fixedZone tza) next = 0).
Proof.
  split; [|split; [|split]].
  - intros k spaced packed Hin. cbn [In] in Hin.
    repeat match type of Hin with
           | _ \/ _ => destruct Hin as [Heq|Hin];
                       [inversion Heq; subst; clear Heq|]
           | False => contradiction
           end.
    + rewrite (getNextRunTime_at (JsDate.fixedZone tza) now _ 0),
        (getNextRunTime_at (JsDate.fixedZone tza) now _ 1) by reflexivity.
      cbn [nth]. rewrite setMinutes_shift. split; reflexivity.
    + rewrite (getNextRunTime_at (JsDate.fixedZone tza) now _ 2),
        (getNextRunTime_at (JsDate.fixedZone tza) now _ 3) by reflexivity.
      cbn [nth]. rewrite setMinutes_shift. split; reflexivity.
    + rewrite (getNextRunTime_at (JsDate.fixedZone tza) now _ 4),
        (getNextRunTime_at (JsDate.fixedZone tza) now _ 5) by reflexivity.
      cbn [nth]. rewrite setMinutes_shift. split; reflexivity.
    + rewrite (getNextRunTime_at (JsDate.fixedZone tza) now _ 6),
        (getNextRunTime_at (JsDate.fixedZone tza) now _ 7) by reflexivity.
      cbn [nth]. rewrite setMinutes_shift. split; reflexivity.
    + rewrite (getNextRunTime_at (JsDate.fixedZone tza) now _ 8),
        (getNextRunTime_at (JsDate.fixedZone tza) now _ 9) by reflexivity.
      cbn [nth]. rewrite setMinutes_shift. split; reflexivity.
    + rewrite (getNextRunTime_at (JsDate.fixedZone tza) now _ 10),
        (getNextRunTime_at (JsDate.fixedZone tza) now _ 11) by reflexivity.
      cbn [nth]. rewrite setMinutes_shift. split; reflexivity.
  - intros h cron Hin. cbn [In] in Hin.
    repeat match type of Hin with
           | _ \/ _ => destruct Hin as [Heq|Hin];
                       [inversion Heq; subst; clear Heq|]
           | False => contradiction
           end.
    + rewrite (getNextRunTime_at (JsDate.fixedZone tza) now _ 12) by reflexivity.
      cbn [nth]. apply setHours_shift.
    + rewrite (getNextRunTime_at (JsDate.fixedZone tza) now _ 13) by reflexivity.
      cbn [nth]. apply setHours_shift.
    + rewrite (getNextRunTime_at (JsDate.fixedZone tza) now _ 14) by reflexivity.
      cbn [nth]. apply setHours_shift.
  - intros next. subst next.
    rewrite (getNextRunTime_at (JsDate.fixedZone tza) now _ 15) by reflexivity.
    cbn [nth].
    rewrite setDate_shift, setHours4_midnight.
    unfold JsDate.TimeWithinDay, JsDate.LocalTime, JsDate.fixedZone, JsDate.msPerDay.
    replace (now + 1 * 86400000 + tza) with ((now + tza) + 1 * 86400000) by lia.
    rewrite Z.mod_add by lia.
    pose proof (Z.mod_pos_bound (now + tza) 86400000 ltac:(lia)) as Hb.
    split; [lia|].
    replace (now + 1 * 86400000 - (now + tza) mod 86400000 + tza)
      with ((now + tza) - (now + tza) mod 86400000 + 1 * 86400000) by lia.
    rewrite Z.mod_add by lia.
    pose proof (Z.div_mod (now + tza) 86400000 ltac:(lia)) as Hd.
    replace (now + tza - (now + tza) mod 86400000)
      with ((now + tza) / 86400000 * 86400000) by lia.
    apply Z.mod_mul. lia.
  - intros next. subst next.
    rewrite (getNextRunTime_at (JsDate.fixedZone tza) now _ 16) by reflexivity.
    cbn [nth].
    rewrite setDate_shift, setHours4_midnight.
    pose proof (getDay_range (JsDate.fixedZone tza) now) as Hday.
    set (n := 7 - JsDate.getDay (JsDate.fixedZone tza) now) in *.
    unfold JsDate.TimeWithinDay, JsDate.getDay, JsDate.WeekDay, JsDate.Day,
      JsDate.LocalTime, JsDate.fixedZone, JsDate.msPerDay in *.
    replace (now + n * 86400000 + tza) with ((now + tza) + n * 86400000) by lia.
    rewrite Z.mod_add by lia.
    pose proof (Z.mod_pos_bound (now + tza) 86400000 ltac:(lia)) as Hb.
    pose proof (Z.div_mod (now + tza) 86400000 ltac:(lia)) as Hd.
    set (l := now + tza) in *.
    replace (now + n * 86400000 - l mod 86400000 + tza)
      with ((l / 86400000 + n) * 86400000) by lia.
    rewrite Z.mod_mul, Z.div_mul by lia.
    split; [lia|]. split; [reflexivity|].
    subst n.
    pose proof (Z.div_mod (l / 86400000 + 4) 7 ltac:(lia)) as Hw.
    replace (l / 86400000 + (7 - (l / 86400000 + 4) mod 7) + 4)
      with (((l / 86400000 + 4) / 7 + 1) * 7) by lia.
    apply Z.mod_mul. lia.
Qed.

End CronFacts.

(** The every-two-minutes entry with a space after it is not an entry. *)
Lemma only_table_literals_select_a_branch_witness :
  SchedulerService.getNextRunTime (JsDate.fixedZone 19800000) (fun d => d)
    1700000000000 "*/2 * * * * "
  = 1700000000000 + 3600000.
Proof.
  destruct (only_table_literals_select_a_branch JsDate.newYork 19800000
              (fun d => d) 1700000000000 "*/2 * * * * ") as (_ & _ & H & _).
  apply H.
  unfold CronTable.literals. cbn [In]. intros Hin.
  repeat match type of Hin with
         | _ \/ _ => destruct Hin as [Hin|Hin]; [discriminate Hin|]
         end.
  exact Hin.
Defined.

Lemma next_run_of_the_table_entries_witness :
  SchedulerService.getNextRunTime (JsDate.fixedZone 19800000) (fun d => d)
    1700000000000 "*/15 * * * *"
  = 1700000000000 + 15 * 60000.
Proof.
  destruct (next_run_of_the_table_entries 19800000 (fun d => d) 1700000000000)
    as (Hminutes & _).
  destruct (Hminutes 15 "*/15 * * * *" "*/15*****") as [H _];
    [cbn [In]; tauto | exact H].
Defined.

Section QuotaFacts.

Import Db.

Variable zone : JsDate.Zone.
Variable tza : Z.

Lemma getStats_snoc (now : Z) (reader : option string) (ads : list Ad) (a : Ad) :
  getStats zone now reader (ads ++ [a])%list
  = getStats zone now reader ads
    + (if (JsDate.setHours4 zone now 0 0 0 0 <=? scrape_date a)
          && match reader with
             | None => true
             | Some u => match userId a with
                         | Some v => String.eqb v u
                         | None => false
                         end
             end
       then 1 else 0).
Proof.
  unfold getStats. cbv zeta. rewrite List.filter_app, length_app. cbn [List.filter].
  destruct (_ && _); cbn [List.length]; lia.
Qed.

Lemma startOfDay_le (now : Z) :
  JsDate.setHours4 (JsDate.fixedZone tza) now 0 0 0 0 <= now.
Proof.
  unfold JsDate.setHours4, JsDate.UTC, JsDate.MakeDate, JsDate.MakeTime,
    JsDate.LocalTime, JsDate.fixedZone, JsDate.Day, JsDate.msPerDay, JsDate.msPerHour,
    JsDate.msPerMinute, JsDate.msPerSecond.
  pose proof (Z.div_mod (now + tza) 86400000 ltac:(lia)).
  pose proof (Z.mod_pos_bound (now + tza) 86400000 ltac:(lia)). lia.
Qed.

(** X13. The daily count the quota check reads follows the saves: a
    call of [saveAd] that returns [false] changes nobody's count; one
    that returns [true] for a record dated since the local midnight of
    the reading adds exactly one to the count of the record's owner and
    to the count over all owners, and leaves the count of every other
    user as it was; a record dated before that midnight is counted for
    nobody. Where the clocks are never changed, the reading's own
    instant is never before its midnight. *)
Theorem daily_count_follows_the_saves (fault : Fault) (t now : Z)
    (adv desc kw : string) (ph addr : option string) (sd : option Z)
    (writer : string) (ads : list Ad) :
  let r := saveAd fault t adv desc kw ph addr sd (Some writer) ads in
  let midnight := JsDate.setHours4 zone now 0 0 0 0 in
  (returned r = false ->
   forall reader, getStats zone now reader (ads_after r) = getStats zone now reader ads)
  /\ (returned r = true -> midnight <= t ->
      getStats zone now (Some writer) (ads_after r)
      = getStats zone now (Some writer) ads + 1
      /\ getStats zone now None (ads_after r) = getStats zone now None ads + 1
      /\ forall other, other <> writer ->
           getStats zone now (Some other) (ads_after r)
           = getStats zone now (Some other) ads)
  /\ (returned r = true -> t < midnight ->
      forall reader, getStats zone now reader (ads_after r) = getStats zone now reader ads)
  /\ JsDate.setHours4 (JsDate.fixedZone tza) now 0 0 0 0 <= now.
Proof.
  intros r midnight. subst r midnight.
  split; [|split; [|split]].
  - intros Hr reader. rewrite (saveAd_false _ _ _ _ _ _ _ _ _ _ Hr). reflexivity.
  - intros Hr Ht. apply saveAd_true in Hr as [_ ->].
    rewrite !getStats_snoc. cbn [scrape_date userId].
    apply Z.leb_le in Ht. rewrite Ht, String.eqb_refl. cbn [andb].
    split; [reflexivity|]. split; [reflexivity|].
    intros other Hne. rewrite getStats_snoc. cbn [scrape_date userId].
    apply not_eq_sym in Hne. apply String.eqb_neq in Hne. rewrite Hne, andb_false_r. lia.
  - intros Hr Ht reader. apply saveAd_true in Hr as [_ ->].
    rewrite getStats_snoc. cbn [scrape_date].
    apply Z.leb_gt in Ht. rewrite Ht. cbn [andb]. lia.
  - apply startOfDay_le.
Qed.

End QuotaFacts.

Lemma daily_count_follows_the_saves_witness :
  Db.getStats (JsDate.fixedZone 19800000) 2000 (Some "u1")
    (Db.ads_after (Db.saveAd Db.NoFault 2000 "Bolt" "Fast delivery" "shoes"
                     None None None (Some "u1") [Scenarios.acmeAd]))
  = Db.getStats (JsDate.fixedZone 19800000) 2000 (Some "u1")
      [Scenarios.acmeAd] + 1.
Proof.
  pose proof (daily_count_follows_the_saves (JsDate.fixedZone 19800000)
                19800000 Db.NoFault 2000 2000
                "Bolt" "Fast delivery" "shoes" None None None "u1"
                [Scenarios.acmeAd]) as H.
  cbv zeta in H. destruct H as (_ & Hsaved & _).
  destruct Hsaved as (Hown & _); [reflexivity | vm_compute; discriminate | exact Hown].
Defined.

Section ScrapeRequestFacts.

Import Db.

(** X14. What [POST /api/scrape] lets through: a request is refused
    exactly when the keyword is empty or a limit, after the defaults
    (1000 and 5000 for an absent or zero limit), exceeds ten million,
    and a refused request changes nothing. An accepted one stores a
    running mission of the requester under the new id, with zero
    counters and limits that are not zero and at most ten million,
    registers its worker, and touches no other mission: a scrape of the
    same user that is already running stays registered. *)
Theorem scrape_request_is_checked_then_registered
    (now : Z) (newId : string) (pid : Z) (kw : string)
    (maxAds dailyQuota : option Z) (user : string) (st : Server.State) :
  let r := Server.startScrape now newId pid kw maxAds dailyQuota user st in
  let refused :=
    String.eqb kw "" || (10000000 <? Server.orDefault maxAds 1000)
    || (10000000 <? Server.orDefault dailyQuota 5000) in
  Server.is_error (fst (fst r)) = refused
  /\ (refused = true -> snd (fst r) = st /\ snd r = None)
  /\ (refused = false ->
      (exists m,
          Server.missions (snd (fst r)) !! newId = Some m
          /\ m_userId m = Some user /\ m_keyword m = kw /\ status m = running
          /\ newAds m = 0 /\ adsFound m = 0 /\ duplicatesSkipped m = 0
          /\ maxAdsPerRequest m <> 0 /\ maxAdsPerRequest m <= 10000000
          /\ dailyLimit m <> 0 /\ dailyLimit m <= 10000000
          /\ (forall v, maxAds = Some v -> v <> 0 -> maxAdsPerRequest m = v)
          /\ exists info,
               Server.activeFacebookScrapers (snd (fst r)) !! newId = Some info
               /\ Server.process info = pid /\ Server.mission info = m)
      /\ (forall other : string, other <> newId ->
            Server.missions (snd (fst r)) !! other = Server.missions st !! other
            /\ Server.activeFacebookScrapers (snd (fst r)) !! other
               = Server.activeFacebookScrapers st !! other)
      /\ Server.signalled (snd (fst r)) = Server.signalled st).
Proof.
  intros r refused. subst r refused. unfold Server.startScrape. cbv zeta.
  destruct (String.eqb kw "") eqn:Ekw; cbn [orb].
  { split; [reflexivity|]. split; [intros _; split; reflexivity|].
    intros H; discriminate H. }
  destruct (10000000 <? Server.orDefault maxAds 1000) eqn:Emax; cbn [orb].
  { split; [reflexivity|]. split; [intros _; split; reflexivity|].
    intros H; discriminate H. }
  destruct (10000000 <? Server.orDefault dailyQuota 5000) eqn:Eday.
  { split; [reflexivity|]. split; [intros _; split; reflexivity|].
    intros H; discriminate H. }
  cbn [fst snd Server.is_error Z.leb Z.compare Pos.compare Pos.compare_cont
       Server.missions Server.activeFacebookScrapers Server.signalled].
  apply Z.ltb_ge in Emax, Eday.
  assert (Hmax : Server.orDefault maxAds 1000 <> 0).
  { unfold Server.orDefault. destruct maxAds as [v|]; [|lia].
    destruct (v =? 0) eqn:E; [lia | apply Z.eqb_neq in E; exact E]. }
  assert (Hday : Server.orDefault dailyQuota 5000 <> 0).
  { unfold Server.orDefault. destruct dailyQuota as [v|]; [|lia].
    destruct (v =? 0) eqn:E; [lia | apply Z.eqb_neq in E; exact E]. }
  split; [reflexivity|]. split; [intros H; discriminate H|]. intros _.
  split; [|split].
  - eexists. rewrite lookup_insert_eq. split; [reflexivity|]. cbn.
    repeat match goal with |- _ /\ _ => split end;
      try reflexivity; try assumption.
    + intros v -> Hv. apply Z.eqb_neq in Hv. cbn. rewrite Hv. reflexivity.
    + eexists. rewrite lookup_insert_eq. split; [reflexivity|]. split; reflexivity.
  - intros other Hne. rewrite !lookup_insert_ne by congruence. split; reflexivity.
  - reflexivity.
Qed.

End ScrapeRequestFacts.

(** A request with a zero cap while another scrape is running. *)
Lemma scrape_request_is_checked_then_registered_witness :
  exists m,
    Server.missions
      (snd (fst (Server.startScrape 1500 "m2" 4343 "boots" (Some 0) None "u2"
                   Scenarios.started))) !! "m2" = Some m
    /\ Db.maxAdsPerRequest m <> 0.
Proof.
  pose proof (scrape_request_is_checked_then_registered 1500 "m2" 4343 "boots"
                (Some 0) None "u2" Scenarios.started) as H.
  cbv zeta in H. destruct H as (_ & _ & Hok).
  destruct Hok as ((m & Hm & _ & _ & _ & _ & _ & _ & Hmax & _) & _);
    [reflexivity|].
  exists m. split; [exact Hm | exact Hmax].
Defined.
Section AccountFacts.

Import Accounts.

Variable toLowerCase : string -> string.
Variable bcrypt_hash : string -> string -> string.
Variable bcrypt_compare : string -> string -> bool.

(** On a text of letters, digits, underscores and hyphens
    [toLowerCase] turns the capital letters into small ones. *)
Hypothesis toLowerCase_names :
  forall s, all_chars is_name_char s = true ->
            toLowerCase s = Js.toLowerCaseASCII s.

Lemma name_char_plain (c : ascii) :
  is_name_char c = true ->
  Js.is_space1 (Js.byte c) = false /\ (Js.byte c < 128)%nat
  /\ Js.codeUnits c = 1%nat.
Proof.
  destruct c as [[] [] [] [] [] [] [] []]; intros H; try discriminate H;
    (split; [reflexivity|]); (split; [vm_compute; lia | reflexivity]).
Qed.

Lemma is_space2_first (x y : nat) : Js.is_space2 x y = true -> (128 <= x)%nat.
Proof.
  unfold Js.is_space2. rewrite andb_true_iff, !Nat.eqb_eq. lia.
Qed.

Lemma is_space2_last (x y : nat) : Js.is_space2 x y = true -> (128 <= y)%nat.
Proof.
  unfold Js.is_space2. rewrite andb_true_iff, !Nat.eqb_eq. lia.
Qed.

Lemma is_space3_first (x y z : nat) :
  Js.is_space3 x y z = true -> (128 <= x)%nat.
Proof.
  unfold Js.is_space3.
  rewrite !orb_true_iff, !andb_true_iff, !orb_true_iff, !andb_true_iff,
    !Nat.eqb_eq, !Nat.leb_le. lia.
Qed.

Lemma is_space3_last (x y z : nat) :
  Js.is_space3 x y z = true -> (128 <= z)%nat.
Proof.
  unfold Js.is_space3.
  rewrite !orb_true_iff, !andb_true_iff, !orb_true_iff, !andb_true_iff,
    !Nat.eqb_eq, !Nat.leb_le. lia.
Qed.

(** A text that begins with a plain character has nothing to trim at
    its start. *)
Lemma trimStart_plain (c : ascii) (rest : string) :
  Js.is_space1 (Js.byte c) = false -> (Js.byte c < 128)%nat ->
  Js.trimStart (String c rest) = String c rest.
Proof.
  intros H1 Hc. cbn [Js.trimStart]. rewrite H1.
  destruct rest as [|b r2]; [reflexivity|].
  destruct (Js.is_space2 (Js.byte c) (Js.byte b)) eqn:E2;
    [apply is_space2_first in E2; lia|].
  destruct r2 as [|d r3]; [reflexivity|].
  destruct (Js.is_space3 (Js.byte c) (Js.byte b) (Js.byte d)) eqn:E3;
    [apply is_space3_first in E3; lia|].
  reflexivity.
Qed.

Lemma dropSpacesRev_plain (c : ascii) (r : list ascii) :
  Js.is_space1 (Js.byte c) = false -> (Js.byte c < 128)%nat ->
  Js.dropSpacesRev (c :: r) = c :: r.
Proof.
  intros H1 Hc. cbn [Js.dropSpacesRev]. rewrite H1.
  destruct r as [|b r2]; [reflexivity|].
  destruct (Js.is_space2 (Js.byte b) (Js.byte c)) eqn:E2;
    [apply is_space2_last in E2; lia|].
  destruct r2 as [|a r3]; [reflexivity|].
  destruct (Js.is_space3 (Js.byte a) (Js.byte b) (Js.byte c)) eqn:E3;
    [apply is_space3_last in E3; lia|].
  reflexivity.
Qed.

Lemma all_chars_forallb (p : ascii -> bool) (s : string) :
  all_chars p s = forallb p (list_ascii_of_string s).
Proof.
  induction s as [|c rest IH]; [reflexivity|]. cbn. rewrite IH. reflexivity.
Qed.

(** A text of name characters is left as it is by [trim]. *)
Lemma trim_name (s : string) :
  all_chars is_name_char s = true -> Js.trim s = s.
Proof.
  intros Hs. unfold Js.trim.
  assert (Hstart : Js.trimStart s = s).
  { destruct s as [|c rest]; [reflexivity|].
    cbn [all_chars] in Hs. apply andb_true_iff in Hs as [Hc _].
    destruct (name_char_plain c Hc) as (H1 & Hlt & _).
    apply trimStart_plain; assumption. }
  rewrite Hstart. unfold Js.trimEnd.
  rewrite all_chars_forallb in Hs.
  assert (Hrev : forallb is_name_char (List.rev (list_ascii_of_string s)) = true).
  { apply forallb_forall. intros c Hc. apply in_rev in Hc.
    exact (proj1 (forallb_forall _ _) Hs c Hc). }
  pose proof (rev_involutive (list_ascii_of_string s)) as Hinv.
  destruct (List.rev (list_ascii_of_string s)) as [|c r] eqn:Er.
  - cbn [Js.dropSpacesRev]. rewrite Hinv.
    apply string_of_list_ascii_of_string.
  - cbn [forallb] in Hrev. apply andb_true_iff in Hrev as [Hc _].
    destruct (name_char_plain c Hc) as (H1 & Hlt & _).
    rewrite (dropSpacesRev_plain c r H1 Hlt), Hinv.
    apply string_of_list_ascii_of_string.
Qed.

Lemma stored_chars_of_name (s : string) :
  all_chars is_name_char s = true ->
  all_chars is_stored_char (Js.toLowerCaseASCII s) = true.
Proof.
  induction s as [|c rest IH]; [reflexivity|].
  cbn [all_chars Js.toLowerCaseASCII]. intros H.
  apply andb_true_iff in H as [Hc Hr].
  rewrite (IH Hr), andb_true_r.
  destruct c as [[] [] [] [] [] [] [] []]; try discriminate Hc; reflexivity.
Qed.

Lemma stored_chars_are_names (s : string) :
  all_chars is_stored_char s = true ->
  all_chars is_name_char s = true /\ Js.toLowerCaseASCII s = s.
Proof.
  induction s as [|c rest IH]; [split; reflexivity|].
  cbn [all_chars Js.toLowerCaseASCII]. intros H.
  apply andb_true_iff in H as [Hc Hr].
  destruct (IH Hr) as [Hn Hl]. rewrite Hn, Hl, andb_true_r.
  destruct c as [[] [] [] [] [] [] [] []]; try discriminate Hc;
    split; reflexivity.
Qed.

Lemma name_length (s : string) :
  all_chars is_name_char s = true -> Js.length s = String.length s.
Proof.
  induction s as [|c rest IH]; [reflexivity|].
  cbn [all_chars Js.length String.length]. intros H.
  apply andb_true_iff in H as [Hc Hr].
  destruct (name_char_plain c Hc) as (_ & _ & ->). rewrite (IH Hr). reflexivity.
Qed.

Lemma toLowerCaseASCII_length (s : string) :
  String.length (Js.toLowerCaseASCII s) = String.length s.
Proof. induction s as [|c rest IH]; [reflexivity|]. cbn. rewrite IH. reflexivity. Qed.

(** The normalized form of a name that passes the test of the route,
    and what the setters of the schema make of it: the same. *)
Lemma normalize_name (u : string) :
  all_chars is_name_char (Js.trim u) = true ->
  normalize toLowerCase u = Js.toLowerCaseASCII (Js.trim u)
  /\ setUsername toLowerCase (normalize toLowerCase u) = normalize toLowerCase u
  /\ all_chars is_stored_char (normalize toLowerCase u) = true.
Proof.
  intros Hu. unfold normalize, setUsername.
  rewrite (toLowerCase_names _ Hu).
  pose proof (stored_chars_of_name _ Hu) as Hstored.
  destruct (stored_chars_are_names _ Hstored) as [Hname Hfixed].
  rewrite (trim_name _ Hname), (toLowerCase_names _ Hname), Hfixed.
  split; [reflexivity|]. split; [reflexivity | exact Hstored].
Qed.

Lemma find_snoc {A} (f : A -> bool) (l : list A) (a : A) :
  List.find f (l ++ [a])%list
  = match List.find f l with
    | Some x => Some x
    | None => if f a then Some a else None
    end.
Proof.
  induction l as [|x l IH]; [reflexivity|].
  cbn. destruct (f x); [reflexivity | exact IH].
Qed.

Lemma registerUser_cases (store_ok : bool) (salt u p : string) (users : list User) :
  all_chars is_name_char (Js.trim u) = true ->
  let r := registerUser toLowerCase bcrypt_hash store_ok salt u p users in
  match fst r with
  | Some (inr name) =>
      store_ok = true /\ findOne (normalize toLowerCase u) users = None
      /\ name = normalize toLowerCase u
      /\ snd r = (users ++ [mkUser (normalize toLowerCase u)
                              (bcrypt_hash salt p)])%list
  | Some (inl message) =>
      message = "USERNAME_TAKEN" /\ snd r = users
      /\ exists user, findOne (normalize toLowerCase u) users = Some user
  | None => store_ok = false /\ snd r = users
  end.
Proof.
  intros Hu. unfold registerUser. destruct store_ok; [|cbn; auto].
  cbv zeta. destruct (findOne (normalize toLowerCase u) users) as [user|] eqn:Ef; cbn.
  - repeat split. eauto.
  - destruct (normalize_name u Hu) as (_ & -> & _). repeat split.
Qed.

Lemma is_name_chars (s : string) :
  is_name s = true -> all_chars is_name_char s = true /\ s <> "".
Proof.
  unfold is_name. destruct s; [intros H; discriminate H|].
  intros H. split; [exact H | discriminate].
Qed.

Lemma isEmpty_false (s : string) : s <> "" -> Js.isEmpty s = false.
Proof. destruct s; [contradiction | reflexivity]. Qed.

Lemma length_nonempty (s : string) : (1 <= Js.length s)%nat -> s <> "".
Proof. intros H ->. cbn in H. lia. Qed.

Lemma findOne_None_fresh (name : string) (users : list User) :
  findOne name users = None -> name ∉ List.map username users.
Proof.
  unfold findOne. induction users as [|x users IH]; cbn.
  - intros _ H. inversion H.
  - destruct (String.eqb (username x) name) eqn:E; [discriminate|].
    intros Hnone Hin. apply String.eqb_neq in E.
    inversion Hin; subst; [congruence|]. exact (IH Hnone ltac:(assumption)).
Qed.

Lemma findOne_In (name : string) (users : list User) (existing : User) :
  In existing users -> username existing = name ->
  exists user, findOne name users = Some user.
Proof.
  unfold findOne. intros Hin Hname.
  destruct (List.find _ users) as [user|] eqn:Ef; [eauto|].
  exfalso. apply (List.find_none _ _ Ef) in Hin.
  rewrite Hname, String.eqb_refl in Hin. discriminate Hin.
Qed.

Hypothesis compare_hash :
  forall salt password, bcrypt_compare password (bcrypt_hash salt password) = true.

(** X15. A registration that is accepted stores one new account under
    the trimmed, lower-cased name, which is the user id the answer
    carries: at least two characters, all of them small letters, digits,
    underscores or hyphens. From then on a login with the same password
    and any spelling of the name that differs only in case or in
    surrounding white space is accepted and answers with that same user
    id, and a login with a password the hash does not match is refused
    with 401. *)
Theorem registered_user_can_log_in (store_ok : bool) (salt u p : string)
    (users users' : list User) (name : string) :
  register toLowerCase bcrypt_hash store_ok salt (Some u) (Some p) users
  = (Ok name, users') ->
  name = normalize toLowerCase u
  /\ name = Js.toLowerCaseASCII (Js.trim u)
  /\ (2 <= String.length name)%nat /\ (2 <= Js.length name)%nat
  /\ all_chars is_stored_char name = true
  /\ users' = (users ++ [mkUser name (bcrypt_hash salt p)])%list
  /\ (forall u', normalize toLowerCase u' = normalize toLowerCase u ->
        login toLowerCase bcrypt_compare (Some u') (Some p) users' = Ok name)
  /\ (forall q, q <> "" -> bcrypt_compare q (bcrypt_hash salt p) = false ->
        login toLowerCase bcrypt_compare (Some u) (Some q) users'
        = Refused 401 "Invalid username or password").
Proof.
  unfold register.
  destruct (Js.length (Js.trim u) <? 2)%nat eqn:Elen; [discriminate|].
  destruct (Js.length p <? 6)%nat eqn:Epass; [discriminate|].
  destruct (is_name (Js.trim u)) eqn:Ename; [|discriminate]. cbn [negb].
  destruct (is_name_chars _ Ename) as [Hchars Hne].
  destruct (normalize_name u Hchars) as (Hnorm & _ & Hstored).
  pose proof (registerUser_cases store_ok salt u p users Hchars) as Hcases.
  cbv zeta in Hcases.
  destruct (registerUser toLowerCase bcrypt_hash store_ok salt u p users)
    as [[[message|stored]|] after];
    cbn [fst snd] in Hcases; try discriminate.
  intros Heq. inversion Heq; subst stored after. clear Heq.
  destruct Hcases as (_ & Hfresh & Hname & Husers).
  apply Nat.ltb_ge in Elen, Epass.
  assert (Hlen : String.length (normalize toLowerCase u)
                 = Js.length (Js.trim u)).
  { rewrite Hnorm, toLowerCaseASCII_length. symmetry. apply name_length.
    exact Hchars. }
  assert (Hfound : forall u', normalize toLowerCase u' = normalize toLowerCase u ->
            findOne (normalize toLowerCase u') users'
            = Some (mkUser (normalize toLowerCase u) (bcrypt_hash salt p))).
  { intros u' Hu'. rewrite Hu', Husers. unfold findOne. rewrite find_snoc.
    unfold findOne in Hfresh. rewrite Hfresh. cbn [username].
    rewrite String.eqb_refl. reflexivity. }
  assert (Hnonempty : String.eqb (normalize toLowerCase u) "" = false).
  { apply String.eqb_neq. intros Hz. rewrite Hz in Hlen. cbn in Hlen. lia. }
  assert (Hp : Js.isEmpty p = false)
    by (apply isEmpty_false, length_nonempty; lia).
  split; [exact Hname|]. split; [rewrite Hname; exact Hnorm|].
  split; [rewrite Hname; lia|].
  split.
  { rewrite Hname.
    destruct (stored_chars_are_names _ Hstored) as [Hn _].
    rewrite (name_length _ Hn). lia. }
  split; [rewrite Hname; exact Hstored|].
  split; [rewrite Hname; exact Husers|].
  split.
  - intros u' Hu'. unfold login.
    assert (Hu'ne : Js.isEmpty (Js.trim u') = false).
    { apply isEmpty_false. intros Hz. unfold normalize in Hu' at 1.
      rewrite Hz, (toLowerCase_names "" eq_refl) in Hu'. cbn in Hu'.
      rewrite <- Hu' in Hnonempty. discriminate Hnonempty. }
    rewrite Hu'ne, Hp.
    unfold verifyUser. cbv zeta. rewrite (Hfound u' Hu').
    cbn [passwordHash username]. rewrite compare_hash, Hnonempty, Hname.
    reflexivity.
  - intros q Hq Hwrong. unfold login.
    rewrite (isEmpty_false _ Hne), (isEmpty_false _ Hq).
    unfold verifyUser. cbv zeta. rewrite (Hfound u eq_refl).
    cbn [passwordHash]. rewrite Hwrong. reflexivity.
Qed.

(** X16. Registrations keep the stored names pairwise distinct. A name
    that is taken, in whatever case and with whatever white space
    around it, is never accepted again, and when the request passes the
    checks of its fields and the store works the answer is 409; every
    refusal leaves the accounts as they were; and an accepted
    registration of somebody else changes no login that was accepted
    before. *)
Theorem usernames_stay_unique (store_ok : bool) (salt : string)
    (username password : option string) (users : list User) :
  let r := register toLowerCase bcrypt_hash store_ok salt username password
             users in
  (NoDup (List.map Accounts.username users) ->
   NoDup (List.map Accounts.username (snd r)))
  /\ (forall c m, fst r = Refused c m -> snd r = users)
  /\ (forall u existing,
        username = Some u -> In existing users ->
        Accounts.username existing = normalize toLowerCase u ->
        exists c m,
          fst r = Refused c m
          /\ (forall p, password = Some p -> store_ok = true ->
               (2 <= Js.length (Js.trim u))%nat ->
               (6 <= Js.length p)%nat ->
               is_name (Js.trim u) = true -> c = 409))
  /\ (forall u0 p0 n,
        login toLowerCase bcrypt_compare u0 p0 users = Ok n ->
        login toLowerCase bcrypt_compare u0 p0 (snd r) = Ok n).
Proof.
  intros r. subst r.
  assert (Htaken : forall u existing,
             username = Some u -> In existing users ->
             Accounts.username existing = normalize toLowerCase u ->
             exists c m,
               fst (register toLowerCase bcrypt_hash store_ok salt username
                      password users)
               = Refused c m
               /\ (forall p, password = Some p -> store_ok = true ->
                    (2 <= Js.length (Js.trim u))%nat ->
                    (6 <= Js.length p)%nat ->
                    is_name (Js.trim u) = true -> c = 409)).
  { intros u existing -> Hin Hex.
    destruct (findOne_In _ _ _ Hin Hex) as [user Hfound].
    unfold register, registerUser. cbv zeta. rewrite Hfound.
    destruct (Js.length (Js.trim u) <? 2)%nat eqn:Elen.
    { eexists _, _. split; [reflexivity|]. intros p _ _ H2 _ _.
      apply Nat.ltb_lt in Elen. lia. }
    destruct password as [p|].
    2:{ eexists _, _. split; [reflexivity|]. intros p Hp. discriminate Hp. }
    destruct (Js.length p <? 6)%nat eqn:Epass.
    { eexists _, _. split; [reflexivity|]. intros p' Hp _ _ H6 _.
      injection Hp as <-. apply Nat.ltb_lt in Epass. lia. }
    destruct (is_name (Js.trim u)) eqn:Ename; cbn [negb].
    2:{ eexists _, _. split; [reflexivity|]. intros p' _ _ _ _ H. discriminate H. }
    destruct store_ok.
    - eexists _, _. split; [reflexivity|]. intros; reflexivity.
    - eexists _, _. split; [reflexivity|]. intros p' _ H. discriminate H. }
  unfold register in *.
  assert (Hsame : forall (o : Outcome),
             (NoDup (List.map Accounts.username users) ->
              NoDup (List.map Accounts.username (snd (o, users))))
             /\ (forall c m, fst (o, users) = Refused c m -> snd (o, users) = users)
             /\ (forall u0 p0 n,
                   login toLowerCase bcrypt_compare u0 p0 users = Ok n ->
                   login toLowerCase bcrypt_compare u0 p0 (snd (o, users)) = Ok n)).
  { intros o. cbn. auto. }
  destruct username as [u|].
  2:{ destruct (Hsame (Refused 400 "Username must be at least 2 characters"))
        as (H1 & H2 & H3).
      split; [exact H1|]. split; [exact H2|]. split; [exact Htaken | exact H3]. }
  destruct (Js.length (Js.trim u) <? 2)%nat.
  { destruct (Hsame (Refused 400 "Username must be at least 2 characters"))
      as (H1 & H2 & H3).
    split; [exact H1|]. split; [exact H2|]. split; [exact Htaken | exact H3]. }
  destruct password as [p|].
  2:{ destruct (Hsame (Refused 400 "Password must be at least 6 characters"))
        as (H1 & H2 & H3).
      split; [exact H1|]. split; [exact H2|]. split; [exact Htaken | exact H3]. }
  destruct (Js.length p <? 6)%nat.
  { destruct (Hsame (Refused 400 "Password must be at least 6 characters"))
      as (H1 & H2 & H3).
    split; [exact H1|]. split; [exact H2|]. split; [exact Htaken | exact H3]. }
  destruct (is_name (Js.trim u)) eqn:Ename; cbn [negb].
  2:{ destruct (Hsame (Refused 400
                       "Username can only contain letters, numbers, hyphens, and underscores"))
      as (H1 & H2 & H3).
    split; [exact H1|]. split; [exact H2|]. split; [exact Htaken | exact H3]. }
  destruct (is_name_chars _ Ename) as [Hchars _].
  pose proof (registerUser_cases store_ok salt u p users Hchars) as Hcases.
  cbv zeta in Hcases.
  destruct (registerUser toLowerCase bcrypt_hash store_ok salt u p users)
    as [[[message|stored]|] after]; cbn [fst snd] in Hcases |- *.
  - destruct Hcases as (_ & -> & _).
    destruct (Hsame (Refused 409 "Username is already taken")) as (H1 & H2 & H3).
    split; [exact H1|]. split; [exact H2|]. split; [exact Htaken | exact H3].
  - destruct Hcases as (_ & Hfresh & Hname & ->).
    split; [|split; [|split]].
    + intros Hnd. rewrite map_app. cbn [List.map Accounts.username].
      apply NoDup_app. split; [exact Hnd|]. split; [|apply NoDup_singleton].
      intros x Hx Hx'. apply list_elem_of_singleton in Hx'. subst x.
      exact (findOne_None_fresh _ _ Hfresh Hx).
    + intros c m H. discriminate H.
    + exact Htaken.
    + intros u0 p0 n. unfold login.
      destruct u0 as [u0|]; [|intros H; exact H].
      destruct (Js.isEmpty (Js.trim u0)); [intros H; exact H|].
      destruct p0 as [p0|]; [|intros H; exact H].
      destruct (Js.isEmpty p0); [intros H; exact H|].
      unfold verifyUser. cbv zeta. unfold findOne. rewrite find_snoc.
      destruct (List.find _ users) as [user|]; [intros H; exact H|].
      intros H; discriminate H.
  - destruct Hcases as (_ & ->).
    destruct (Hsame (Refused 500 "Registration failed")) as (H1 & H2 & H3).
    split; [exact H1|]. split; [exact H2|]. split; [exact Htaken | exact H3].
Qed.

End AccountFacts.

(** A registration as [Alice_1] between a no-break space and a space,
    and the login as [alice_1]. *)
Lemma registered_user_can_log_in_witness :
  Accounts.login Js.toLowerCaseASCII Accounts.plainCompare (Some "alice_1")
    (Some "secret1") [Accounts.mkUser "alice_1" "secret1"]
  = Accounts.Ok "alice_1".
Proof.
  destruct (registered_user_can_log_in Js.toLowerCaseASCII Accounts.plainHash
              Accounts.plainCompare (fun _ _ => eq_refl)
              (fun _ password => String.eqb_refl password)
              true "salt" MoreScenarios.paddedName "secret1" []
              [Accounts.mkUser "alice_1" "secret1"] "alice_1")
    as (_ & _ & _ & _ & _ & _ & Hlogin & _); [reflexivity|].
  apply (Hlogin "alice_1"). reflexivity.
Defined.

(** The name is taken in another spelling. *)
Lemma usernames_stay_unique_witness :
  exists m,
    Accounts.register Js.toLowerCaseASCII Accounts.plainHash true "salt"
      (Some "ALICE_1 ") (Some "another") [Accounts.mkUser "alice_1" "secret1"]
    = (Accounts.Refused 409 m, [Accounts.mkUser "alice_1" "secret1"]).
Proof.
  pose proof (usernames_stay_unique Js.toLowerCaseASCII Accounts.plainHash
                Accounts.plainCompare (fun _ _ => eq_refl)
                true "salt" (Some "ALICE_1 ") (Some "another")
                [Accounts.mkUser "alice_1" "secret1"]) as H.
  cbv zeta in H. destruct H as (_ & Hkept & Htaken & _).
  destruct (Htaken "ALICE_1 " (Accounts.mkUser "alice_1" "secret1"))
    as (c & m & Hr & Hc); [reflexivity | left; reflexivity | reflexivity |].
  rewrite (Hc "another") in Hr;
    [|reflexivity | reflexivity | vm_compute; lia | vm_compute; lia | reflexivity].
  exists m.
  rewrite (surjective_pairing (Accounts.register _ _ _ _ _ _ _)).
  rewrite Hr, (Hkept _ _ Hr). reflexivity.
Defined.

Section AdminFacts.

Import Db SchedulerAdmin.

Variable zone : JsDate.Zone.
Variable month_start : Z -> Z.
Variable validate : string -> bool.

Lemma ownedBy_true (userId : string) (s : Scheduler) :
  ownedBy userId s = true <-> s_userId s = Some userId.
Proof.
  unfold ownedBy. destruct (s_userId s) as [v|]; split; intros H;
    try discriminate H.
  - apply String.eqb_eq in H. congruence.
  - injection H as ->. apply String.eqb_refl.
Qed.

Lemma sameKey_true (keyword userId : string) (s : Scheduler) :
  sameKey keyword userId s = true
  <-> s_keyword s = keyword /\ s_userId s = Some userId.
Proof.
  unfold sameKey. rewrite andb_true_iff, String.eqb_eq, ownedBy_true. tauto.
Qed.

Lemma findOne_Some (keyword userId : string) (m : gmap string Scheduler)
    (id : string) (s : Scheduler) :
  findOne keyword userId m = Some (id, s) ->
  m !! id = Some s /\ s_keyword s = keyword /\ s_userId s = Some userId.
Proof.
  unfold findOne. intros H. apply List.find_some in H as [Hin Hkey].
  apply list_elem_of_In, elem_of_map_to_list in Hin.
  apply sameKey_true in Hkey. tauto.
Qed.

Lemma findOne_None (keyword userId : string) (m : gmap string Scheduler) :
  findOne keyword userId m = None ->
  forall id s, m !! id = Some s -> s_userId s = Some userId ->
               s_keyword s <> keyword.
Proof.
  unfold findOne. intros H id s Hs Hown Hkw.
  apply elem_of_map_to_list, list_elem_of_In in Hs.
  pose proof (List.find_none _ _ H _ Hs) as Hf. cbn [snd] in Hf.
  assert (sameKey keyword userId s = true) by (apply sameKey_true; tauto).
  congruence.
Qed.

Lemma unique_keys_replace (m : gmap string Scheduler) (id : string)
    (s s' : Scheduler) :
  unique_keys m -> m !! id = Some s ->
  s_userId s' = s_userId s -> s_keyword s' = s_keyword s ->
  unique_keys (<[id := s']> m).
Proof.
  intros Hu Hs Hown Hkw id1 id2 s1 s2 owner H1 H2 Ho1 Ho2 Hk.
  destruct (decide (id1 = id)) as [->|Hn1]; destruct (decide (id2 = id)) as [->|Hn2];
    try reflexivity.
  - rewrite lookup_insert_eq in H1. rewrite lookup_insert_ne in H2 by congruence.
    injection H1 as <-.
    symmetry. apply (Hu id2 id s2 s owner); congruence.
  - rewrite lookup_insert_eq in H2. rewrite lookup_insert_ne in H1 by congruence.
    injection H2 as <-.
    apply (Hu id1 id s1 s owner); congruence.
  - rewrite lookup_insert_ne in H1, H2 by congruence.
    exact (Hu id1 id2 s1 s2 owner H1 H2 Ho1 Ho2 Hk).
Qed.

Lemma unique_keys_insert_fresh (m : gmap string Scheduler) (newId : string)
    (doc : Scheduler) (owner : string) :
  unique_keys m -> m !! newId = None -> s_userId doc = Some owner ->
  (forall id s, m !! id = Some s -> s_userId s = Some owner ->
                s_keyword s <> s_keyword doc) ->
  unique_keys (<[newId := doc]> m).
Proof.
  intros Hu Hfresh Hown Hnew id1 id2 s1 s2 o H1 H2 Ho1 Ho2 Hk.
  destruct (decide (id1 = newId)) as [->|Hn1];
    destruct (decide (id2 = newId)) as [->|Hn2]; try reflexivity.
  - rewrite lookup_insert_eq in H1. rewrite lookup_insert_ne in H2 by congruence.
    injection H1 as <-. exfalso.
    apply (Hnew id2 s2 H2); congruence.
  - rewrite lookup_insert_eq in H2. rewrite lookup_insert_ne in H1 by congruence.
    injection H2 as <-. exfalso.
    apply (Hnew id1 s1 H1); congruence.
  - rewrite lookup_insert_ne in H1, H2 by congruence.
    exact (Hu id1 id2 s1 s2 o H1 H2 Ho1 Ho2 Hk).
Qed.

Lemma unique_keys_setNextRun (m : gmap string Scheduler) (id : string) (n : Z) :
  unique_keys m -> unique_keys (alter (setNextRun n) id m).
Proof.
  intros Hu.
  destruct (m !! id) as [s|] eqn:Hs.
  - replace (alter (setNextRun n) id m) with (<[id := setNextRun n s]> m).
    + apply (unique_keys_replace m id s); auto.
    + apply map_eq. intros i. destruct (decide (i = id)) as [->|Hne].
      * rewrite lookup_insert_eq, lookup_alter_eq, Hs. reflexivity.
      * rewrite lookup_insert_ne, lookup_alter_ne by congruence. reflexivity.
  - replace (alter (setNextRun n) id m) with m; [exact Hu|].
    apply map_eq. intros i. destruct (decide (i = id)) as [->|Hne].
    + rewrite lookup_alter_eq, Hs. reflexivity.
    + rewrite lookup_alter_ne by congruence. reflexivity.
Qed.

(** What a call of [createJob] that returns leaves behind. *)
Lemma createJob_Some (now : Z) (_id keyword cron : string) (maxAds dailyQuota : Z)
    (sv sv' : Service) :
  createJob zone month_start validate now _id keyword cron maxAds dailyQuota sv
  = Some sv' ->
  validate cron = true
  /\ schedulers sv'
     = alter (setNextRun (SchedulerService.getNextRunTime zone month_start now cron))
         _id (schedulers sv)
  /\ jobs sv' !! _id = Some (mkJob keyword cron maxAds dailyQuota)
  /\ (forall other, other <> _id -> jobs sv' !! other = jobs sv !! other).
Proof.
  unfold createJob. destruct (validate cron); [|discriminate]. cbn [negb].
  intros H. injection H as <-. cbn [schedulers jobs].
  split; [reflexivity|]. split; [reflexivity|].
  split; [apply lookup_insert_eq|].
  intros other Hne. rewrite lookup_insert_ne by congruence.
  destruct (jobs sv !! _id); [apply lookup_delete_ne; congruence | reflexivity].
Qed.

Lemma createJob_valid (now : Z) (_id keyword cron : string) (maxAds dailyQuota : Z)
    (sv : Service) :
  validate cron = true ->
  exists sv',
    createJob zone month_start validate now _id keyword cron maxAds dailyQuota sv
    = Some sv'.
Proof. unfold createJob. intros ->. eauto. Qed.

(** X17. [POST /api/schedulers] keeps one schedule per owner and
    keyword, and every job of the table on a stored schedule. A request
    it accepts answers with the schedule of the requester for that
    keyword, active, with the expression of the request and a job of
    the same parameters: the existing schedule when there is one, whose
    run counters are kept, and a new one with zero counters otherwise;
    no other schedule or job is touched. A request it refuses is
    answered with 400 and changes nothing. *)
Theorem one_schedule_per_owner_and_keyword (t_doc t_job : Z) (newId : string)
    (keyword cron : option string) (maxAdsPerRequest dailyLimit : option Z)
    (userId : string) (sv : Service) :
  schedulers sv !! newId = None ->
  unique_keys (schedulers sv) ->
  jobs_are_stored sv ->
  let r := postScheduler zone month_start validate t_doc t_job newId keyword cron
             maxAdsPerRequest dailyLimit userId sv in
  unique_keys (schedulers (snd r))
  /\ jobs_are_stored (snd r)
  /\ (forall c m, fst r = Failed c m -> c = 400 /\ snd r = sv)
  /\ (forall id, fst r = Done id ->
      (exists s k c,
          keyword = Some k /\ cron = Some c /\ validate c = true
          /\ schedulers (snd r) !! id = Some s
          /\ s_userId s = Some userId /\ s_keyword s = k
          /\ cronExpression s = c /\ isActive s = true
          /\ s_maxAdsPerRequest s = Server.orDefault maxAdsPerRequest 100
          /\ s_dailyLimit s = Server.orDefault dailyLimit 1000
          /\ jobs (snd r) !! id
             = Some (mkJob k c (Server.orDefault maxAdsPerRequest 100)
                       (Server.orDefault dailyLimit 1000))
          /\ match schedulers sv !! id with
             | Some old =>
                 s_userId old = Some userId /\ s_keyword old = k
                 /\ totalRuns s = totalRuns old
                 /\ successfulRuns s = successfulRuns old
                 /\ failedRuns s = failedRuns old
                 /\ lastRun s = lastRun old
             | None =>
                 id = newId /\ totalRuns s = 0 /\ successfulRuns s = 0
                 /\ failedRuns s = 0 /\ lastRun s = None
             end)
      /\ forall other, other <> id ->
           schedulers (snd r) !! other = schedulers sv !! other
           /\ jobs (snd r) !! other = jobs sv !! other).
Proof.
  intros Hfresh Hu Hj r. subst r. unfold postScheduler.
  assert (Hrefuse : forall message (P : string -> Prop),
             unique_keys (schedulers (snd (Failed 400 message, sv)))
             /\ jobs_are_stored (snd (Failed 400 message, sv))
             /\ (forall c m, fst (Failed 400 message, sv) = Failed c m ->
                             c = 400 /\ snd (Failed 400 message, sv) = sv)
             /\ (forall id, fst (Failed 400 message, sv) = Done id -> P id)).
  { intros message P. cbn [fst snd]. split; [exact Hu|]. split; [exact Hj|].
    split; [intros c m H; injection H as <- _; auto|].
    intros id H. discriminate H. }
  destruct keyword as [k|]; [|apply (Hrefuse _ (fun id => _))].
  destruct cron as [c|];
    [|cbn [given_text andb negb]; rewrite andb_false_r;
      apply (Hrefuse _ (fun id => _))].
  destruct (negb (given_text (Some k) && given_text (Some c)));
    [apply (Hrefuse _ (fun id => _))|].
  destruct (validate c) eqn:Hvalid; cbn [negb];
    [|apply (Hrefuse _ (fun id => _))].
  clear Hrefuse.
  set (maxAds := Server.orDefault maxAdsPerRequest 100).
  set (quota := Server.orDefault dailyLimit 1000).
  unfold addScheduler.
  destruct (findOne k userId (schedulers sv)) as [[id existing]|] eqn:Hfind.
  - apply findOne_Some in Hfind as (Hs & Hk & Hown).
    cbv zeta. cbn [s_keyword cronExpression s_maxAdsPerRequest s_dailyLimit].
    match goal with
    | |- context [createJob _ _ _ ?n ?i ?kw ?cr ?ma ?dq ?sv1] =>
        destruct (createJob_valid n i kw cr ma dq sv1 Hvalid) as [sv2 Hjob];
          rewrite Hjob; apply createJob_Some in Hjob as (_ & Hsch & Hjid & Hjother)
    end.
    cbn [schedulers jobs] in Hsch, Hjother. cbn [fst snd].
    split; [|split; [|split; [|]]].
    + rewrite Hsch. apply unique_keys_setNextRun.
      apply (unique_keys_replace _ id existing); auto.
    + intros i job Hi. rewrite Hsch.
      destruct (decide (i = id)) as [->|Hne].
      * rewrite lookup_alter_eq, lookup_insert_eq. cbn. eauto.
      * rewrite lookup_alter_ne, lookup_insert_ne by congruence.
        rewrite Hjother in Hi by exact Hne. exact (Hj i job Hi).
    + intros c0 m H. discriminate H.
    + intros id' H. injection H as <-. split.
      * eexists _, k, c. split; [reflexivity|]. split; [reflexivity|].
        split; [exact Hvalid|]. rewrite Hsch, lookup_alter_eq, lookup_insert_eq.
        split; [reflexivity|]. cbn. rewrite Hs. rewrite Hk in Hjid.
        repeat match goal with |- _ /\ _ => split end;
          try reflexivity; try assumption.
      * intros other Hne. rewrite Hsch, lookup_alter_ne, lookup_insert_ne by congruence.
        split; [reflexivity | apply Hjother; exact Hne].
  - pose proof (findOne_None _ _ _ Hfind) as Hnone.
    cbv zeta.
    match goal with
    | |- context [createJob _ _ _ ?n ?i ?kw ?cr ?ma ?dq ?sv1] =>
        destruct (createJob_valid n i kw cr ma dq sv1 Hvalid) as [sv2 Hjob];
          rewrite Hjob; apply createJob_Some in Hjob as (_ & Hsch & Hjid & Hjother)
    end.
    cbn [schedulers jobs] in Hsch, Hjother. cbn [fst snd].
    split; [|split; [|split; [|]]].
    + rewrite Hsch. apply unique_keys_setNextRun.
      apply (unique_keys_insert_fresh _ _ _ userId); auto.
    + intros i job Hi. rewrite Hsch.
      destruct (decide (i = newId)) as [->|Hne].
      * rewrite lookup_alter_eq, lookup_insert_eq. cbn. eauto.
      * rewrite lookup_alter_ne, lookup_insert_ne by congruence.
        rewrite Hjother in Hi by exact Hne. exact (Hj i job Hi).
    + intros c0 m H. discriminate H.
    + intros id' H. injection H as <-. split.
      * eexists _, k, c. split; [reflexivity|]. split; [reflexivity|].
        split; [exact Hvalid|]. rewrite Hsch, lookup_alter_eq, lookup_insert_eq.
        split; [reflexivity|]. cbn. rewrite Hfresh.
        repeat match goal with |- _ /\ _ => split end;
          try reflexivity; try assumption.
      * intros other Hne. rewrite Hsch, lookup_alter_ne, lookup_insert_ne by congruence.
        split; [reflexivity | apply Hjother; exact Hne].
Qed.

Lemma stopJob_spec (id : string) (sv : Service) :
  schedulers (stopJob id sv) = schedulers sv
  /\ jobs (stopJob id sv) !! id = None
  /\ (forall other, other <> id -> jobs (stopJob id sv) !! other = jobs sv !! other).
Proof.
  unfold stopJob. destruct (jobs sv !! id) eqn:E; cbn [schedulers jobs].
  - split; [reflexivity|]. split; [apply lookup_delete_eq|].
    intros other Hne. apply lookup_delete_ne. congruence.
  - split; [reflexivity|]. split; [exact E|]. auto.
Qed.


Variable isObjectId : string -> bool.


(** X19. An update by the owner keeps one schedule per owner and
    keyword and every job on a stored schedule, whatever it changes and
    also when it ends in an error; owner, keyword and run counters of
    the schedule are never changed by it, and no other schedule or job
    is touched. Switching the schedule off is always accepted: the
    schedule is stored as inactive, its job is removed, and a tick that
    still fires launches no worker. *)
Theorem update_by_owner_keeps_the_books (now : Z) (id : string)
    (updates : Updates) (userId : string) (sv : Service) (s : Scheduler) :
  schedulers sv !! id = Some s ->
  s_userId s = Some userId ->
  let r := putScheduler zone month_start validate isObjectId now id updates
             userId sv in
  (unique_keys (schedulers sv) -> unique_keys (schedulers (snd r)))
  /\ (jobs_are_stored sv -> jobs_are_stored (snd r))
  /\ (exists s',
        schedulers (snd r) !! id = Some s'
        /\ s_userId s' = s_userId s /\ s_keyword s' = s_keyword s
        /\ totalRuns s' = totalRuns s /\ successfulRuns s' = successfulRuns s
        /\ failedRuns s' = failedRuns s /\ lastRun s' = lastRun s
        /\ isActive s' = pick (u_isActive updates) (isActive s)
        /\ cronExpression s' = pick (u_cronExpression updates) (cronExpression s))
  /\ (forall other, other <> id ->
        schedulers (snd r) !! other = schedulers sv !! other
        /\ jobs (snd r) !! other = jobs sv !! other)
  /\ (u_isActive updates = Some false ->
      fst r = Done id /\ jobs (snd r) !! id = None
      /\ forall keyword maxAds dailyQuota execId startedAt,
           SchedulerService.executeScrapingJob true id keyword maxAds
             dailyQuota execId startedAt (schedulers (snd r))
           = SchedulerService.NotRun).
Proof.
  intros Hs Hown r. subst r.
  unfold putScheduler, updateScheduler, findById. rewrite Hs.
  assert (Hob : ownedBy userId s = true) by (apply ownedBy_true; exact Hown).
  rewrite Hob. cbn [negb]. cbv zeta.
  set (updated := applyUpdates updates s).
  set (sv1 := mkService (<[id := updated]> (schedulers sv)) (jobs sv)
                (totalJobsCreated sv)).
  assert (Hu1 : unique_keys (schedulers sv) -> unique_keys (schedulers sv1)).
  { intros Hu. apply (unique_keys_replace _ id s); auto. }
  assert (Hj1 : jobs_are_stored sv -> jobs_are_stored sv1).
  { intros Hj i job Hi. cbn [sv1 schedulers jobs] in *.
    destruct (decide (i = id)) as [->|Hne].
    - rewrite lookup_insert_eq. eauto.
    - rewrite lookup_insert_ne by congruence. exact (Hj i job Hi). }
  assert (Hplain :
            (unique_keys (schedulers sv) -> unique_keys (schedulers sv1))
            /\ (jobs_are_stored sv -> jobs_are_stored sv1)
            /\ (exists s',
                  schedulers sv1 !! id = Some s'
                  /\ s_userId s' = s_userId s /\ s_keyword s' = s_keyword s
                  /\ totalRuns s' = totalRuns s
                  /\ successfulRuns s' = successfulRuns s
                  /\ failedRuns s' = failedRuns s /\ lastRun s' = lastRun s
                  /\ isActive s' = pick (u_isActive updates) (isActive s)
                  /\ cronExpression s'
                     = pick (u_cronExpression updates) (cronExpression s))
            /\ (forall other, other <> id ->
                  schedulers sv1 !! other = schedulers sv !! other
                  /\ jobs sv1 !! other = jobs sv !! other)).
  { split; [exact Hu1|]. split; [exact Hj1|]. split.
    - exists updated. cbn [sv1 schedulers]. rewrite lookup_insert_eq.
      repeat split.
    - intros other Hne. cbn [sv1 schedulers jobs].
      rewrite lookup_insert_ne by congruence. split; reflexivity. }
  assert (Hrecreate :
            forall o : Answer,
            let r := match createJob zone month_start validate now id
                             (s_keyword updated) (cronExpression updated)
                             (s_maxAdsPerRequest updated) (s_dailyLimit updated)
                             sv1 with
                     | Some sv2 => (Done id, sv2)
                     | None => (Failed 500 "Failed to update scheduler", sv1)
                     end in
            (unique_keys (schedulers sv) -> unique_keys (schedulers (snd r)))
            /\ (jobs_are_stored sv -> jobs_are_stored (snd r))
            /\ (exists s',
                  schedulers (snd r) !! id = Some s'
                  /\ s_userId s' = s_userId s /\ s_keyword s' = s_keyword s
                  /\ totalRuns s' = totalRuns s
                  /\ successfulRuns s' = successfulRuns s
                  /\ failedRuns s' = failedRuns s /\ lastRun s' = lastRun s
                  /\ isActive s' = pick (u_isActive updates) (isActive s)
                  /\ cronExpression s'
                     = pick (u_cronExpression updates) (cronExpression s))
            /\ (forall other, other <> id ->
                  schedulers (snd r) !! other = schedulers sv !! other
                  /\ jobs (snd r) !! other = jobs sv !! other)).
  { intros _ r. subst r.
    destruct (createJob zone month_start validate now id (s_keyword updated)
                (cronExpression updated) (s_maxAdsPerRequest updated)
                (s_dailyLimit updated) sv1) as [sv2|] eqn:Hjob;
      cbn [snd]; [|exact Hplain].
    apply createJob_Some in Hjob as (_ & Hsch & Hjid & Hjother).
    destruct Hplain as (_ & _ & _ & Hother1).
    split; [|split; [|split]].
    - intros Hu. rewrite Hsch. apply unique_keys_setNextRun. auto.
    - intros Hj i job Hi. rewrite Hsch.
      destruct (decide (i = id)) as [->|Hne].
      + rewrite lookup_alter_eq. cbn [sv1 schedulers].
        rewrite lookup_insert_eq. cbn. eauto.
      + rewrite lookup_alter_ne by congruence.
        rewrite Hjother in Hi by exact Hne. exact (Hj1 Hj i job Hi).
    - eexists. rewrite Hsch, lookup_alter_eq. cbn [sv1 schedulers].
      rewrite lookup_insert_eq. cbn [fmap option_fmap option_map].
      split; [reflexivity|]. repeat split.
    - intros other Hne. rewrite Hsch, lookup_alter_ne by congruence.
      rewrite Hjother by exact Hne. apply Hother1. exact Hne. }
  specialize (Hrecreate (Done id)). cbv zeta in Hrecreate.
  destruct (u_isActive updates) as [[|]|] eqn:Hactive.
  - destruct (createJob _ _ _ _ _ _ _ _ _ sv1) as [sv2|]; cbn [fst snd] in *;
      destruct Hrecreate as (H1 & H2 & H3 & H4);
      (split; [exact H1|]); (split; [exact H2|]); (split; [exact H3|]);
      (split; [exact H4|]); intros H; discriminate H.
  - cbn [fst snd].
    destruct (stopJob_spec id sv1) as (Hsch & Hjid & Hjother).
    destruct Hplain as (_ & _ & (s' & Hs' & Hrest) & Hother1).
    split; [|split; [|split; [|split]]].
    + intros Hu. rewrite Hsch. auto.
    + intros Hj i job Hi. rewrite Hsch.
      destruct (decide (i = id)) as [->|Hne]; [congruence|].
      rewrite Hjother in Hi by exact Hne. exact (Hj1 Hj i job Hi).
    + exists s'. rewrite Hsch. split; [exact Hs' | exact Hrest].
    + intros other Hne. rewrite Hsch, Hjother by exact Hne. apply Hother1. exact Hne.
    + intros _. split; [reflexivity|]. split; [exact Hjid|].
      intros keyword maxAds dailyQuota execId startedAt.
      unfold SchedulerService.executeScrapingJob. rewrite Hsch, Hs'.
      destruct Hrest as (_ & _ & _ & _ & _ & _ & Hact & _).
      rewrite Hact. reflexivity.
  - destruct (given_text (u_cronExpression updates)
              || given_number (u_maxAdsPerRequest updates)
              || given_number (u_dailyLimit updates)).
    + destruct (createJob _ _ _ _ _ _ _ _ _ sv1) as [sv2|]; cbn [fst snd] in *;
        destruct Hrecreate as (H1 & H2 & H3 & H4);
        (split; [exact H1|]); (split; [exact H2|]); (split; [exact H3|]);
        (split; [exact H4|]); intros H; discriminate H.
    + cbn [fst snd]. destruct Hplain as (H1 & H2 & H3 & H4).
      split; [exact H1|]. split; [exact H2|]. split; [exact H3|].
      split; [exact H4|]. intros H; discriminate H.
Qed.

End AdminFacts.

Lemma unique_keys_singleton (id : string) (s : Db.Scheduler) :
  SchedulerAdmin.unique_keys (<[id := s]> ∅).
Proof.
  intros id1 id2 s1 s2 owner H1 H2 _ _ _.
  apply lookup_insert_Some in H1 as [[<- _]|[_ H1]];
    [|rewrite lookup_empty in H1; discriminate H1].
  apply lookup_insert_Some in H2 as [[<- _]|[_ H2]];
    [reflexivity | rewrite lookup_empty in H2; discriminate H2].
Qed.

Lemma oneSchedule_jobs_are_stored :
  SchedulerAdmin.jobs_are_stored AdminScenarios.oneSchedule.
Proof.
  intros id job H. cbn in H.
  apply lookup_insert_Some in H as [[<- _]|[_ H]];
    [|rewrite lookup_empty in H; discriminate H].
  exists Scenarios.everySix. reflexivity.
Qed.

(** User [u1] asks again for a schedule of [shoes], every two minutes. *)
Lemma one_schedule_per_owner_and_keyword_witness :
  SchedulerAdmin.unique_keys
    (SchedulerAdmin.schedulers
       (snd (SchedulerAdmin.postScheduler (JsDate.fixedZone 19800000) (fun d => d)
               AdminScenarios.longEnough 9000 9001 "s2" (Some "shoes")
               (Some "*/2 * * * *") None None "u1" AdminScenarios.oneSchedule))).
Proof.
  pose proof (one_schedule_per_owner_and_keyword (JsDate.fixedZone 19800000)
                (fun d => d)
                AdminScenarios.longEnough 9000 9001 "s2" (Some "shoes")
                (Some "*/2 * * * *") None None "u1" AdminScenarios.oneSchedule) as H.
  cbv zeta in H.
  destruct H as (Hu & _);
    [reflexivity | apply unique_keys_singleton
     | apply oneSchedule_jobs_are_stored | exact Hu].
Defined.


(** User [u1] switches the schedule off. *)
Lemma update_by_owner_keeps_the_books_witness :
  SchedulerAdmin.jobs
    (snd (SchedulerAdmin.putScheduler (JsDate.fixedZone 19800000) (fun d => d)
            AdminScenarios.longEnough AdminScenarios.hex24 9000 "s1"
            AdminScenarios.switchOff "u1" AdminScenarios.oneSchedule))
    !! "s1" = None.
Proof.
  pose proof (update_by_owner_keeps_the_books (JsDate.fixedZone 19800000)
                (fun d => d) AdminScenarios.longEnough AdminScenarios.hex24
                9000 "s1" AdminScenarios.switchOff "u1"
                AdminScenarios.oneSchedule Scenarios.everySix) as H.
  cbv zeta in H.
  destruct H as (_ & _ & _ & _ & Hoff); [reflexivity | reflexivity |].
  destruct Hoff as (_ & Hjob & _); [reflexivity | exact Hjob].
Defined.

Section MissionAdminFacts.

Import Db MissionAdmin.



Variable isObjectId : string -> bool.


End MissionAdminFacts.

Section DetailLinkFacts.

Import Dom.

Variable toLowerCase : string -> string.

(** X21. The detail-link strategy never reports a container twice, and
    every container it reports is an element of the page other than the
    search root and the body, wider than 200 and higher than 100, that
    lies at most twelve levels above a link, span or division under the
    search root whose trimmed, lower-cased text is one of the three
    detail phrases. *)
Theorem detail_link_containers_are_distinct_and_sized
    (body : Node) (searchRoot : Path) :
  NoDup (byDetailLinks toLowerCase body searchRoot)
  /\ (forall card, In card (byDetailLinks toLowerCase body searchRoot) ->
      card <> searchRoot /\ card <> []
      /\ (exists el, nodeAt body card = Some el
                     /\ 200 < widthOf el /\ 100 < heightOf el)
      /\ exists root link,
           nodeAt body searchRoot = Some root
           /\ In link (descendants searchRoot root)
           /\ isDetailPhrase toLowerCase (snd link) = true
           /\ (isTag "a" (snd link) || isTag "span" (snd link)
               || isTag "div" (snd link)) = true
           /\ card `prefix_of` fst link
           /\ (List.length (fst link) <= List.length card + 12)%nat).
Proof.
  destruct (nodeAt body searchRoot) as [root|] eqn:Hroot.
  2:{ unfold byDetailLinks. rewrite Hroot.
      split; [constructor | intros card H; destruct H]. }
  destruct (byDetailLinks_spec toLowerCase body searchRoot root Hroot)
    as [Hnd Hcards].
  split; [exact Hnd|].
  intros card Hcard.
  apply Hcards in Hcard as (link & Hdesc & Htag & Hphrase & Hclimb).
  destruct (climb_within 12 body searchRoot _ _ Hclimb) as (Hp & Hl & Hr & Hb & Hel).
  split; [exact Hr|]. split; [exact Hb|]. split; [exact Hel|].
  exists root, link.
  split; [reflexivity|]. split; [exact Hdesc|]. split; [exact Hphrase|].
  split; [exact Htag|]. split; [exact Hp | exact Hl].
Qed.

End DetailLinkFacts.

(** The page of [Scenarios.detailPage], where the text of the links has
    capitals and spaces around it. *)
Lemma detail_link_containers_are_distinct_and_sized_witness :
  exists card el,
    In card (Dom.byDetailLinks Js.toLowerCaseASCII Scenarios.detailPage [0%nat])
    /\ Dom.nodeAt Scenarios.detailPage card = Some el
    /\ 200 < Dom.widthOf el /\ 100 < Dom.heightOf el.
Proof.
  destruct (detail_link_containers_are_distinct_and_sized Js.toLowerCaseASCII
              Scenarios.detailPage [0%nat]) as (_ & Hcards).
  assert (Hcard : In [0; 0; 0]%nat
                    (Dom.byDetailLinks Js.toLowerCaseASCII Scenarios.detailPage
                       [0%nat]))
    by (vm_compute; left; reflexivity).
  destruct (Hcards _ Hcard) as (_ & _ & (el & Hel & Hw & Hh) & _).
  exists [0; 0; 0]%nat, el. split; [exact Hcard|]. split; [exact Hel|].
  split; [exact Hw | exact Hh].
Defined.
Section ProgressFacts.

Import Db Protocol.

Variable numberOf : string -> option Z.

Lemma matchNewAdProgress_total (s : string) (count total : string) :
  matchNewAdProgress s = Some (count, total) ->
  total = "+" /\ count <> ""
  /\ parseInt numberOf count
     = match numberOf count with
       | Some v => Whole v
       | None => Infinity
       end.
Proof.
  induction s as [|c rest IH].
  - cbn. intros H. discriminate H.
  - cbn [matchNewAdProgress]. cbv zeta.
    destruct (String.prefix "NEW AD [" (String c rest)); [|exact IH].
    destruct (takeDigits (dropChars 8 (String c rest))) as [|d ds] eqn:Ed; [exact IH|].
    destruct (String.prefix "/+]" _); [|exact IH].
    intros H. injection H as <- <-.
    split; [reflexivity|]. split; [discriminate|].
    unfold parseInt.
    assert (Hidem : forall t, takeDigits (takeDigits t) = takeDigits t).
    { induction t as [|x t IHt]; [reflexivity|].
      cbn. destruct (is_digit x) eqn:Ex; [|reflexivity].
      cbn. rewrite Ex, IHt. reflexivity. }
    rewrite <- Ed, Hidem, Ed. reflexivity.
Qed.

(** X22. The progress listener of a scheduled job never changes the
    count of found records, nor status, end time or any counter other
    than the count of new records: the second group of its pattern can
    only hold a plus sign, which is no number. The count of new records
    changes only on a chunk in whose text [NEW AD], an opening bracket,
    a run of digits, a slash, a plus sign and a closing bracket follow
    one another, and then to the Number that [parseInt] reads from the
    digits when that is not zero; a run of digits too long for a finite
    Number makes the count infinite. *)
Theorem scheduled_progress_moves_newAds_only (data : string) (mission : Mission) :
  let output := Js.decodeUtf8 data in
  let result := SchedulerService.onStdoutData numberOf data mission in
  (matchNewAdProgress output = None -> result = Some mission)
  /\ (forall count total,
        matchNewAdProgress output = Some (count, total) ->
        total = "+" /\ count <> ""
        /\ match numberOf count with
           | Some v =>
               exists after,
                 result = Some after
                 /\ newAds after = (if v =? 0 then newAds mission else v)
           | None => result = None
           end)
  /\ (forall after, result = Some after ->
        adsFound after = adsFound mission
        /\ status after = status mission /\ endTime after = endTime mission
        /\ duplicatesSkipped after = duplicatesSkipped mission
        /\ adsProcessed after = adsProcessed mission
        /\ m_userId after = m_userId mission /\ m_keyword after = m_keyword mission).
Proof.
  intros output result. subst output result.
  unfold SchedulerService.onStdoutData. cbv zeta.
  destruct (matchNewAdProgress (Js.decodeUtf8 data)) as [[count total]|] eqn:Hm.
  - destruct (matchNewAdProgress_total _ _ _ Hm) as (-> & Hne & Hparse).
    assert (Hplus : parseInt numberOf "+" = NaN) by reflexivity.
    rewrite Hparse, Hplus. cbn [orElse].
    split; [intros H; discriminate H|].
    split.
    + intros c t H. injection H as <- <-. split; [reflexivity|].
      split; [exact Hne|].
      destruct (numberOf count) as [v|]; cbn [orElse]; [|reflexivity].
      eexists. split; [reflexivity|]. cbn. lia.
    + intros after. destruct (numberOf count) as [v|]; cbn [orElse];
        [|intros H; discriminate H].
      intros H. injection H as <-. cbn.
      repeat match goal with |- _ /\ _ => split end; try reflexivity; lia.
  - split; [reflexivity|]. split; [intros c t H; discriminate H|].
    intros after H. injection H as <-.
    repeat match goal with |- _ /\ _ => split end; reflexivity.
Qed.

End ProgressFacts.

(** A chunk with the line of the worker for its second record, which
    has the cap of the request where the pattern wants a plus sign. *)
Lemma scheduled_progress_moves_newAds_only_witness :
  SchedulerService.onStdoutData Scenarios.shortNumber (Scenarios.tagLine 2)
    Scenarios.scheduledMission
  = Some Scenarios.scheduledMission.
Proof.
  pose proof (scheduled_progress_moves_newAds_only Scenarios.shortNumber
                (Scenarios.tagLine 2) Scenarios.scheduledMission) as H.
  cbv zeta in H. destruct H as (Hnone & _).
  apply Hnone. vm_compute. reflexivity.
Defined.

Section WorkerStoreFacts.

Import Db.

Context {Page : Type}.
Variable browser : Scraper.Browser Page.
Variable scraperConfig : Scraper.ScraperConfig.
Variable zone : JsDate.Zone.
Variable fault_at : nat -> Fault.
Variable clock : nat -> Z.

Variable kw : string.
Variable owner : option string.

(** A property of the collection that every call of [saveAd] for this
    keyword and owner keeps. *)
Variable kept : list Ad -> Prop.
Hypothesis saveAd_keeps :
  forall fault now adv desc ph ads,
    kept ads ->
    kept (ads_after (saveAd fault now adv desc kw ph None None owner ads)).

Lemma saveBatch_keeps (executionId : string) (maxAds : Z)
    (extractedAds : list Scraper.AdData) :
  forall (stats : Scraper.Stats) (batchNew : Z) (w : @Scraper.World Page),
  kept (Scraper.ads w) ->
  kept (Scraper.ads
          (snd (Scraper.saveBatch fault_at clock kw executionId maxAds owner
                  extractedAds stats batchNew w))).
Proof.
  induction extractedAds as [|adData rest IH]; intros stats batchNew w Hw;
    [exact Hw|].
  cbn [Scraper.saveBatch].
  destruct (Scraper.savedCount stats >=? maxAds); [exact Hw|].
  cbv zeta.
  destruct (returned _); apply IH; cbn [Scraper.say Scraper.ads];
    apply saveAd_keeps; exact Hw.
Qed.

Lemma iteration_keeps (executionId : string) (maxAds dailyQuota : Z)
    (l : @Scraper.Loop Page) :
  kept (Scraper.ads (Scraper.world l)) ->
  match Scraper.iteration browser scraperConfig zone fault_at clock kw
          executionId maxAds dailyQuota owner l with
  | Scraper.GoOn l' => kept (Scraper.ads (Scraper.world l'))
  | Scraper.Leave l' => kept (Scraper.ads (Scraper.world l'))
  | Scraper.Raise l' _ => kept (Scraper.ads (Scraper.world l'))
  end.
Proof.
  intros Hl. unfold Scraper.iteration. cbv zeta.
  destruct (Scraper.getCardCount browser (Scraper.page (Scraper.world l)))
    as [message|count]; [exact Hl|].
  destruct (count =? 0).
  { repeat match goal with
           | |- context [if ?b then _ else _] => destruct b
           end; exact Hl. }
  destruct (Z.min _ _ <=? 0).
  { destruct (Scraper.scrollForMoreContent browser _) as [scrollWorked p1].
    repeat match goal with
           | |- context [if ?b then _ else _] => destruct b
           end; exact Hl. }
  match goal with
  | |- context [Scraper.saveBatch ?f ?c ?k ?e ?m ?o ?x ?s ?b ?w0] =>
      pose proof (saveBatch_keeps e m x s b w0 Hl) as Hbatch;
        destruct (Scraper.saveBatch f c k e m o x s b w0) as [[st1 batchNew] w1]
  end.
  cbn [snd] in Hbatch.
  repeat match goal with
         | |- context [if ?b then _ else _] => destruct b
         end; exact Hbatch.
Qed.

Lemma loop_keeps (executionId : string) (maxAds dailyQuota : Z) (fuel : nat) :
  forall l : @Scraper.Loop Page,
  kept (Scraper.ads (Scraper.world l)) ->
  match Scraper.performEnhancedScraping browser scraperConfig zone fault_at
          clock fuel kw executionId maxAds dailyQuota owner l with
  | Some (inr l') => kept (Scraper.ads (Scraper.world l'))
  | Some (inl (l', _)) => kept (Scraper.ads (Scraper.world l'))
  | None => True
  end.
Proof.
  induction fuel as [|fuel IH]; intros l Hl.
  - cbn [Scraper.performEnhancedScraping]. destruct (_ && _); [exact I | exact Hl].
  - cbn [Scraper.performEnhancedScraping]. destruct (_ && _); [|exact Hl].
    pose proof (iteration_keeps executionId maxAds dailyQuota l Hl) as Hstep.
    destruct (Scraper.iteration _ _ _ _ _ _ _ _ _ _ l) as [l'|l'|l' message].
    + apply IH. exact Hstep.
    + exact Hstep.
    + exact Hstep.
Qed.

End WorkerStoreFacts.

Section WorkerOwnerFacts.

Import Db.

Context {Page : Type}.
Variable browser : Scraper.Browser Page.
Variable scraperConfig : Scraper.ScraperConfig.
Variable zone : JsDate.Zone.
Variable fault_at : nat -> Fault.
Variable clock : nat -> Z.

(** X23. A run of a worker that comes to an end has attributed what it
    stored: whatever the page shows, however often it is reloaded and
    whatever faults the store has, the run removes and reorders nothing
    of what it found in the collection, and every record it adds
    carries the owner that the lookup of the worker's mission gave
    (none when the mission is not stored or has no owner, and none as
    well when the lookup failed), the keyword of the run and no address
    or start date. *)
Theorem worker_run_attributes_what_it_stores
    (fuel : nat) (navigation : option string) (kw : string)
    (maxAds dailyQuota : Z) (id : string) (missions : gmap string Mission)
    (lookup_ok : bool) (w : @Scraper.World Page)
    (run : @Scraper.WorkerRun Page) :
  Scraper.scrapeAds browser scraperConfig zone fault_at clock fuel navigation
    kw maxAds dailyQuota id missions lookup_ok w = Some run ->
  let owner := if lookup_ok
               then match missions !! id with
                    | Some m => m_userId m
                    | None => None
                    end
               else None in
  exists added,
    Scraper.ads (Scraper.run_world run) = (Scraper.ads w ++ added)%list
    /\ Forall (fun a => userId a = owner /\ keyword a = kw
                        /\ address a = None /\ ad_start_date a = None) added.
Proof.
  intros Hrun owner. unfold Scraper.scrapeAds, Scraper.ownerOf in Hrun.
  fold owner in Hrun.
  set (attributed := fun ads : list Ad =>
         exists added,
           ads = (Scraper.ads w ++ added)%list
           /\ Forall (fun a => userId a = owner /\ keyword a = kw
                               /\ address a = None /\ ad_start_date a = None)
                added).
  assert (Hattributed : forall fault now adv desc ph ads,
             attributed ads ->
             attributed (ads_after (saveAd fault now adv desc kw ph None None owner ads))).
  { intros fault now adv desc ph ads (added & -> & Hall).
    destruct (returned (saveAd fault now adv desc kw ph None None owner
                          (Scraper.ads w ++ added))) eqn:Er.
    - apply saveAd_true in Er as [_ ->].
      exists (added ++ [mkAd owner adv desc now kw ph None None])%list.
      rewrite app_assoc. split; [reflexivity|].
      apply Forall_app. split; [exact Hall|].
      constructor; [|constructor]. cbn. auto.
    - rewrite (saveAd_false _ _ _ _ _ _ _ _ _ _ Er). exists added. auto. }
  assert (Hstart : attributed (Scraper.ads w)).
  { exists []. rewrite app_nil_r. split; [reflexivity | constructor]. }
  destruct navigation as [message|].
  { injection Hrun as <-. cbn [Scraper.run_world]. exact Hstart. }
  pose proof (loop_keeps browser scraperConfig zone fault_at clock kw
                owner attributed Hattributed id maxAds dailyQuota fuel
                (Scraper.mkLoop Scraper.initialStats 0 0 0 w) Hstart) as H2.
  destruct (Scraper.performEnhancedScraping browser scraperConfig zone fault_at
              clock fuel kw id maxAds dailyQuota owner
              (Scraper.mkLoop Scraper.initialStats 0 0 0 w))
    as [[[l' message]|l']|] eqn:Hloop; [| |discriminate Hrun];
    injection Hrun as <-; cbn [Scraper.run_world]; exact H2.
Qed.

End WorkerOwnerFacts.

(** The run of the worker of mission [m1] over a page with a record
    that is stored already and a new one. *)
Lemma worker_run_attributes_what_it_stores_witness :
  exists run added,
    Scenarios.worker [Scenarios.acme; Scenarios.bolt] [] [Scenarios.acmeAd]
    = Some run
    /\ Scraper.ads (Scraper.run_world run) = (Scenarios.acmeAd :: added)%list
    /\ Forall (fun a => Db.userId a = Some "u1") added.
Proof.
  destruct (Scenarios.worker [Scenarios.acme; Scenarios.bolt] []
              [Scenarios.acmeAd]) as [run|] eqn:Erun;
    [|vm_compute in Erun; discriminate Erun].
  pose proof (worker_run_attributes_what_it_stores
                (Scenarios.listBrowser []) Scraper.defaultScraperConfig
                (JsDate.fixedZone 19800000)
                (fun _ => Db.NoFault) Scenarios.secondsClock 200 None "shoes"
                100 5000 "m1" (Server.missions Scenarios.started) true
                (Scraper.mkWorld [Scenarios.acme; Scenarios.bolt]
                   [Scenarios.acmeAd] [] 0 0) run Erun) as H.
  cbv zeta in H. destruct H as (added & Hads & Hall).
  exists run, added. split; [reflexivity|]. split; [exact Hads|].
  apply (Forall_impl _ _ _ Hall). intros a (Hu & _). exact Hu.
Defined.

Section StuckFacts.

Import Db.

Context {Page : Type}.
Variable browser : Scraper.Browser Page.
Variable scraperConfig : Scraper.ScraperConfig.
Variable zone : JsDate.Zone.
Variable fault_at : nat -> Fault.
Variable clock : nat -> Z.

Variable count : Z.
Hypothesis cards_shown : forall p, Scraper.getCardCount browser p = inr count.
Hypothesis none_extracted :
  forall p startIndex batchSize,
    Scraper.extractAllCardsInBrowser browser p startIndex batchSize = [].

Lemma getStats_le_length (now : Z) (owner : option string) (ads : list Ad) :
  getStats zone now owner ads <= Z.of_nat (List.length ads).
Proof.
  unfold getStats. cbv zeta.
  pose proof (List.filter_length_le
                (fun a => (JsDate.setHours4 zone now 0 0 0 0 <=? scrape_date a)
                          && match owner with
                             | Some u => match userId a with
                                         | Some v => String.eqb v u
                                         | None => false
                                         end
                             | None => true
                             end) ads).
  lia.
Qed.

(** X24. When the page shows cards but the extraction yields none of
    them, a pass of the loop changes nothing but the count of batches
    (and of memory clean-ups) and the output, and the loop does not end
    by itself: as long as the cap and the daily quota are not reached,
    no number of passes is enough. *)
Theorem unreadable_cards_keep_the_loop_going
    (kw executionId : string) (maxAds dailyQuota : Z) (owner : option string)
    (w : @Scraper.World Page) (fuel : nat) :
  0 < count ->
  0 < Scraper.batchProcessingSize scraperConfig ->
  0 < Scraper.maxScrollAttempts scraperConfig ->
  0 < maxAds ->
  Z.of_nat (List.length (Scraper.ads w)) < dailyQuota ->
  Scraper.performEnhancedScraping browser scraperConfig zone fault_at clock
    fuel kw executionId maxAds dailyQuota owner
    (Scraper.mkLoop Scraper.initialStats 0 0 0 w) = None.
Proof.
  intros Hcount Hsize Hscroll Hcap Hquota.
  assert (Hgen : forall l : @Scraper.Loop Page,
             Scraper.savedCount (Scraper.stats l) = 0 ->
             Scraper.processedCount (Scraper.stats l) = 0 ->
             Scraper.scrollAttempts (Scraper.stats l) = 0 ->
             Scraper.ads (Scraper.world l) = Scraper.ads w ->
             Scraper.performEnhancedScraping browser scraperConfig zone fault_at
               clock fuel kw executionId maxAds dailyQuota owner l = None).
  { induction fuel as [|n IH]; intros l Hs Hp Ha Hw;
      cbn [Scraper.performEnhancedScraping]; rewrite Hs, Ha;
      (replace (0 <? maxAds) with true by (symmetry; apply Z.ltb_lt; lia));
      (replace (0 <? Scraper.maxScrollAttempts scraperConfig) with true
         by (symmetry; apply Z.ltb_lt; lia));
      cbn [andb]; [reflexivity|].
    unfold Scraper.iteration. cbv zeta.
    set (st0 := if (0 <? Scraper.batchesProcessed (Scraper.stats l))
                   && (Scraper.batchesProcessed (Scraper.stats l)
                       mod Scraper.memoryCleanupInterval scraperConfig =? 0)
                then Scraper.performMemoryCleanup (Scraper.stats l)
                else Scraper.stats l).
    assert (Hst0 : Scraper.savedCount st0 = 0 /\ Scraper.processedCount st0 = 0
                   /\ Scraper.scrollAttempts st0 = 0).
    { subst st0. destruct (_ && _); cbn; auto. }
    destruct Hst0 as (Hs0 & Hp0 & Ha0). clearbody st0.
    rewrite cards_shown.
    replace (count =? 0) with false by (symmetry; apply Z.eqb_neq; lia).
    rewrite Hp0.
    replace (Z.min (Scraper.batchProcessingSize scraperConfig) (count - 0) <=? 0)
      with false by (symmetry; apply Z.leb_gt; lia).
    rewrite none_extracted. cbn [Scraper.saveBatch].
    cbn [Scraper.countBatch Scraper.savedCount Scraper.processedCount
         Z.ltb Z.compare andb].
    rewrite Hs0, Hp0.
    replace (0 <? maxAds) with true by (symmetry; apply Z.ltb_lt; lia).
    replace (0 >=? count) with false
      by (symmetry; rewrite Z.geb_leb; apply Z.leb_gt; lia).
    replace (0 >=? maxAds) with false
      by (symmetry; rewrite Z.geb_leb; apply Z.leb_gt; lia).
    cbn [andb].
    match goal with
    | |- context [getStats ?t ?n ?o ?a >=? dailyQuota] =>
        replace (getStats t n o a >=? dailyQuota) with false
    end.
    2:{ symmetry. rewrite Z.geb_leb. apply Z.leb_gt.
        match goal with
        | |- getStats ?t ?n ?o ?a < _ => pose proof (getStats_le_length n o a) as Hle
        end.
        cbn [Scraper.say Scraper.ads] in Hle |- *. rewrite Hw in Hle |- *. lia. }
    rewrite andb_false_r.
    apply IH; cbn; auto. }
  apply Hgen; reflexivity.
Qed.

End StuckFacts.

Lemma unreadable_cards_keep_the_loop_going_witness :
  Scraper.performEnhancedScraping StuckScenarios.unreadableBrowser
    Scraper.defaultScraperConfig (JsDate.fixedZone 19800000) (fun _ => Db.NoFault)
    Scenarios.secondsClock 1000 "shoes" "m1" 100 5000 (Some "u1")
    (Scraper.mkLoop Scraper.initialStats 0 0 0
       (Scraper.mkWorld tt [Scenarios.acmeAd] [] 0 0)) = None.
Proof.
  apply (unreadable_cards_keep_the_loop_going StuckScenarios.unreadableBrowser
           Scraper.defaultScraperConfig (JsDate.fixedZone 19800000)
           (fun _ => Db.NoFault)
           Scenarios.secondsClock 3 (fun _ => eq_refl) (fun _ _ _ => eq_refl));
    [lia | reflexivity | reflexivity | lia | cbn; lia].
Defined.
